(** * Market-data synchronisation tasks: retry policy, reconciliation and
      batch application

    A shallow embedding of the Python sync tasks under [backend/task]
    (modules [common.base_processor], [fundsync] and [stocksync]) together
    with the properties of the reconciliation and batch-sync engine.

    Conventions of the embedding.
    - Python [int]s are [Z]; loop indices produced by [range] are [nat].
    - Python [str] is [string] (a byte string; source literals are kept in
      their UTF-8 encoding).
    - A [set] is a [gset], a [dict] with string keys a [gmap string _].
    - A call that may raise returns an [outcome]; code that talks to the
      data providers or to the database runs in the state-and-exception
      monad [M] over a [world].
    - Log statements have no effect on results and are left out. *)

From Stdlib Require Import ZArith String Ascii List Bool Lia.
From stdpp Require Import base option list gmap strings fin_maps.

Local Open Scope Z_scope.

(** ** Python values and exceptions *)

Module Py.

(** A raised exception: [type(e).__name__] and [str(e)]. *)
Record py_error : Type := PyError { exn_type : string; exn_msg : string }.

(** Result of a call that either returns or raises. *)
Inductive outcome (A : Type) : Type :=
| Returns (a : A)
| Raises (e : py_error).
Arguments Returns {A} a.
Arguments Raises {A} e.

(** A [float]: either not-a-number or a number.  Numbers are only copied
    and compared with zero by the code modelled here, so their magnitude
    is kept as an integer.  A NaN is not equal to itself, but the
    membership test of a [set] finds an object that is already in the
    set by its identity: a NaN carries the identity of its float object,
    so that two NaNs are the same value exactly if they are the same
    object, which is how [x in s], [s.add(x)] and the set operations
    treat them. *)
Inductive pyfloat : Type :=
| FNaN (obj : nat)
| FNum (z : Z).

(** The values found in the cells of a provider table. *)
Inductive pyval : Type :=
| PNone
| PStr (s : string)
| PFloat (f : pyfloat).

(** Python truthiness: [None], [""] and [0.0] are false, NaN is true. *)
Definition truthy (v : pyval) : bool :=
  match v with
  | PNone => false
  | PStr s => negb (String.eqb s "")
  | PFloat (FNaN _) => true
  | PFloat (FNum z) => negb (z =? 0)
  end.

(** [type(v).__name__]. *)
Definition type_name (v : pyval) : string :=
  match v with
  | PNone => "NoneType"
  | PStr _ => "str"
  | PFloat _ => "float"
  end.

(** [a or b]. *)
Definition py_or (a b : pyval) : pyval := if truthy a then a else b.

(** [str.lower()] of one ASCII character. *)
Definition lower_ascii (c : ascii) : ascii :=
  let n := nat_of_ascii c in
  if ((65 <=? n) && (n <=? 90))%nat then ascii_of_nat (n + 32) else c.

(** [str.lower()] on UTF-8 text, as far as ASCII characters are
    concerned: the letters [A]-[Z] are lowered, and so are the two
    characters outside ASCII whose lower-case form has an ASCII
    character, U+212A (Kelvin sign, bytes E2 84 AA, lowered to [k]) and
    U+0130 (capital I with dot above, bytes C4 B0, lowered to [i]
    followed by U+0307, bytes CC 87).  Every other character outside
    ASCII is kept as it is: its lower-case form is again outside ASCII,
    so that a search for an ASCII keyword in the lowered text gives the
    same answer. *)
Fixpoint lower (s : string) : string :=
  match s with
  | EmptyString => EmptyString
  | String c t =>
      match t with
      | String c1 t1 =>
          if ((nat_of_ascii c =? 196) && (nat_of_ascii c1 =? 176))%nat
          then String "i" (String (ascii_of_nat 204)
                             (String (ascii_of_nat 135) (lower t1)))
          else
            match t1 with
            | String c2 t2 =>
                if ((nat_of_ascii c =? 226) && (nat_of_ascii c1 =? 132)
                    && (nat_of_ascii c2 =? 170))%nat
                then String "k" (lower t2)
                else String (lower_ascii c) (lower t)
            | EmptyString => String (lower_ascii c) (lower t)
            end
      | EmptyString => String (lower_ascii c) (lower t)
      end
  end.

(** [needle in hay] for strings: [needle] occurs as a contiguous
    substring of [hay]. *)
Fixpoint str_in (needle hay : string) : bool :=
  String.prefix needle hay
  || match hay with
     | EmptyString => false
     | String _ t => str_in needle t
     end.

(** [any(keyword in s for keyword in keywords)]. *)
Definition any_in (keywords : list string) (s : string) : bool :=
  existsb (fun keyword => str_in keyword s) keywords.

(** [x in xs] for a list of strings. *)
Definition str_mem (x : string) (xs : list string) : bool :=
  existsb (String.eqb x) xs.

(** [[l[i:i+n] for i in range(0, len(l), n)]] for a positive step [n]:
    the start offsets, then the slices. *)
Definition range_step (stop step : nat) : list nat :=
  map (fun k => (k * step)%nat) (seq 0 ((stop + step - 1) / step)).

Definition slices {A : Type} (n : nat) (l : list A) : list (list A) :=
  map (fun i => take n (drop i l)) (range_step (length l) n).

End Py.
Import Py.

#[global] Instance pyfloat_eq_dec : EqDecision pyfloat.
Proof. solve_decision. Defined.

#[global] Instance pyval_eq_dec : EqDecision pyval.
Proof. solve_decision. Defined.

#[global] Instance pyval_countable : Countable pyval.
Proof.
  refine (inj_countable'
    (fun v => match v with
              | PNone => inl tt
              | PStr s => inr (inl s)
              | PFloat (FNaN obj) => inr (inr (inl obj))
              | PFloat (FNum z) => inr (inr (inr z))
              end)
    (fun x => match x with
              | inl _ => PNone
              | inr (inl s) => PStr s
              | inr (inr (inl obj)) => PFloat (FNaN obj)
              | inr (inr (inr z)) => PFloat (FNum z)
              end) _).
  intros [| s | [obj | z]]; reflexivity.
Defined.

(** Whether [sorted(codes)] of a set finds an order: values of one type
    are compared with each other, a [str] and a [float] (or [None])
    cannot be, and [sorted] then raises [TypeError]. *)
Definition orderable (codes : gset pyval) : bool :=
  match map type_name (elements codes) with
  | [] => true
  | t :: rest => forallb (String.eqb t) rest
  end.

(** ** Error classification and retry policy ([common/base_processor.py]) *)

Module Retry.

(** [BaseDataProcessor._classify_error]. *)
Definition _classify_error (error : py_error) : string :=
  let error_str := lower (exn_msg error) in
  let error_type := exn_type error in
  if str_in "chunkedencodingerror" (lower error_type)
     || str_in "chunked encoding" error_str
  then "CHUNKED_ENCODING"
  else if any_in ["timeout"; "timed out"] error_str
  then "TIMEOUT"
  else if any_in ["connection"; "network"; "unreachable"] error_str
  then "NETWORK"
  else if any_in ["rate limit"; "too many requests"; "429"] error_str
  then "RATE_LIMIT"
  else if any_in ["500"; "502"; "503"; "504"; "server error"] error_str
  then "SERVER_ERROR"
  else if any_in ["unauthorized"; "forbidden"; "401"; "403"] error_str
  then "AUTH_ERROR"
  else if any_in ["not found"; "404"] error_str
  then "NOT_FOUND"
  else if any_in ["empty"; "no data"] error_str
  then "NO_DATA"
  else if str_in "length mismatch" error_str
          && str_in "expected axis has 0 elements" error_str
  then "PANDAS_MISMATCH"
  else if any_in ["json"; "parse"; "decode"; "format"] error_str
  then "DATA_FORMAT_ERROR"
  else if str_in "database" error_str
          || str_mem error_type ["DatabaseError"; "OperationalError"]
  then "DATABASE_ERROR"
  else "UNKNOWN".

(** [BaseDataProcessor._should_retry]. *)
Definition _should_retry (error_type : string) (attempt : nat)
    (max_retry : Z) : bool :=
  if Z.of_nat attempt >=? max_retry then false
  else if str_mem error_type ["AUTH_ERROR"; "NOT_FOUND"; "DATA_FORMAT_ERROR"]
  then false
  else if String.eqb error_type "RATE_LIMIT" && (2 <=? attempt)%nat
  then false
  else true.

(** [BaseDataProcessor._get_retry_delay]. *)
Definition _get_retry_delay (error_type : string) (base_delay : Z)
    (attempt : nat) : Z :=
  if String.eqb error_type "RATE_LIMIT"
  then base_delay * 2 ^ Z.of_nat attempt + 5
  else if String.eqb error_type "CHUNKED_ENCODING"
  then base_delay + 2
  else if String.eqb error_type "TIMEOUT"
  then base_delay + Z.of_nat attempt
  else if String.eqb error_type "NETWORK"
  then base_delay * Z.of_nat attempt
  else if String.eqb error_type "SERVER_ERROR"
  then base_delay * 2
  else if String.eqb error_type "PANDAS_MISMATCH"
  then base_delay * (Z.of_nat attempt + 1)
  else base_delay.

End Retry.

(** ** The host: data providers, clock and database

    Everything outside the task code is one deterministic state machine
    of an arbitrary state type.  The task code is a client of it; every
    provider call, sleep and database operation it issues is also
    appended to a journal, so that "no storage call was made" is a
    statement about the journal. *)

Module Host.

(** A provider table ([pandas.DataFrame]): column labels and rows of
    cells, each row aligned with the labels. *)
Record dataframe : Type :=
  DataFrame { columns : list string; rows : list (list pyval) }.

(** [len(df)] and [df.empty] (some axis has length zero). *)
Definition df_len (df : dataframe) : nat := length (rows df).

Definition df_empty (df : dataframe) : bool :=
  match rows df, columns df with
  | [], _ => true
  | _, [] => true
  | _, _ => false
  end.

(** [df.iloc[i:j]]. *)
Definition df_iloc (i j : nat) (df : dataframe) : dataframe :=
  DataFrame (columns df) (take (j - i) (drop i (rows df))).

(** A fund tuple [(code, name, fund_type, price)]. *)
Record fund_record : Type := FundRecord
  { code : pyval; name : pyval; fund_type : string;
    price : option pyfloat }.

(** A cleaned stock row ([to_dict(orient="records")]): the two key
    columns and the remaining quote columns. *)
Record stock_record : Type := StockRecord
  { symbol : pyval; datetime_col : pyval; quote : list (string * pyval) }.

(** The SQL statements of [common/sql_queries.py] with their
    parameters. *)
Inductive stmt : Type :=
| GET_EXISTING_SYMBOLS
| UPDATE_STOCK (market : string) (batch_data : list stock_record)
| UPDATE_STOCK_ONE (market : string) (record : stock_record)
| INSERT_STOCK (market : string) (batch_data : list stock_record)
| INSERT_STOCK_ONE (market : string) (record : stock_record)
| MARK_STOCKS_DELETED (symbols : list pyval) (market : string)
| GET_EXISTING_FUND_CODES
| MARK_FUNDS_DELETED (codes : list pyval)
| INSERT_FUNDS_BATCH
    (insert_data : list (pyval * pyval * string * option pyfloat * string))
| UPDATE_FUNDS_BATCH (update_data : list (pyval * pyval * option pyfloat)).

(** What [conn.execute] hands back: [rowcount] and [fetchall()]. *)
Record cursor : Type :=
  Cursor { rowcount : Z; fetchall : list (list pyval) }.

(** [datetime.datetime.now()]: the fields the tasks read. *)
Record pydatetime : Type :=
  PyDateTime { month : Z; hour : Z; minute : Z; second : Z }.

Record host : Type := MkHost
  { hstate : Type;
    (** [time.time()], in clock ticks *)
    h_time : hstate -> Z;
    (** [datetime.datetime.now()] *)
    h_now : hstate -> pydatetime;
    (** [time.sleep(seconds)] *)
    h_sleep : Z -> hstate -> hstate;
    (** [hasattr(ak, name)] *)
    h_has_api : string -> bool;
    (** [getattr(ak, name)()]: a table, [None], or an exception *)
    h_fetch : string -> hstate -> outcome (option dataframe) * hstate;
    (** [float(text)] of the interpreter *)
    h_float : string -> option pyfloat;
    (** [str(e)] of the [TypeError] that [sorted] raises on a set it
        cannot order: which two values meet first, and so which type
        is named first, depends on the iteration order of the set *)
    h_unorderable : gset pyval -> string;
    (** [get_db_engine()]: the pooled engine, created on first use *)
    h_engine : hstate -> outcome unit * hstate;
    (** [engine.connect()] / [engine.begin()] *)
    h_connect : hstate -> outcome unit * hstate;
    h_execute : stmt -> hstate -> outcome cursor * hstate;
    (** leaving the transaction scope normally *)
    h_commit : hstate -> outcome unit * hstate;
    (** leaving it by an exception, or closing without commit *)
    h_rollback : hstate -> hstate }.

Inductive event : Type :=
| EvFetch (api_func : string)
| EvSleep (seconds : Z)
| EvEngine
| EvConnect
| EvExecute (s : stmt)
| EvCommit
| EvRollback.

(** Events that reach the database. *)
Definition is_storage_event (ev : event) : bool :=
  match ev with
  | EvConnect | EvExecute _ | EvCommit | EvRollback => true
  | EvFetch _ | EvSleep _ | EvEngine => false
  end.

Record world (H : host) : Type :=
  World { hs : hstate H; journal : list event }.
Arguments World {H} hs journal.
Arguments hs {H} w.
Arguments journal {H} w.

(** State-and-exception monad: the world is threaded through both
    normal and exceptional exits. *)
Definition M (H : host) (A : Type) : Type :=
  world H -> outcome A * world H.

Definition ret {H A} (a : A) : M H A := fun w => (Returns a, w).

Definition raise {H A} (e : py_error) : M H A := fun w => (Raises e, w).

Definition bind {H A B} (m : M H A) (k : A -> M H B) : M H B :=
  fun w =>
    match m w with
    | (Returns a, w') => k a w'
    | (Raises e, w') => (Raises e, w')
    end.

(** [try: m  except Exception as e: ...] reified: never raises. *)
Definition try_ {H A} (m : M H A) : M H (outcome A) :=
  fun w => let '(r, w') := m w in (Returns r, w').

(** Re-raise a reified outcome. *)
Definition unwrap {H A} (r : outcome A) : M H A :=
  match r with
  | Returns a => ret a
  | Raises e => raise e
  end.

(** [try: m  finally: cleanup]. *)
Definition finally {H A} (m : M H A) (cleanup : M H unit) : M H A :=
  fun w =>
    let '(r, w1) := m w in
    match cleanup w1 with
    | (Returns _, w2) => (r, w2)
    | (Raises e, w2) => (Raises e, w2)
    end.

Definition log {H} (ev : event) (w : world H) (s : hstate H) : world H :=
  World s (journal w ++ [ev]).

Definition time {H} : M H Z := fun w => (Returns (h_time H (hs w)), w).

Definition now {H} : M H pydatetime :=
  fun w => (Returns (h_now H (hs w)), w).

Definition sleep {H} (seconds : Z) : M H unit :=
  fun w => (Returns tt, log (EvSleep seconds) w (h_sleep H seconds (hs w))).

Definition fetch {H} (api_func : string) : M H (option dataframe) :=
  fun w => let '(r, s) := h_fetch H api_func (hs w) in
           (r, log (EvFetch api_func) w s).

Definition get_db_engine {H} : M H unit :=
  fun w => let '(r, s) := h_engine H (hs w) in (r, log EvEngine w s).

Definition connect {H} : M H unit :=
  fun w => let '(r, s) := h_connect H (hs w) in (r, log EvConnect w s).

Definition execute {H} (s : stmt) : M H cursor :=
  fun w => let '(r, s') := h_execute H s (hs w) in
           (r, log (EvExecute s) w s').

Definition commit {H} : M H unit :=
  fun w => let '(r, s) := h_commit H (hs w) in (r, log EvCommit w s).

Definition rollback {H} : M H unit :=
  fun w => (Returns tt, log EvRollback w (h_rollback H (hs w))).

(** [with engine.begin() as conn: body] (and the equivalent
    [with engine.connect() as conn: with conn.begin(): body]): commit
    on normal exit, roll back and re-raise on an exception. *)
Definition with_transaction {H A} (body : M H A) : M H A :=
  bind connect (fun _ =>
  bind (try_ body) (fun r =>
  match r with
  | Returns a => bind commit (fun _ => ret a)
  | Raises e => bind rollback (fun _ => raise e)
  end)).

(** [with engine.connect() as conn: body] without [begin]: the
    connection is closed without a commit on every exit. *)
Definition with_connection {H A} (body : M H A) : M H A :=
  bind connect (fun _ =>
  bind (try_ body) (fun r =>
  bind rollback (fun _ => unwrap r))).

(** A [ThreadPoolExecutor] whose tasks are run one after the other in
    submission order, each to completion; the outcome of every task
    is kept (the [Future]), nothing is raised here. *)
Fixpoint run_pool {H A} (tasks : list (M H A)) : M H (list (outcome A)) :=
  match tasks with
  | [] => ret []
  | t :: rest =>
      bind (try_ t) (fun r =>
      bind (run_pool rest) (fun rs => ret (r :: rs)))
  end.

End Host.
Import Host.

Declare Scope monad_scope.
Notation "x <- m ;; k" := (bind m (fun x => k))
  (at level 100, m at next level, right associativity) : monad_scope.
Notation "m ;;; k" := (bind m (fun _ => k))
  (at level 100, right associativity) : monad_scope.

(** ** Configuration ([common/config.py]) *)

Module Config.

Record fund_type_config : Type := FundTypeConfig
  { api_func : string; concurrency : Z; price_column_pattern : string }.

(** [FUND_TYPES], in the insertion order of the dict literal. *)
Definition FUND_TYPES : list (string * fund_type_config) :=
  [ ("开放基金", FundTypeConfig "fund_open_fund_daily_em" 1 "单位净值");
    ("货币基金", FundTypeConfig "fund_money_fund_daily_em" 1 "万份收益");
    ("场内基金", FundTypeConfig "fund_etf_fund_daily_em" 1 "单位净值");
    ("欧美QDII", FundTypeConfig "qdii_e_index_jsl" 1 "现价");
    ("亚洲QDII", FundTypeConfig "qdii_a_index_jsl" 1 "现价") ].

Record sync_config : Type := SyncConfig
  { batch_size : Z; max_workers : Z; max_retry : Z; retry_delay : Z }.

(** [FUND_CONFIG]. *)
Definition FUND_CONFIG : sync_config := SyncConfig 2000 6 3 5.

(** [STOCK_CONFIG] (it has no [max_workers]; the field is unused). *)
Definition STOCK_CONFIG : sync_config := SyncConfig 2000 0 3 5.

(** [RETRY_CONFIG]: [max_retry], [retry_delay] (and a timeout of 30). *)
Definition RETRY_CONFIG : sync_config := SyncConfig 0 0 3 2.

(** [d.get(k)] on a dict kept as an association list. *)
Definition dict_get {A : Type} (k : string) (d : list (string * A))
    : option A :=
  option_map snd (List.find (fun kv => String.eqb (fst kv) k) d).

End Config.
Import Config.

(** ** Funds: fetching, cleaning, merging and diffing
       ([fundsync/data_processor.py]) *)

Module Fund.
Import Retry.
Local Open Scope monad_scope.

(** [FundDataProcessor.__init__]: the tasks whose provider function
    exists, as [(fund_type, func, concurrency)]. *)
Definition fund_tasks (H : host) : list (string * string * Z) :=
  flat_map
    (fun '(fund_type, config) =>
       if h_has_api H (api_func config)
       then [(fund_type, api_func config, concurrency config)]
       else [])
    FUND_TYPES.

(** [FundDataProcessor.safe_get_data]: the retry loop over the remaining
    attempt numbers. *)
Fixpoint safe_get_data_loop {H : host} (get_func : string) (max_retry : Z)
    (attempts : list nat) : M H (option dataframe) :=
  match attempts with
  | [] => ret None
  | attempt :: rest =>
      r <- try_ (fetch get_func) ;;
      match r with
      | Returns (Some df) =>
          if negb (df_empty df) then ret (Some df)
          else safe_get_data_loop get_func max_retry rest
      | Returns None => safe_get_data_loop get_func max_retry rest
      | Raises e =>
          let error_type := _classify_error e in
          if negb (_should_retry error_type attempt max_retry)
          then ret None
          else if Z.of_nat attempt <? max_retry - 1
          then
            let adjusted_delay :=
              _get_retry_delay error_type (retry_delay FUND_CONFIG) attempt in
            sleep adjusted_delay ;;;
            safe_get_data_loop get_func max_retry rest
          else ret None
      end
  end.

Definition safe_get_data {H : host} (get_func : string) (fund_name : string)
    (max_retry : option Z) : M H (option dataframe) :=
  let max_retry := default (Config.max_retry FUND_CONFIG) max_retry in
  safe_get_data_loop get_func max_retry (seq 0 (Z.to_nat max_retry)).

(** [FundDataProcessor.get_price_column]. *)
Definition get_price_column (fund_type : string) (df_columns : list string)
    : option string :=
  let pattern :=
    match dict_get fund_type FUND_TYPES with
    | Some config => price_column_pattern config
    | None => ""
    end in
  if String.eqb pattern "现价"
  then (if str_mem "现价" df_columns then Some "现价" else None)
  else List.find (fun c => str_in pattern c) df_columns.

(** [row.get(key)] on a row of [df.iterrows()]. *)
Fixpoint row_get (cols : list string) (row : list pyval) (key : string)
    : pyval :=
  match cols, row with
  | c :: cols', v :: row' =>
      if String.eqb c key then v else row_get cols' row' key
  | _, _ => PNone
  end.

(** [Series.notna()] on one cell. *)
Definition notna (v : pyval) : bool :=
  match v with
  | PNone | PFloat (FNaN _) => false
  | _ => true
  end.

(** [FundDataProcessor.safe_float]. *)
Definition safe_float (H : host) (val : pyval) : option pyfloat :=
  match val with
  | PNone => None
  | PStr s => h_float H s
  | PFloat f => Some f
  end.

(** [FundDataProcessor.extract_fund_values]. *)
Definition extract_fund_values (H : host) (df : dataframe)
    (fund_type : string) : list fund_record :=
  match get_price_column fund_type (columns df) with
  | None => []
  | Some price_col =>
      if String.eqb price_col "" then []
      else
        let get := row_get (columns df) in
        let filtered_df :=
          List.filter (fun row => notna (get row price_col)) (rows df) in
        flat_map
          (fun row =>
             let code :=
               py_or (py_or (get row "基金代码") (get row "代码")) (PStr "") in
             let name :=
               py_or (py_or (get row "基金简称") (get row "名称")) (PStr "") in
             let price := safe_float H (get row price_col) in
             if truthy code && truthy name
             then [FundRecord code name fund_type price]
             else [])
          filtered_df
  end.

(** The chunked extraction inside [collect_all_fund_data]. *)
Definition extract_records (H : host) (chunk_size : Z) (df : dataframe)
    (fund_name : string) : list fund_record :=
  let total_rows := df_len df in
  if chunk_size <? Z.of_nat total_rows
  then
    flat_map
      (fun i =>
         let chunk_end := Nat.min (i + Z.to_nat chunk_size) total_rows in
         extract_fund_values H (df_iloc i chunk_end df) fund_name)
      (range_step total_rows (Z.to_nat chunk_size))
  else extract_fund_values H df fund_name.

(** The loop of [collect_all_fund_data] over [self.fund_tasks], carrying
    [fund_data] and [success_types]. *)
Fixpoint collect_loop {H : host} (tasks : list (string * string * Z))
    (fund_data : gmap string (list fund_record))
    (success_types : gset string)
    : M H (gmap string (list fund_record) * gset string) :=
  match tasks with
  | [] => ret (fund_data, success_types)
  | (fund_name, get_func, _) :: rest =>
      df <- safe_get_data get_func fund_name None ;;
      match df with
      | None => collect_loop rest fund_data success_types
      | Some df =>
          if df_empty df then collect_loop rest fund_data success_types
          else
            match extract_records H 5000 df fund_name with
            | [] => collect_loop rest fund_data success_types
            | records =>
                collect_loop rest (<[fund_name := records]> fund_data)
                  ({[fund_name]} ∪ success_types)
            end
      end
  end.

(** [FundDataProcessor.collect_all_fund_data]. *)
Definition collect_all_fund_data {H : host}
    : M H (option (gmap string (list fund_record))) :=
  let required_types : gset string := list_to_set (map fst FUND_TYPES) in
  st <- collect_loop (fund_tasks H) ∅ ∅ ;;
  let '(fund_data, success_types) := st in
  if bool_decide (success_types = required_types)
  then ret (Some fund_data)
  else ret None.

(** First loop of [integrate_fund_data]: one record of a domestic
    source.  The state is
    [(domestic_funds, domestic_codes, empty_price_codes)]. *)
Definition domestic_step (fund_type : string)
    (st : list fund_record * gset pyval * gset pyval) (record : fund_record)
    : list fund_record * gset pyval * gset pyval :=
  let '(domestic_funds, domestic_codes, empty_price_codes) := st in
  match price record with
  | Some p =>
      (domestic_funds ++ [FundRecord (code record) (name record) fund_type (Some p)],
       {[code record]} ∪ domestic_codes,
       empty_price_codes)
  | None =>
      (domestic_funds, domestic_codes, {[code record]} ∪ empty_price_codes)
  end.

(** Second loop of [integrate_fund_data]: one record of a QDII source. *)
Definition qdii_step (fund_type : string)
    (st : list fund_record * gset pyval) (record : fund_record)
    : list fund_record * gset pyval :=
  let '(qdii_funds, domestic_codes) := st in
  if bool_decide (code record ∈ domestic_codes)
  then st
  else
    (qdii_funds ++ [FundRecord (code record) (name record) fund_type (price record)],
     {[code record]} ∪ domestic_codes).

(** [for fund_type in types: if fund_type in fund_data: for record in ...]. *)
Definition merge_pass {S : Type} (step : string -> S -> fund_record -> S)
    (types : list string) (fund_data : gmap string (list fund_record))
    (init : S) : S :=
  fold_left
    (fun st fund_type =>
       match fund_data !! fund_type with
       | Some type_records => fold_left (step fund_type) type_records st
       | None => st
       end)
    types init.

Definition domestic_types : list string := ["场内基金"; "开放基金"; "货币基金"].
Definition qdii_types : list string := ["欧美QDII"; "亚洲QDII"].

(** [FundDataProcessor.integrate_fund_data]: returns
    [(final_funds, domestic_codes)].  Between the two loops the log line
    of the null-priced codes evaluates [sorted(empty_price_codes)] when
    the set is not empty, which raises [TypeError] when the set holds
    codes of different types (a missing code is a NaN, a [float]).  (The
    deletion of the processed entries from the caller's dict is not
    observed by any caller.) *)
Definition integrate_fund_data (H : host)
    (fund_data : gmap string (list fund_record))
    : outcome (list fund_record * gset pyval) :=
  let '(domestic_funds, domestic_codes, empty_price_codes) :=
    merge_pass domestic_step domestic_types fund_data ([], ∅, ∅) in
  if negb (orderable empty_price_codes)
  then Raises (PyError "TypeError" (h_unorderable H empty_price_codes))
  else
    let '(qdii_funds, domestic_codes) :=
      merge_pass qdii_step qdii_types fund_data ([], domestic_codes) in
    Returns (domestic_funds ++ qdii_funds, domestic_codes).

(** [FundDataProcessor.analyze_data_differences]: returns
    [(new_codes, removed_codes, update_codes)]. *)
Definition analyze_data_differences (final_funds : list fund_record)
    (existing_codes : gset pyval) : gset pyval * gset pyval * gset pyval :=
  let final_codes : gset pyval := list_to_set (map code final_funds) in
  let new_codes := final_codes ∖ existing_codes in
  let removed_codes := existing_codes ∖ final_codes in
  let update_codes := final_codes ∩ existing_codes in
  (new_codes, removed_codes, update_codes).

End Fund.

(** ** Funds: storage operations and the run entry point
       ([fundsync/db_operations.py], [fundsync/index.py]) *)

Module FundDb.
Import Fund.
Local Open Scope monad_scope.

(** [FundDatabase(engine, max_workers, batch_size)]; the engine is the
    host. *)
Record FundDatabase : Type := MkFundDatabase
  { db_max_workers : Z; db_batch_size : Z }.

(** [row[i]] on a fetched row. *)
Definition row_item (i : nat) (row : list pyval) : outcome pyval :=
  match row !! i with
  | Some v => Returns v
  | None => Raises (PyError "IndexError" "tuple index out of range")
  end.

(** A comprehension over fetched rows whose element expression may
    raise. *)
Fixpoint for_rows {A : Type} (f : list pyval -> outcome A)
    (rows : list (list pyval)) : outcome (list A) :=
  match rows with
  | [] => Returns []
  | row :: rest =>
      match f row with
      | Raises e => Raises e
      | Returns a =>
          match for_rows f rest with
          | Raises e => Raises e
          | Returns l => Returns (a :: l)
          end
      end
  end.

(** [FundDatabase.get_existing_fund_codes]. *)
Definition get_existing_fund_codes {H : host} : M H (gset pyval) :=
  with_connection
    (res <- execute GET_EXISTING_FUND_CODES ;;
     codes <- unwrap (for_rows (row_item 0) (fetchall res)) ;;
     ret (list_to_set codes)).

(** [FundDatabase.mark_funds_deleted]: returns the duration. *)
Definition mark_funds_deleted {H : host} (fund_codes : gset pyval) : M H Z :=
  if bool_decide (fund_codes = ∅) then ret 0
  else
    start_time <- time ;;
    with_transaction (execute (MARK_FUNDS_DELETED (elements fund_codes))) ;;;
    t <- time ;;
    ret (t - start_time).

(** [FundDatabase._batch_insert_worker]: the handler logs and
    re-raises. *)
Definition _batch_insert_worker {H : host} (batch_data : list fund_record)
    (worker_id : nat) : M H Z :=
  start_time <- time ;;
  let insert_data :=
    map (fun f => (code f, name f, fund_type f, price f, "L")) batch_data in
  with_transaction (execute (INSERT_FUNDS_BATCH insert_data)) ;;;
  t <- time ;;
  ret (t - start_time).

(** [FundDatabase._batch_update_worker]: the handler logs and
    re-raises. *)
Definition _batch_update_worker {H : host} (batch_data : list fund_record)
    (worker_id : nat) : M H Z :=
  start_time <- time ;;
  let update_data := map (fun f => (code f, name f, price f)) batch_data in
  with_transaction (execute (UPDATE_FUNDS_BATCH update_data)) ;;;
  t <- time ;;
  ret (t - start_time).

(** [[funds[i:i + batch_size] for i in range(0, len(funds), batch_size)]]:
    a zero step makes [range] raise, a negative one gives no batch. *)
Definition batches_of {H : host} {A : Type} (records : list A)
    (batch_size : Z) : M H (list (list A)) :=
  if batch_size =? 0
  then raise (PyError "ValueError" "range() arg 3 must not be zero")
  else if batch_size <? 0 then ret []
  else ret (slices (Z.to_nat batch_size) records).

(** [ThreadPoolExecutor(max_workers=n)] refuses [n <= 0]. *)
Definition new_executor {H : host} (workers : Z) : M H unit :=
  if workers <=? 0
  then raise (PyError "ValueError" "max_workers must be greater than 0")
  else ret tt.

(** The [as_completed] loop: sum the durations, re-raise the first
    failure. *)
Fixpoint collect_durations (futures : list (outcome Z)) (total : Z)
    : outcome Z :=
  match futures with
  | [] => Returns total
  | Returns duration :: rest => collect_durations rest (total + duration)
  | Raises e :: _ => Raises e
  end.

(** Shared body of [insert_new_funds] and [update_existing_funds]. *)
Definition run_fund_batches {H : host} (db : FundDatabase)
    (worker : list fund_record -> nat -> M H Z) (funds : list fund_record)
    : M H Z :=
  match funds with
  | [] => ret 0
  | _ =>
      start_time <- time ;;
      batches <- batches_of funds (db_batch_size db) ;;
      new_executor (db_max_workers db) ;;;
      futures <- run_pool (imap (fun i batch => worker batch i) batches) ;;
      unwrap (collect_durations futures 0) ;;;
      t <- time ;;
      ret (t - start_time)
  end.

(** [FundDatabase.insert_new_funds]. *)
Definition insert_new_funds {H : host} (db : FundDatabase)
    (funds : list fund_record) : M H Z :=
  run_fund_batches db _batch_insert_worker funds.

(** [FundDatabase.update_existing_funds]. *)
Definition update_existing_funds {H : host} (db : FundDatabase)
    (funds : list fund_record) : M H Z :=
  run_fund_batches db _batch_update_worker funds.

(** [FundDatabase.execute_batch_updates]. *)
Definition execute_batch_updates {H : host} (db : FundDatabase)
    (final_funds : list fund_record)
    (new_codes removed_codes update_codes : gset pyval) : M H Z :=
  start_time <- time ;;
  mark_funds_deleted removed_codes ;;;
  let new_funds :=
    List.filter (fun f => bool_decide (code f ∈ new_codes)) final_funds in
  insert_new_funds db new_funds ;;;
  let update_funds :=
    List.filter (fun f => bool_decide (code f ∈ update_codes)) final_funds in
  update_existing_funds db update_funds ;;;
  t <- time ;;
  ret (t - start_time).

(** [fundsync.index.sync_task_runner]: every normal exit is a bare
    [return] (or the end of the body), so the value is [None].  The
    pooled [get_db_engine()] hands back an engine or raises, so the
    [engine is None] exit is never taken. *)
Definition sync_task_runner {H : host} : M H unit :=
  start_time <- time ;;
  get_db_engine ;;;
  let db := MkFundDatabase (max_workers FUND_CONFIG) (batch_size FUND_CONFIG) in
  fund_data <- collect_all_fund_data ;;
  match fund_data with
  | None => ret tt
  | Some fund_data =>
      if bool_decide (fund_data = ∅) then ret tt
      else
        merged <- unwrap (integrate_fund_data H fund_data) ;;
        let '(final_funds, _) := merged in
        existing_codes <- get_existing_fund_codes ;;
        let '(new_codes, removed_codes, update_codes) :=
          analyze_data_differences final_funds existing_codes in
        execute_batch_updates db final_funds new_codes removed_codes
          update_codes ;;;
        total_time <- time ;;
        ret tt
  end.

End FundDb.

(** ** Stocks: trading-hours check ([stocksync/market_status.py]) *)

Module MarketStatus.
Local Open Scope monad_scope.

(** [datetime.time(hour, minute, second)]. *)
Record pytime : Type := PyTime { t_hour : Z; t_minute : Z; t_second : Z }.

Definition time_to_seconds (t : pytime) : Z :=
  t_hour t * 3600 + t_minute t * 60 + t_second t.

(** [is_time_between]. *)
Definition is_time_between (start_time end_time check_time : pytime)
    (tolerance_seconds : Z) : bool :=
  let start_seconds := time_to_seconds start_time - tolerance_seconds in
  let end_seconds := time_to_seconds end_time + tolerance_seconds in
  let check_seconds := time_to_seconds check_time in
  if time_to_seconds start_time <=? time_to_seconds end_time
  then (start_seconds <=? check_seconds) && (check_seconds <=? end_seconds)
  else (check_seconds >=? start_seconds) || (check_seconds <=? end_seconds).

Definition is_a_stock_market_open (now : pytime) (tolerance_seconds : Z)
    : bool :=
  is_time_between (PyTime 9 30 0) (PyTime 11 30 0) now tolerance_seconds
  || is_time_between (PyTime 13 0 0) (PyTime 15 0 0) now tolerance_seconds.

Definition is_hk_stock_market_open (now : pytime) (tolerance_seconds : Z)
    : bool :=
  is_time_between (PyTime 9 30 0) (PyTime 12 0 0) now tolerance_seconds
  || is_time_between (PyTime 13 0 0) (PyTime 16 0 0) now tolerance_seconds.

Definition is_us_stock_market_open (now : pytime) (is_dst : bool)
    (tolerance_seconds : Z) : bool :=
  if is_dst
  then
    is_time_between (PyTime 21 30 0) (PyTime 23 59 59) now tolerance_seconds
    || is_time_between (PyTime 0 0 0) (PyTime 4 0 0) now tolerance_seconds
  else
    is_time_between (PyTime 22 30 0) (PyTime 23 59 59) now tolerance_seconds
    || is_time_between (PyTime 0 0 0) (PyTime 5 0 0) now tolerance_seconds.

(** The three check functions a market can be configured with. *)
Inductive check_open : Type := IsAOpen | IsHKOpen | IsUSOpen.

(** [dt.time()] and [(dt - timedelta(hours=h)).time()]. *)
Definition time_of (dt : pydatetime) : pytime :=
  PyTime (hour dt) (minute dt) (second dt).

Definition time_hours_before (dt : pydatetime) (hours : Z) : pytime :=
  let s := (time_to_seconds (time_of dt) - hours * 3600) mod 86400 in
  PyTime (s / 3600) (s mod 3600 / 60) (s mod 60).

(** [check_market_open_status]; a missing check function is called all
    the same and raises. *)
Definition check_market_open_status {H : host}
    (check_func : option check_open) (hours_delay : Z)
    (tolerance_seconds : Z) : M H bool :=
  current_datetime <- now ;;
  let current_time := time_of current_datetime in
  let delayed_time := time_hours_before current_datetime hours_delay in
  match check_func with
  | Some IsUSOpen =>
      let is_dst :=
        (3 <=? month current_datetime) && (month current_datetime <=? 11) in
      ret (is_us_stock_market_open current_time is_dst tolerance_seconds
           || is_us_stock_market_open delayed_time is_dst tolerance_seconds)
  | Some IsAOpen =>
      ret (is_a_stock_market_open current_time tolerance_seconds
           || is_a_stock_market_open delayed_time tolerance_seconds)
  | Some IsHKOpen =>
      ret (is_hk_stock_market_open current_time tolerance_seconds
           || is_hk_stock_market_open delayed_time tolerance_seconds)
  | None => raise (PyError "TypeError" "'NoneType' object is not callable")
  end.

End MarketStatus.
Import MarketStatus.

(** ** Stocks: storage operations ([stocksync/db_operations.py]) *)

Module StockDb.
Local Open Scope monad_scope.

(** The loop of [get_existing_stock_symbols_by_market] over the result
    rows ([symbol], [market]); a malformed row ends it with the map
    built so far. *)
Fixpoint build_symbol_map (rows : list (list pyval))
    (symbol_map : gmap pyval (gset pyval)) : gmap pyval (gset pyval) :=
  match rows with
  | [] => symbol_map
  | row :: rest =>
      match row !! 1%nat, row !! 0%nat with
      | Some market, Some symbol =>
          build_symbol_map rest
            (<[market := {[symbol]} ∪ default ∅ (symbol_map !! market)]>
               symbol_map)
      | _, _ => symbol_map
      end
  end.

(** [get_existing_stock_symbols_by_market]: never raises. *)
Definition get_existing_stock_symbols_by_market {H : host}
    : M H (gmap pyval (gset pyval)) :=
  r <- try_ (with_connection
               (result <- execute GET_EXISTING_SYMBOLS ;;
                ret (fetchall result))) ;;
  match r with
  | Returns rows => ret (build_symbol_map rows ∅)
  | Raises _ => ret ∅
  end.

(** What a batch worker returns: [(count, duration, error)]. *)
Record batch_result : Type := BatchResult
  { br_count : Z; br_duration : Z; br_error : option py_error }.

(** The one-by-one fallback of [update_stock_records_batch]; returns the
    symbols it appends to [failed_symbols]. *)
Fixpoint update_one_by_one {H : host} (market_name : string)
    (batch_data : list stock_record) : M H (list pyval) :=
  match batch_data with
  | [] => ret []
  | record :: rest =>
      r <- try_ (execute (UPDATE_STOCK_ONE market_name record)) ;;
      failed <- update_one_by_one market_name rest ;;
      match r with
      | Returns res =>
          if rowcount res =? 0 then ret (symbol record :: failed)
          else ret failed
      | Raises _ => ret (symbol record :: failed)
      end
  end.

(** [update_stock_records_batch]: the batch result together with the
    symbols appended to the shared [failed_symbols] list (appended even
    when the commit fails afterwards). *)
Definition update_stock_records_batch {H : host}
    (batch_records : list stock_record) (batch_num : nat)
    (market_name : string) : M H (batch_result * list pyval) :=
  start_time <- time ;;
  c <- try_ connect ;;
  match c with
  | Raises e =>
      t <- time ;;
      ret (BatchResult 0 (t - start_time) (Some e), [])
  | Returns _ =>
      r <- try_ (execute (UPDATE_STOCK market_name batch_records)) ;;
      failed_symbols <-
        match r with
        | Returns result =>
            if rowcount result =? 0 then ret (map symbol batch_records)
            else ret []
        | Raises _ => update_one_by_one market_name batch_records
        end ;;
      cm <- try_ commit ;;
      t <- time ;;
      match cm with
      | Returns _ =>
          ret (BatchResult (Z.of_nat (length batch_records))
                 (t - start_time) None, failed_symbols)
      | Raises e =>
          ret (BatchResult 0 (t - start_time) (Some e), failed_symbols)
      end
  end.

(** The one-by-one fallback of [insert_stock_records_batch]. *)
Fixpoint insert_one_by_one {H : host} (market_name : string)
    (batch_data : list stock_record) : M H unit :=
  match batch_data with
  | [] => ret tt
  | record :: rest =>
      try_ (execute (INSERT_STOCK_ONE market_name record)) ;;;
      insert_one_by_one market_name rest
  end.

(** [insert_stock_records_batch]. *)
Definition insert_stock_records_batch {H : host}
    (batch_records : list stock_record) (batch_num : nat)
    (market_name : string) : M H batch_result :=
  start_time <- time ;;
  r <- try_ (with_transaction
               (r <- try_ (execute (INSERT_STOCK market_name batch_records)) ;;
                match r with
                | Returns _ => ret tt
                | Raises _ => insert_one_by_one market_name batch_records
                end)) ;;
  t <- time ;;
  match r with
  | Returns _ =>
      ret (BatchResult (Z.of_nat (length batch_records)) (t - start_time) None)
  | Raises e => ret (BatchResult 0 (t - start_time) (Some e))
  end.

(** [mark_stocks_as_deleted]: returns the affected row count, an
    [int]. *)
Definition mark_stocks_as_deleted {H : host} (symbols_to_delete : gset pyval)
    (market_name : string) : M H Z :=
  if bool_decide (symbols_to_delete = ∅) then ret 0
  else
    r <- try_ (start_time <- time ;;
               with_transaction
                 (res <- execute (MARK_STOCKS_DELETED
                                    (elements symbols_to_delete) market_name) ;;
                  ret (rowcount res))) ;;
    match r with
    | Returns count => ret count
    | Raises _ => ret 0
    end.

End StockDb.

(** ** Stocks: the processor and the run entry point
       ([stocksync/data_processor.py], [stocksync/index.py]) *)

Module Stock.
Import Retry StockDb.
Local Open Scope monad_scope.

(** One entry of [self.market_configs].  A clean function maps the raw
    table to the cleaned rows or raises. *)
Record market_config : Type := MarketConfig
  { market_name : string;
    get_data_func : string;
    clean_func : option (dataframe -> outcome (list stock_record));
    check_open_func : option check_open;
    mc_concurrency : Z }.

(** [check_open_funcs.get(name)]. *)
Definition check_open_funcs (name : string) : option check_open :=
  if String.eqb name "A股" then Some IsAOpen
  else if String.eqb name "港股" then Some IsHKOpen
  else if String.eqb name "美股" then Some IsUSOpen
  else None.

(** [StockDataProcessor.__init__]: the stock factory registers its three
    sources (with [clean_func=None]) when the provider has the three
    functions; otherwise the constructor raises. *)
Definition StockDataProcessor (H : host) : outcome (list market_config) :=
  if h_has_api H "stock_zh_a_spot_em" && h_has_api H "stock_hk_spot_em"
     && h_has_api H "stock_us_spot_em"
  then
    Returns
      (map (fun '(name, func, concurrency) =>
              MarketConfig name func None (check_open_funcs name) concurrency)
         [ ("A股", "stock_zh_a_spot_em", 2);
           ("港股", "stock_hk_spot_em", 1);
           ("美股", "stock_us_spot_em", 4) ])
  else
    Raises (PyError "RuntimeError" "数据工厂初始化失败: 数据工厂创建失败").

(** [StockDataProcessor.safely_get_market_data]: the retry loop (the
    alarm-based timeout of one attempt is not modelled). *)
Fixpoint safely_get_market_data_loop {H : host} (get_data_func : string)
    (max_retry retry_delay : Z) (attempts : list nat)
    : M H (option dataframe) :=
  match attempts with
  | [] => ret None
  | attempt :: rest =>
      r <- try_ (data <- fetch get_data_func ;;
                 match data with
                 | Some df =>
                     if (df_len df =? 0)%nat
                     then raise (PyError "ValueError" "获取到空数据或无效数据")
                     else ret df
                 | None => raise (PyError "ValueError" "获取到空数据或无效数据")
                 end) ;;
      match r with
      | Returns df => ret (Some df)
      | Raises e =>
          let error_type := _classify_error e in
          if negb (_should_retry error_type attempt max_retry)
          then ret None
          else if Z.of_nat attempt <? max_retry - 1
          then
            sleep (_get_retry_delay error_type retry_delay attempt) ;;;
            safely_get_market_data_loop get_data_func max_retry retry_delay rest
          else
            safely_get_market_data_loop get_data_func max_retry retry_delay rest
      end
  end.

Definition safely_get_market_data {H : host} (get_data_func : string)
    (market_name : string) (max_retry : option Z) : M H (option dataframe) :=
  let max_retry := default (Config.max_retry RETRY_CONFIG) max_retry in
  safely_get_market_data_loop get_data_func max_retry
    (Config.retry_delay RETRY_CONFIG) (seq 0 (Z.to_nat max_retry)).

(** The classification inside [process_and_sync_stock_data]: returns
    [(exist_records, new_records, new_symbols)], chunked when the table
    is longer than [chunk_size]. *)
Definition split_records (chunk_size : Z) (existing_symbols : gset pyval)
    (records : list stock_record)
    : list stock_record * list stock_record * gset pyval :=
  let is_exist := fun r => bool_decide (symbol r ∈ existing_symbols) in
  let total_rows := length records in
  if chunk_size <? Z.of_nat total_rows
  then
    fold_left
      (fun '(exist_records, new_records, new_symbols) i =>
         let chunk_end := Nat.min (i + Z.to_nat chunk_size) total_rows in
         let chunk_records := take (chunk_end - i) (drop i records) in
         let chunk_symbols : gset pyval :=
           list_to_set (map symbol chunk_records) in
         (exist_records ++ List.filter is_exist chunk_records,
          new_records ++ List.filter (fun r => negb (is_exist r)) chunk_records,
          new_symbols ∪ chunk_symbols))
      (range_step total_rows (Z.to_nat chunk_size))
      ([], [], ∅)
  else
    (List.filter is_exist records,
     List.filter (fun r => negb (is_exist r)) records,
     list_to_set (map symbol records)).

(** The classification of [process_and_sync_stock_data] with its removal
    set, [removed_symbols = existing_symbols - new_symbols]: returns
    [(exist_records, new_records, removed_symbols)]. *)
Definition classify_records (existing_symbols : gset pyval)
    (cleaned_dataframe : list stock_record)
    : list stock_record * list stock_record * gset pyval :=
  let '(exist_records, new_records, new_symbols) :=
    split_records 10000 existing_symbols cleaned_dataframe in
  let removed_symbols := existing_symbols ∖ new_symbols in
  (exist_records, new_records, removed_symbols).

(** The dict returned by [process_market_records]. *)
Record market_result : Type := MarketResult
  { updated : Z; update_time : Z;
    inserted : Z; insert_time : Z;
    deleted : Z; delete_time : Z;
    failed_updates : list pyval }.

(** [range(0, len(records), batch_size)] slices inside an executor. *)
Definition pool_batches {H : host} {A : Type} (concurrency batch_size : Z)
    (records : list A) : M H (list (list A)) :=
  FundDb.new_executor concurrency ;;;
  FundDb.batches_of records batch_size.

(** The [as_completed] loops: counts and durations of the batches that
    report no error. *)
Definition sum_ok (f : batch_result -> Z) (results : list batch_result) : Z :=
  fold_left
    (fun total r => match br_error r with
                    | None => total + f r
                    | Some _ => total
                    end)
    results 0.

(** The update workers in submission order: their results and the
    symbols appended to the shared [failed_update_symbols]. *)
Fixpoint run_update_batches {H : host} (market_name : string)
    (batches : list (list stock_record)) (idx : nat)
    : M H (list batch_result * list pyval) :=
  match batches with
  | [] => ret ([], [])
  | batch :: rest =>
      r <- update_stock_records_batch batch (idx + 1) market_name ;;
      rs <- run_update_batches market_name rest (idx + 1) ;;
      ret (fst r :: fst rs, snd r ++ snd rs)
  end.

Fixpoint run_insert_batches {H : host} (market_name : string)
    (batches : list (list stock_record)) (idx : nat)
    : M H (list batch_result) :=
  match batches with
  | [] => ret []
  | batch :: rest =>
      r <- insert_stock_records_batch batch (idx + 1) market_name ;;
      rs <- run_insert_batches market_name rest (idx + 1) ;;
      ret (r :: rs)
  end.

(** [StockDataProcessor.process_market_records].  The call of
    [mark_stocks_as_deleted] returns an [int], which the tuple assignment
    [deleted_count, del_duration = ...] cannot unpack. *)
Definition process_market_records {H : host} (market_name : string)
    (exist_records new_records : list stock_record)
    (removed_symbols : gset pyval) (batch_size concurrency : Z)
    : M H market_result :=
  update_batches <- pool_batches concurrency batch_size exist_records ;;
  upd <- run_update_batches market_name update_batches 0 ;;
  let '(update_results, failed_update_symbols) := upd in
  let total_updated := sum_ok br_count update_results in
  let total_update_duration := sum_ok br_duration update_results in
  ins <-
    match new_records with
    | [] => ret []
    | _ =>
        insert_batches <- pool_batches concurrency batch_size new_records ;;
        run_insert_batches market_name insert_batches 0
    end ;;
  let total_inserted := sum_ok br_count ins in
  let total_insert_duration := sum_ok br_duration ins in
  del <-
    (if bool_decide (removed_symbols = ∅) then ret (0, 0)
     else
       mark_stocks_as_deleted removed_symbols market_name ;;;
       raise (PyError "TypeError" "cannot unpack non-iterable int object")) ;;
  let '(deleted_count, del_duration) := del in
  ret (MarketResult total_updated total_update_duration
         total_inserted total_insert_duration
         deleted_count del_duration failed_update_symbols).

(** [StockDataProcessor.process_and_sync_stock_data]: returns [None].
    Its last log line evaluates [sorted(set(failed_updates))] when there
    are failed updates. *)
Definition process_and_sync_stock_data {H : host} (market_name : string)
    (get_data_func : string)
    (clean_func : option (dataframe -> outcome (list stock_record)))
    (existing_symbols : gset pyval) (concurrency : Z)
    (batch_size : option Z) : M H unit :=
  let batch_size := default (Config.batch_size STOCK_CONFIG) batch_size in
  start_time <- time ;;
  raw_dataframe <- safely_get_market_data get_data_func market_name None ;;
  match raw_dataframe with
  | None => ret tt
  | Some raw_dataframe =>
      if df_empty raw_dataframe then ret tt
      else
        cleaned <-
          match clean_func with
          | None =>
              raise (PyError "TypeError" "'NoneType' object is not callable")
          | Some clean => unwrap (clean raw_dataframe)
          end ;;
        let cleaned_dataframe :=
          List.filter
            (fun r => Fund.notna (symbol r) && Fund.notna (datetime_col r))
            cleaned in
        let '(exist_records, new_records, removed_symbols) :=
          classify_records existing_symbols cleaned_dataframe in
        get_db_engine ;;;
        result <- process_market_records market_name exist_records
                    new_records removed_symbols batch_size concurrency ;;
        duration <- time ;;
        let failed_updates : gset pyval :=
          list_to_set (failed_updates result) in
        if negb (orderable failed_updates)
        then raise (PyError "TypeError" (h_unorderable H failed_updates))
        else ret tt
  end.

(** [StockDataProcessor.collect_all_stock_data]: returns
    [(processed, skipped)]. *)
Fixpoint collect_all_stock_data_loop {H : host}
    (market_configs : list market_config)
    (existing_symbols_map : gmap pyval (gset pyval))
    (processed_markets skipped_markets : Z) : M H (Z * Z) :=
  match market_configs with
  | [] => ret (processed_markets, skipped_markets)
  | conf :: rest =>
      is_open <- check_market_open_status (check_open_func conf) 2 30 ;;
      if is_open
      then
        let existing_symbols :=
          default ∅ (existing_symbols_map !! PStr (market_name conf)) in
        process_and_sync_stock_data (market_name conf) (get_data_func conf)
          (clean_func conf) existing_symbols (mc_concurrency conf) None ;;;
        collect_all_stock_data_loop rest existing_symbols_map
          (processed_markets + 1) skipped_markets
      else
        collect_all_stock_data_loop rest existing_symbols_map
          processed_markets (skipped_markets + 1)
  end.

Definition collect_all_stock_data {H : host}
    (market_configs : list market_config)
    (existing_symbols_map : gmap pyval (gset pyval)) : M H (Z * Z) :=
  collect_all_stock_data_loop market_configs existing_symbols_map 0 0.

(** The dicts returned by the entry points:
    [{'success': True, 'result': {'processed': p, 'skipped': s}}] and
    [{'success': False, 'error': str(e)}]. *)
Inductive run_result : Type :=
| RunSuccess (processed skipped : Z)
| RunFailure (error : string).

(** [stocksync.index.sync_task_runner]: the [finally] clause builds a
    second processor for its duration message. *)
Definition sync_task_runner {H : host} : M H run_result :=
  start_time <- time ;;
  finally
    (r <- try_
            (market_configs <- unwrap (StockDataProcessor H) ;;
             get_db_engine ;;;
             existing_symbols_map <- get_existing_stock_symbols_by_market ;;
             result <- collect_all_stock_data market_configs
                         existing_symbols_map ;;
             ret (RunSuccess (fst result) (snd result))) ;;
     match r with
     | Returns res => ret res
     | Raises e => ret (RunFailure (exn_msg e))
     end)
    (total_duration <- time ;;
     unwrap (StockDataProcessor H) ;;;
     ret tt).

End Stock.

(** ** The task wrappers ([task/index.py]) *)

Module Task.
Import Stock.
Local Open Scope monad_scope.

(** [run_fundsync_task]: the value of the funds runner is [None], so the
    [if result:] test always takes the failure branch. *)
Definition run_fundsync_task {H : host} : M H run_result :=
  r <- try_ (FundDb.sync_task_runner ;;;
             ret (RunFailure "基金同步任务执行失败")) ;;
  match r with
  | Returns res => ret res
  | Raises e => ret (RunFailure (exn_msg e))
  end.

(** [run_stocksync_task]: the stocks runner returns a non-empty dict,
    which is truthy and handed on. *)
Definition run_stocksync_task {H : host} : M H run_result :=
  r <- try_ Stock.sync_task_runner ;;
  match r with
  | Returns res => ret res
  | Raises e => ret (RunFailure (exn_msg e))
  end.

End Task.

(** ** The template method [BaseDataProcessor.run]
       ([common/base_processor.py]) *)

Module BaseRun.
Local Open Scope monad_scope.

(** A source dict; [None] stands for a missing key. *)
Record source_config : Type := SourceConfig
  { src_name : option string; src_api_func : option string }.

(** The abstract methods a subclass supplies, and [bool(x)] of the
    processed data. *)
Record processor (H : host) (Raw Data Res : Type) : Type := Processor
  { get_data_sources : M H (list source_config);
    safe_get_data : string -> string -> M H (option Raw);
    process_data : Raw -> string -> M H Data;
    truth : Data -> outcome bool;
    sync_to_database : gmap string Data -> M H Res }.
Arguments get_data_sources {H Raw Data Res} p.
Arguments safe_get_data {H Raw Data Res} p.
Arguments process_data {H Raw Data Res} p.
Arguments truth {H Raw Data Res} p.
Arguments sync_to_database {H Raw Data Res} p.

(** The dicts [run] returns. *)
Inductive base_result (Res : Type) : Type :=
| BaseSuccess (processed_sources : Z) (total_time : Z) (sync_result : Res)
| BaseFailure (error : string).
Arguments BaseSuccess {Res}.
Arguments BaseFailure {Res}.

(** [d[key]]. *)
Definition item {H : host} (key : string) (v : option string) : M H string :=
  match v with
  | Some x => ret x
  | None => raise (PyError "KeyError" key)
  end.

(** The collection loop of [run]: an early [return] of a failure dict,
    or the collected [all_data]. *)
Fixpoint collect {H : host} {Raw Data Res : Type}
    (p : processor H Raw Data Res) (data_sources : list source_config)
    (all_data : gmap string Data)
    : M H (base_result Res + gmap string Data) :=
  match data_sources with
  | [] => ret (inr all_data)
  | source_config :: rest =>
      source_name <- item "name" (src_name source_config) ;;
      api_func <- item "api_func" (src_api_func source_config) ;;
      raw_data <- safe_get_data p api_func source_name ;;
      match raw_data with
      | Some raw_data =>
          processed_data <- process_data p raw_data source_name ;;
          ok <- unwrap (truth p processed_data) ;;
          if ok
          then collect p rest (<[source_name := processed_data]> all_data)
          else ret (inl (BaseFailure (source_name ++ " 数据处理失败")))
      | None => ret (inl (BaseFailure (source_name ++ " 数据获取失败")))
      end
  end.

(** [BaseDataProcessor.run]. *)
Definition run {H : host} {Raw Data Res : Type}
    (p : processor H Raw Data Res) : M H (base_result Res) :=
  start_time <- time ;;
  r <- try_
         (data_sources <- get_data_sources p ;;
          c <- collect p data_sources ∅ ;;
          match c with
          | inl early => ret early
          | inr all_data =>
              if bool_decide (all_data = ∅)
              then ret (BaseFailure "没有获取到任何有效数据")
              else
                sync_result <- sync_to_database p all_data ;;
                t <- time ;;
                ret (BaseSuccess (Z.of_nat (size all_data))
                       (t - start_time) sync_result)
          end) ;;
  match r with
  | Returns res => ret res
  | Raises e => ret (BaseFailure (exn_msg e))
  end.

End BaseRun.

(** ** The retry delay as the specification words it *)

Module Spec.

(** Modelled from the specification text of [delayFor], kind by kind, to
    be compared with [_get_retry_delay]. *)
Definition spec_delayFor (kind : string) (baseDelay : Z) (attemptIndex : nat)
    : Z :=
  if String.eqb kind "RATE_LIMIT"
  then baseDelay * 2 ^ Z.of_nat attemptIndex + 5
  else if String.eqb kind "CHUNKED_ENCODING" then baseDelay + 2
  else if String.eqb kind "TIMEOUT" then baseDelay + Z.of_nat attemptIndex
  else if String.eqb kind "NETWORK"
  then baseDelay * Z.max (Z.of_nat attemptIndex) 1
  else if String.eqb kind "SERVER_ERROR" then baseDelay * 2
  else if String.eqb kind "PANDAS_MISMATCH"
  then baseDelay * (Z.of_nat attemptIndex + 1)
  else baseDelay.

End Spec.

(** ** A scripted host for running the tasks on concrete inputs *)

Module Sim.

(** Clock, provider calls made so far, number of connections opened so
    far, statements of the open transaction, committed statements. *)
Record sim_state : Type := SimState
  { sim_clock : Z;
    sim_fetches : list string;
    sim_connects : nat;
    sim_pending : list stmt;
    sim_committed : list stmt }.

Definition sim_init : sim_state := SimState 0 [] 0 [] [].

(** Where a database fault can be injected. *)
Inductive db_point : Type :=
| AtConnect
| AtExecute (s : stmt)
| AtCommit.

(** [float(text)] for unsigned integer literals; anything else is
    refused, as [float("-")] is. *)
Fixpoint digits (s : string) (acc : Z) : option Z :=
  match s with
  | EmptyString => Some acc
  | String c t =>
      let n := nat_of_ascii c in
      if ((48 <=? n) && (n <=? 57))%nat
      then digits t (10 * acc + Z.of_nat (n - 48))
      else None
  end.

Definition sim_float (s : string) : option pyfloat :=
  match s with
  | EmptyString => None
  | _ => option_map FNum (digits s 0)
  end.

Definition calls_of (api_func : string) (fetches : list string) : nat :=
  length (List.filter (String.eqb api_func) fetches).

(** The host scripted by: the provider functions that exist, what the
    [n]-th call of each returns, the wall-clock reading, the faults of
    the [n]-th connection, and the cursor of each statement. *)
Definition sim_host (has_api : string -> bool)
    (feed : string -> nat -> outcome (option dataframe))
    (wall : pydatetime)
    (fault : nat -> db_point -> option py_error)
    (reply : stmt -> cursor) : host :=
  {| hstate := sim_state;
     h_time := sim_clock;
     h_now := fun _ => wall;
     h_sleep := fun seconds s =>
       SimState (sim_clock s + seconds) (sim_fetches s) (sim_connects s)
         (sim_pending s) (sim_committed s);
     h_has_api := has_api;
     h_fetch := fun api_func s =>
       (feed api_func (calls_of api_func (sim_fetches s)),
        SimState (sim_clock s) (sim_fetches s ++ [api_func]) (sim_connects s)
          (sim_pending s) (sim_committed s));
     h_float := sim_float;
     h_unorderable := fun _ =>
       "'<' not supported between instances of 'float' and 'str'";
     h_engine := fun s => (Returns tt, s);
     h_connect := fun s =>
       let s' := SimState (sim_clock s) (sim_fetches s) (S (sim_connects s))
                   [] (sim_committed s) in
       match fault (sim_connects s) AtConnect with
       | Some e => (Raises e, s')
       | None => (Returns tt, s')
       end;
     h_execute := fun st s =>
       match fault (pred (sim_connects s)) (AtExecute st) with
       | Some e => (Raises e, s)
       | None =>
           (Returns (reply st),
            SimState (sim_clock s + 1) (sim_fetches s) (sim_connects s)
              (sim_pending s ++ [st]) (sim_committed s))
       end;
     h_commit := fun s =>
       match fault (pred (sim_connects s)) AtCommit with
       | Some e =>
           (Raises e,
            SimState (sim_clock s) (sim_fetches s) (sim_connects s) []
              (sim_committed s))
       | None =>
           (Returns tt,
            SimState (sim_clock s) (sim_fetches s) (sim_connects s) []
              (sim_committed s ++ sim_pending s))
       end;
     h_rollback := fun s =>
       SimState (sim_clock s) (sim_fetches s) (sim_connects s) []
         (sim_committed s) |}.

Definition start (H : host) (s : hstate H) : world H := World s [].

Definition no_fault : nat -> db_point -> option py_error := fun _ _ => None.

Definition one_row_affected : stmt -> cursor := fun _ => Cursor 1 [].

(** 10:00:00 in June: the A-share and Hong Kong markets are open. *)
Definition morning : pydatetime := PyDateTime 6 10 0 0.

End Sim.

(** ** Concrete runs *)

Module Examples.
Import Sim Stock.

(** A provider table that every fund type can be cleaned from: it has
    the code and name columns and each of the price columns.  Its one
    fund is coded by the name of the provider function. *)
Definition fund_frame (api_func : string) : dataframe :=
  DataFrame ["基金代码"; "基金简称"; "单位净值"; "万份收益"; "现价"]
    [[PStr api_func; PStr "fund"; PFloat (FNum 1); PFloat (FNum 1);
      PFloat (FNum 1)]].

(** Every fund provider answers at once. *)
Definition feed_all : string -> nat -> outcome (option dataframe) :=
  fun api_func _ => Returns (Some (fund_frame api_func)).

(** The Asian QDII provider answers [None] on every attempt; the other
    four answer at once. *)
Definition feed_asia_missing : string -> nat -> outcome (option dataframe) :=
  fun api_func _ =>
    if String.eqb api_func "qdii_a_index_jsl" then Returns None
    else Returns (Some (fund_frame api_func)).

(** The fund table holds one live code that the providers no longer
    list. *)
Definition fund_reply (s : stmt) : cursor :=
  match s with
  | GET_EXISTING_FUND_CODES => Cursor 1 [[PStr "000009"]]
  | _ => Cursor 1 []
  end.

Definition funds_complete : host :=
  sim_host (fun _ => true) feed_all morning no_fault fund_reply.

Definition funds_gap : host :=
  sim_host (fun _ => true) feed_asia_missing morning no_fault fund_reply.

(** The first connection to the database is refused. *)
Definition refuse_first_connection (n : nat) (p : db_point)
    : option py_error :=
  match n, p with
  | O, AtConnect =>
      Some (PyError "OperationalError" "could not connect to server")
  | _, _ => None
  end.

Definition funds_db_down : host :=
  sim_host (fun _ => true) feed_all morning refuse_first_connection
    fund_reply.



Definition fund_a : fund_record :=
  FundRecord (PStr "A") (PStr "a") "开放基金" (Some (FNum 1)).
Definition fund_b : fund_record :=
  FundRecord (PStr "B") (PStr "b") "开放基金" (Some (FNum 2)).
Definition fund_c : fund_record :=
  FundRecord (PStr "C") (PStr "c") "开放基金" (Some (FNum 3)).

(** A cleaned stock table: one row per provider row. *)
Definition clean_rows (df : dataframe) : outcome (list stock_record) :=
  Returns
    (map (fun row =>
            StockRecord (Fund.row_get (columns df) row "symbol")
              (Fund.row_get (columns df) row "datetime") [])
       (rows df)).

Definition stock_frame : dataframe :=
  DataFrame ["symbol"; "datetime"]
    [[PStr "000001"; PStr "2024-01-02 10:00:00"]].

Definition feed_stocks : string -> nat -> outcome (option dataframe) :=
  fun _ _ => Returns (Some stock_frame).

(** The A-share provider times out on every attempt. *)
Definition feed_a_share_down : string -> nat -> outcome (option dataframe) :=
  fun api_func _ =>
    if String.eqb api_func "stock_zh_a_spot_em"
    then Raises (PyError "ReadTimeout" "read timed out")
    else Returns (Some stock_frame).

(** Two markets, both open at [morning], each with a clean function. *)
Definition two_markets : list market_config :=
  [ MarketConfig "A股" "stock_zh_a_spot_em" (Some clean_rows) (Some IsAOpen) 2;
    MarketConfig "港股" "stock_hk_spot_em" (Some clean_rows) (Some IsHKOpen) 1 ].

(** The A-share market has a live symbol that the provider no longer
    lists. *)
Definition existing_symbols : gmap pyval (gset pyval) :=
  {[ PStr "A股" := {[ PStr "000001"; PStr "000002" ]} ]}.

(** The statement that marks stocks as deleted fails. *)
Definition fail_mark_deleted (n : nat) (p : db_point) : option py_error :=
  match p with
  | AtExecute (MARK_STOCKS_DELETED _ _) =>
      Some (PyError "OperationalError" "server closed the connection")
  | _ => None
  end.

Definition stocks_delete_fails : host :=
  sim_host (fun _ => true) feed_stocks morning fail_mark_deleted
    one_row_affected.

Definition stocks_healthy : host :=
  sim_host (fun _ => true) feed_stocks morning no_fault one_row_affected.

Definition stocks_a_share_down : host :=
  sim_host (fun _ => true) feed_a_share_down morning no_fault
    one_row_affected.






End Examples.

(** ** What is observed of a run *)

Module Obs.
Import StockDb Stock.

(** The storage events among the events a computation appended to the
    journal. *)
Definition storage_events (evs : list event) : list event :=
  List.filter is_storage_event evs.

(** The number of transactions opened. *)
Definition connects (evs : list event) : nat :=
  length (List.filter (fun ev => match ev with
                                 | EvConnect => true
                                 | _ => false
                                 end) evs).

(** The provider calls made, in order. *)
Definition fetched (evs : list event) : list string :=
  flat_map (fun ev => match ev with
                      | EvFetch api_func => [api_func]
                      | _ => []
                      end) evs.

(** A batch worker's report: the size of its batch when it reports no
    error, zero when it reports one. *)
Definition batch_reported (batch : list stock_record) (r : batch_result)
    : Prop :=
  br_count r = match br_error r with
               | None => Z.of_nat (length batch)
               | Some _ => 0
               end.

(** From every world, the computation ends with an outcome and appended
    events that satisfy [P]. *)
Definition appends {H : host} {A : Type} (m : M H A)
    (P : outcome A -> list event -> Prop) : Prop :=
  forall w, exists r evs w',
    m w = (r, w') /\ journal w' = journal w ++ evs /\ P r evs.

(** A computation that makes no storage call. *)
Definition quiet {H : host} {A : Type} (m : M H A) : Prop :=
  appends m (fun _ evs => storage_events evs = []).

End Obs.

(** ** The fund processor under the template method
       ([fundsync/data_processor.py]) *)

Module FundProcessor.
Import Fund BaseRun.
Local Open Scope monad_scope.

(** [FundDataProcessor.get_data_sources]: one dict per fund task, with
    the keys ['name'] and ['api_func'] that [run] reads. *)
Definition get_data_sources (H : host) : list source_config :=
  map (fun '(fund_type, func, _) => SourceConfig (Some fund_type) (Some func))
    (fund_tasks H).

(** [FundDataProcessor.process_data]: hands the table back. *)
Definition process_data {H : host} (data : dataframe) (fund_type : string)
    : M H dataframe :=
  ret data.

(** A [FundDataProcessor] as [BaseDataProcessor.run] sees it.  [run]
    tests [if processed_data:] on the table that [process_data] handed
    back, and calls [sync_to_database] with one argument although the
    override takes three. *)
Definition template (H : host) : processor H dataframe dataframe unit :=
  {| BaseRun.get_data_sources := ret (get_data_sources H);
     BaseRun.safe_get_data := fun api_func source_name =>
       Fund.safe_get_data api_func source_name None;
     BaseRun.process_data := process_data;
     BaseRun.truth := fun _ =>
       Raises (PyError "ValueError"
                 "The truth value of a DataFrame is ambiguous. Use a.empty, a.bool(), a.item(), a.any() or a.all().");
     BaseRun.sync_to_database := fun _ =>
       raise (PyError "TypeError"
                "sync_to_database() missing 2 required positional arguments: 'fund_type' and 'db_connection'") |}.

End FundProcessor.

(** ** The entry point of both tasks ([task/index.py]) *)

Module Main.
Import Stock Task.
Local Open Scope monad_scope.

(** The loop of [main] over [results.items()]: the names of the tasks
    that succeeded, and the failed ones as [name(error)]. *)
Definition tally (results : list (string * run_result))
    : list string * list string :=
  fold_left
    (fun '(success_tasks, failed_tasks) '(task_name, task_result) =>
       match task_result with
       | RunSuccess _ _ => (success_tasks ++ [task_name], failed_tasks)
       | RunFailure error =>
           (success_tasks,
            failed_tasks ++ [(task_name ++ "(" ++ error ++ ")")%string])
       end)
    results ([], []).

(** [main]: the funds task, then the stocks task, then the summary
    sentence. *)
Definition main {H : host} : M H string :=
  start_time <- time ;;
  fundsync <- run_fundsync_task ;;
  stocksync <- run_stocksync_task ;;
  total_time <- time ;;
  let '(success_tasks, failed_tasks) :=
    tally [("fundsync", fundsync); ("stocksync", stocksync)] in
  let success_count := length success_tasks in
  if (success_count =? 2)%nat
  then ret ("所有数据同步任务执行完毕。成功: "
            ++ String.concat ", " success_tasks)%string
  else if (success_count =? 1)%nat
  then ret ("部分数据同步任务执行失败。成功: "
            ++ String.concat ", " success_tasks
            ++ "；失败: " ++ String.concat ", " failed_tasks)%string
  else ret ("所有数据同步任务执行失败。失败原因: "
            ++ String.concat ", " failed_tasks)%string.

(** [handler(event, context)]. *)
Definition handler {H : host} : M H string := main.

End Main.

(** ** What is observed of a run: provider calls, statements, writes *)

Module Trace.

(** The delays slept, in order. *)
Definition slept (evs : list event) : list Z :=
  flat_map (fun ev => match ev with
                      | EvSleep seconds => [seconds]
                      | _ => []
                      end) evs.

(** An event of the retry loop around the provider function
    [api_func]. *)
Definition is_retry_event (api_func : string) (ev : event) : bool :=
  match ev with
  | EvFetch f => String.eqb f api_func
  | EvSleep _ => true
  | _ => false
  end.

(** The first event, if any, is not a sleep. *)
Definition starts_with_call (evs : list event) : bool :=
  match evs with
  | EvSleep _ :: _ => false
  | _ => true
  end.

(** Every sleep is directly followed by a provider call. *)
Fixpoint sleeps_before_calls (evs : list event) : bool :=
  match evs with
  | [] => true
  | EvSleep _ :: rest =>
      match rest with
      | EvFetch _ :: _ => sleeps_before_calls rest
      | _ => false
      end
  | _ :: rest => sleeps_before_calls rest
  end.

(** What a retry loop leaves in the journal: calls of the one provider
    function [api_func], [k] of them, with sleeps in between only: the
    first event is a call, every sleep is directly followed by a call
    (so the last event is a call), and there are fewer sleeps than
    calls. *)
Definition retry_trace (api_func : string) (k : nat) (evs : list event)
    : Prop :=
  forallb (is_retry_event api_func) evs = true /\
  Obs.fetched evs = repeat api_func k /\
  (length (slept evs) <= pred k)%nat /\
  starts_with_call evs = true /\
  sleeps_before_calls evs = true.

(** Where an accepted fund record comes from: a record of one of the
    listed sources, re-tagged with the name of that source. *)
Definition from_source (types : list string)
    (fund_data : gmap string (list fund_record)) (f : fund_record) : Prop :=
  exists t records r,
    t ∈ types /\ fund_data !! t = Some records /\ r ∈ records /\
    f = FundRecord (code r) (name r) t (price r).

(** The provider function [api_func] answers every call with [None] or
    with a table without rows. *)
Definition answers_nothing (H : host) (api_func : string) : Prop :=
  forall s,
    match (h_fetch H api_func s).1 with
    | Returns None => True
    | Returns (Some df) => df_len df = 0%nat
    | Raises _ => False
    end.

(** The provider functions [funcs] are called one after the other, in
    this order, each between one and three times in a row. *)
Definition serial_calls (funcs calls : list string) : Prop :=
  exists ks : list nat,
    length ks = length funcs /\
    Forall (fun k => (1 <= k <= 3)%nat) ks /\
    calls = concat (zip_with (fun f k => repeat f k) funcs ks).

(** What the collecting loop of the funds keeps: the types marked as
    successful are the keys of the collected data, and under each key
    there is at least one record, all tagged with the key. *)
Definition gate_inv (fund_data : gmap string (list fund_record))
    (success_types : gset string) : Prop :=
  dom fund_data = success_types /\
  forall t records,
    fund_data !! t = Some records ->
    records <> [] /\ Forall (fun r => fund_type r = t) records.

(** A provider call or a sleep. *)
Definition is_provider_event (ev : event) : bool :=
  match ev with
  | EvFetch _ | EvSleep _ => true
  | _ => false
  end.

(** An event that changes the stored data: a statement other than the
    two [SELECT]s, or a commit. *)
Definition is_write (ev : event) : bool :=
  match ev with
  | EvExecute GET_EXISTING_SYMBOLS | EvExecute GET_EXISTING_FUND_CODES => false
  | EvExecute _ => true
  | EvCommit => true
  | _ => false
  end.

(** A wall-clock reading is a time of day. *)
Definition valid_clock (dt : pydatetime) : Prop :=
  0 <= hour dt < 24 /\ 0 <= minute dt < 60 /\ 0 <= second dt < 60.

(** Seconds since midnight of a wall-clock reading. *)
Definition seconds_of_day (dt : pydatetime) : Z :=
  time_to_seconds (time_of dt).

(** A computation all of whose events satisfy [P], from every world. *)
Definition only {H : host} {A : Type} (P : event -> bool) (m : M H A)
    : Prop :=
  Obs.appends m (fun _ evs => forallb P evs = true).

(** No event that changes the stored data. *)
Definition no_write (ev : event) : bool := negb (is_write ev).

(** The three markets are closed, and were closed two hours earlier:
    between 18:00:30 and 21:29:30. *)
Definition all_markets_closed (dt : pydatetime) : Prop :=
  valid_clock dt /\ 64830 < seconds_of_day dt < 77370.

(** The events of one committed transaction of one statement. *)
Definition txn (s : stmt) : list event := [EvConnect; EvExecute s; EvCommit].

(** The statements of the two batch workers of the funds. *)
Definition insert_stmt (batch : list fund_record) : stmt :=
  INSERT_FUNDS_BATCH
    (map (fun f => (code f, name f, fund_type f, price f, "L")) batch).

Definition update_stmt (batch : list fund_record) : stmt :=
  UPDATE_FUNDS_BATCH (map (fun f => (code f, name f, price f)) batch).

(** The events of the batches of [funds], one committed transaction per
    batch of [n] records, in order. *)
Definition batch_txns (mk : list fund_record -> stmt) (n : nat)
    (funds : list fund_record) : list event :=
  concat (map (fun batch => txn (mk batch)) (slices n funds)).

(** Neither a provider call nor a sleep. *)
Definition no_provider_call (ev : event) : bool := negb (is_provider_event ev).

(** A database whose connections open and whose commits succeed. *)
Definition commits_succeed (H : host) : Prop :=
  (forall s, (h_connect H s).1 = Returns tt) /\
  (forall s, (h_commit H s).1 = Returns tt).

(** A database on which, in addition, no statement fails. *)
Definition healthy (H : host) : Prop :=
  commits_succeed H /\
  (forall st s, exists c, (h_execute H st s).1 = Returns c).

End Trace.

(** ** What the batches do to the database *)

Module Applied.
Import StockDb.









End Applied.

(** ** Further scripted hosts *)

Module Scenarios.
Import Sim Examples.

(** Every statement fails; connections open and commits succeed. *)
Definition fail_every_statement (n : nat) (p : db_point) : option py_error :=
  match p with
  | AtExecute _ => Some (PyError "DataError" "invalid input syntax")
  | _ => None
  end.

Definition stocks_statements_fail : host :=
  sim_host (fun _ => true) feed_stocks morning fail_every_statement
    one_row_affected.

(** The provider answers [404 Not Found] to every call. *)
Definition feed_not_found : string -> nat -> outcome (option dataframe) :=
  fun _ _ => Raises (PyError "HTTPError" "404 Client Error: Not Found").

Definition provider_not_found : host :=
  sim_host (fun _ => true) feed_not_found morning no_fault one_row_affected.

(** The provider answers every call with a table without rows. *)
Definition feed_empty : string -> nat -> outcome (option dataframe) :=
  fun _ _ => Returns (Some (DataFrame ["代码"; "名称"] [])).

Definition provider_empty : host :=
  sim_host (fun _ => true) feed_empty morning no_fault one_row_affected.

(** The provider module lacks the Asian QDII function. *)
Definition funds_no_asia_function : host :=
  sim_host (fun name => negb (String.eqb name "qdii_a_index_jsl")) feed_all
    morning no_fault fund_reply.

(** 19:00:00 in June: the three markets are closed, also two hours
    earlier. *)
Definition evening : pydatetime := PyDateTime 6 19 0 0.

Definition stocks_evening : host :=
  sim_host (fun _ => true) feed_stocks evening no_fault one_row_affected.



End Scenarios.

(** * Properties *)

#[local] Set Warnings "-clear-no-such-hyp".

Import Retry.

(** ** Retry policy *)

Section RetryPolicy.

Lemma any_in_cons (k : string) (ks : list string) (s : string) :
  any_in (k :: ks) s = str_in k s || any_in ks s.
Proof. reflexivity. Qed.

(** C8, as the specification states it, fails on the code: on the first
    attempt (index 0) a network error is retried after [0] seconds, not
    after the base delay. *)
Lemma retry_delay_network_attempt_zero :
  _get_retry_delay "NETWORK" 5 0 = 0 /\
  Spec.spec_delayFor "NETWORK" 5 0 = 5 /\
  _get_retry_delay "NETWORK" 5 0 <> Spec.spec_delayFor "NETWORK" 5 0.
Proof. repeat split; vm_compute; congruence. Qed.

(** C8 (amended): for every base delay and attempt index the retry delay
    is [base * 2^attempt + 5] for a rate limit, [base + 2] for an
    encoding error, [base + attempt] for a timeout, [base * attempt] for
    a network error, [base * 2] for a server error,
    [base * (attempt + 1)] for a schema mismatch, and [base] for every
    other kind. *)
Theorem retry_delay_table (base_delay : Z) (attempt : nat) :
  _get_retry_delay "RATE_LIMIT" base_delay attempt
    = base_delay * 2 ^ Z.of_nat attempt + 5 /\
  _get_retry_delay "CHUNKED_ENCODING" base_delay attempt = base_delay + 2 /\
  _get_retry_delay "TIMEOUT" base_delay attempt
    = base_delay + Z.of_nat attempt /\
  _get_retry_delay "NETWORK" base_delay attempt
    = base_delay * Z.of_nat attempt /\
  _get_retry_delay "SERVER_ERROR" base_delay attempt = base_delay * 2 /\
  _get_retry_delay "PANDAS_MISMATCH" base_delay attempt
    = base_delay * (Z.of_nat attempt + 1) /\
  (forall kind : string,
     str_mem kind ["RATE_LIMIT"; "CHUNKED_ENCODING"; "TIMEOUT"; "NETWORK";
                   "SERVER_ERROR"; "PANDAS_MISMATCH"] = false ->
     _get_retry_delay kind base_delay attempt = base_delay).
Proof.
  repeat split; try reflexivity.
  intros kind Hother. unfold str_mem in Hother. simpl in Hother.
  repeat (apply orb_false_elim in Hother; destruct Hother as [? Hother]).
  unfold _get_retry_delay.
  repeat match goal with
         | Hk : String.eqb kind ?k = false |- _ => rewrite Hk; clear Hk
         end.
  reflexivity.
Qed.

(** The kinds outside the table, at a concrete input. *)
Lemma retry_delay_table_witness :
  _get_retry_delay "UNKNOWN" 5 1 = 5.
Proof.
  apply (proj2 (proj2 (proj2 (proj2 (proj2 (proj2
           (retry_delay_table 5 1))))))).
  reflexivity.
Defined.

(** C9, as stated, fails on the code: the encoding-transport test comes
    first, so an error whose message mentions a timeout can be
    classified as an encoding error. *)
Lemma classify_timeout_message_not_timeout :
  ~ (forall e : py_error,
       str_in "timeout" (lower (exn_msg e)) = true ->
       _classify_error e = "TIMEOUT").
Proof.
  intros Hall.
  specialize (Hall (PyError "ChunkedEncodingError"
                      "Connection broken: read Timeout")).
  vm_compute in Hall. specialize (Hall eq_refl). discriminate.
Qed.

(** C9 (amended): an error whose message contains "timeout"
    (case-insensitively) and which is not an encoding-transport error
    (neither its type name contains "chunkedencodingerror" nor its
    message "chunked encoding") is classified as a timeout, and a timeout
    is retried whenever the attempt index is below the maximum. *)
Theorem classify_timeout_and_retry (e : py_error) (attempt : nat)
    (max_retry : Z) :
  str_in "timeout" (lower (exn_msg e)) = true ->
  str_in "chunkedencodingerror" (lower (exn_type e)) = false ->
  str_in "chunked encoding" (lower (exn_msg e)) = false ->
  Z.of_nat attempt < max_retry ->
  _classify_error e = "TIMEOUT" /\
  _should_retry (_classify_error e) attempt max_retry = true.
Proof.
  intros Hmsg Hty Hchunk Hlt.
  assert (Hc : _classify_error e = "TIMEOUT").
  { unfold _classify_error. rewrite Hty, Hchunk.
    rewrite any_in_cons, Hmsg. reflexivity. }
  split; [exact Hc |].
  rewrite Hc. unfold _should_retry.
  destruct (Z.geb_spec (Z.of_nat attempt) max_retry) as [Hge | _]; [lia |].
  reflexivity.
Qed.

Lemma classify_timeout_and_retry_witness :
  _classify_error (PyError "ReadTimeout" "HTTP read Timeout") = "TIMEOUT" /\
  _should_retry (_classify_error (PyError "ReadTimeout" "HTTP read Timeout"))
    1 3 = true.
Proof.
  apply (classify_timeout_and_retry
           (PyError "ReadTimeout" "HTTP read Timeout") 1 3);
    [reflexivity | reflexivity | reflexivity | lia].
Defined.

End RetryPolicy.

(** ** Slicing into chunks and batches *)

Section Slices.
Context {A : Type}.

Lemma take_chunk_end (l : list A) (i n : nat) :
  take (Nat.min (i + n) (length l) - i) (drop i l) = take n (drop i l).
Proof.
  destruct (Nat.le_gt_cases (i + n) (length l)) as [Hle | Hgt].
  - rewrite Nat.min_l by exact Hle. f_equal. lia.
  - rewrite Nat.min_r by lia.
    rewrite !take_ge; [reflexivity | |]; rewrite length_drop; lia.
Qed.

Lemma concat_take_drop (l : list A) (n m : nat) :
  concat (map (fun k => take n (drop (k * n) l)) (seq 0 m)) = take (m * n) l.
Proof.
  induction m as [| m IH].
  - reflexivity.
  - rewrite seq_S, map_app, concat_app, IH. simpl.
    rewrite app_nil_r, take_take_drop. f_equal. lia.
Qed.

Lemma range_step_covers (len n : nat) :
  (0 < n)%nat -> (len <= (len + n - 1) / n * n)%nat.
Proof.
  intros Hn.
  pose proof (Nat.div_mod_eq (len + n - 1) n) as Hdm.
  pose proof (Nat.mod_upper_bound (len + n - 1) n ltac:(lia)) as Hmod.
  nia.
Qed.

(** For a positive step the slices, laid end to end, are the list. *)
Lemma concat_slices (n : nat) (l : list A) :
  (0 < n)%nat -> concat (slices n l) = l.
Proof.
  intros Hn. unfold slices, range_step. rewrite map_map.
  rewrite concat_take_drop. apply take_ge. apply range_step_covers, Hn.
Qed.

Lemma concat_chunks (n : nat) (l : list A) :
  (0 < n)%nat ->
  concat (map (fun i => take (Nat.min (i + n) (length l) - i) (drop i l))
            (range_step (length l) n)) = l.
Proof.
  intros Hn. transitivity (concat (slices n l)); [| apply concat_slices, Hn].
  unfold slices. f_equal. apply map_ext. intros i. apply take_chunk_end.
Qed.

End Slices.

(** ** Reconciliation: the insert / update / remove sets *)

Section Diff.
Import Fund Stock.

Lemma filter_app_list {B : Type} (p : B -> bool) (l1 l2 : list B) :
  List.filter p (l1 ++ l2) = List.filter p l1 ++ List.filter p l2.
Proof. apply List.filter_app. Qed.

(** The chunked classification accumulates the classification of the
    concatenated chunks. *)
Lemma split_chunks_fold (p : stock_record -> bool)
    (chunk : nat -> list stock_record) (idxs : list nat)
    (e n : list stock_record) (s : gset pyval) :
  fold_left
    (fun '(exist_records, new_records, new_symbols) i =>
       (exist_records ++ List.filter p (chunk i),
        new_records ++ List.filter (fun r => negb (p r)) (chunk i),
        new_symbols ∪ list_to_set (map symbol (chunk i))))
    idxs (e, n, s)
  = (e ++ List.filter p (concat (map chunk idxs)),
     n ++ List.filter (fun r => negb (p r)) (concat (map chunk idxs)),
     s ∪ list_to_set (map symbol (concat (map chunk idxs)))).
Proof.
  revert e n s. induction idxs as [| i idxs IH]; intros e n s; simpl.
  - rewrite !app_nil_r. f_equal. symmetry. apply (right_id_L ∅ (∪)).
  - rewrite IH. rewrite !filter_app_list, map_app, list_to_set_app_L.
    rewrite !app_assoc. f_equal. symmetry. apply (assoc_L (∪)).
Qed.

(** Chunking does not change the classification. *)
Lemma split_records_unchunked (chunk_size : Z) (existing : gset pyval)
    (records : list stock_record) :
  0 < chunk_size ->
  split_records chunk_size existing records
  = (List.filter (fun r => bool_decide (symbol r ∈ existing)) records,
     List.filter (fun r => negb (bool_decide (symbol r ∈ existing))) records,
     list_to_set (map symbol records)).
Proof.
  intros Hpos. unfold split_records.
  destruct (chunk_size <? Z.of_nat (length records)); [| reflexivity].
  rewrite (split_chunks_fold
             (fun r => bool_decide (symbol r ∈ existing))
             (fun i => take (Nat.min (i + Z.to_nat chunk_size)
                                     (length records) - i)
                            (drop i records))).
  rewrite concat_chunks by lia. simpl. f_equal. apply (left_id_L ∅ (∪)).
Qed.

Lemma elem_of_filter_list {B : Type} (p : B -> bool) (l : list B) (x : B) :
  x ∈ List.filter p l <-> x ∈ l /\ p x = true.
Proof. rewrite !list_elem_of_In. apply List.filter_In. Qed.

Lemma keys_of_filter_in (existing : gset pyval) (records : list stock_record) :
  list_to_set
    (map symbol
       (List.filter (fun r => bool_decide (symbol r ∈ existing)) records))
  = (list_to_set (map symbol records) : gset pyval) ∩ existing.
Proof.
  apply set_eq. intros k.
  rewrite elem_of_intersection, !elem_of_list_to_set, !list_elem_of_fmap.
  split.
  - intros (r & -> & Hr). apply elem_of_filter_list in Hr as [Hr Hin].
    apply bool_decide_eq_true in Hin. eauto.
  - intros [(r & -> & Hr) Hin]. exists r. split; [reflexivity |].
    apply elem_of_filter_list. split; [exact Hr |].
    apply bool_decide_eq_true. exact Hin.
Qed.

Lemma keys_of_filter_not_in (existing : gset pyval)
    (records : list stock_record) :
  list_to_set
    (map symbol
       (List.filter (fun r => negb (bool_decide (symbol r ∈ existing)))
          records))
  = (list_to_set (map symbol records) : gset pyval) ∖ existing.
Proof.
  apply set_eq. intros k.
  rewrite elem_of_difference, !elem_of_list_to_set, !list_elem_of_fmap.
  split.
  - intros (r & -> & Hr). apply elem_of_filter_list in Hr as [Hr Hin].
    apply negb_true_iff, bool_decide_eq_false in Hin. eauto.
  - intros [(r & -> & Hr) Hin]. exists r. split; [reflexivity |].
    apply elem_of_filter_list. split; [exact Hr |].
    apply negb_true_iff, bool_decide_eq_false. exact Hin.
Qed.

(** The classification with its removal set, without the chunking. *)
Lemma classify_records_unchunked (existing : gset pyval)
    (records : list stock_record) :
  classify_records existing records
  = (List.filter (fun r => bool_decide (symbol r ∈ existing)) records,
     List.filter (fun r => negb (bool_decide (symbol r ∈ existing))) records,
     existing ∖ list_to_set (map symbol records)).
Proof.
  unfold classify_records. rewrite split_records_unchunked by lia.
  reflexivity.
Qed.

(** C2: for all canonical records and existing keys, the diff yields
    ToInsert = canonical − existing, ToRemove = existing − canonical and
    ToUpdate = canonical ∩ existing; the three sets are pairwise disjoint
    and every canonical key lies in exactly one of ToInsert and ToUpdate.
    This holds for the key sets computed by the funds
    [analyze_data_differences], and for the keys of the two record lists
    and the removal set computed by the stocks classification; and the
    stocks run hands exactly these three to its batch engine. *)
Theorem diff_partition (final_funds : list fund_record)
    (records : list stock_record) (existing : gset pyval) :
  (let '(new_codes, removed_codes, update_codes) :=
     analyze_data_differences final_funds existing in
   let canonical : gset pyval := list_to_set (map code final_funds) in
   new_codes = canonical ∖ existing /\
   removed_codes = existing ∖ canonical /\
   update_codes = canonical ∩ existing /\
   new_codes ## update_codes /\
   new_codes ## removed_codes /\
   update_codes ## removed_codes /\
   (forall k, (k ∈ canonical) ->
      (k ∈ new_codes /\ k ∉ update_codes) \/
      ((k ∉ new_codes) /\ k ∈ update_codes)))
  /\
  (let '(exist_records, new_records, removed_symbols) :=
     classify_records existing records in
   let canonical : gset pyval := list_to_set (map symbol records) in
   let to_insert : gset pyval := list_to_set (map symbol new_records) in
   let to_update : gset pyval := list_to_set (map symbol exist_records) in
   to_insert = canonical ∖ existing /\
   removed_symbols = existing ∖ canonical /\
   to_update = canonical ∩ existing /\
   to_insert ## to_update /\
   to_insert ## removed_symbols /\
   to_update ## removed_symbols /\
   (forall k, (k ∈ canonical) ->
      (k ∈ to_insert /\ k ∉ to_update) \/
      ((k ∉ to_insert) /\ k ∈ to_update)))
  /\
  (forall (H : host) (market_name get_data_func : string)
          (clean : dataframe -> outcome (list stock_record))
          (concurrency : Z) (batch_size : option Z) (w w1 : world H)
          (raw_dataframe : dataframe) (cleaned : list stock_record),
     safely_get_market_data get_data_func market_name None w
     = (Returns (Some raw_dataframe), w1) ->
     df_empty raw_dataframe = false ->
     clean raw_dataframe = Returns cleaned ->
     List.filter
       (fun r => Fund.notna (symbol r) && Fund.notna (datetime_col r))
       cleaned
     = records ->
     let '(exist_records, new_records, removed_symbols) :=
       classify_records existing records in
     process_and_sync_stock_data market_name get_data_func (Some clean)
       existing concurrency batch_size w
     = bind get_db_engine
         (fun _ =>
            bind (process_market_records market_name exist_records
                    new_records removed_symbols
                    (default (Config.batch_size STOCK_CONFIG) batch_size)
                    concurrency)
              (fun result =>
                 bind time
                   (fun _ =>
                      let failed : gset pyval :=
                        list_to_set (failed_updates result) in
                      if negb (orderable failed)
                      then raise (PyError "TypeError"
                                    (h_unorderable H failed))
                      else ret tt)))
         w1).
Proof.
  split; [| split].
  - unfold analyze_data_differences. cbv zeta.
    repeat split; try set_solver.
    intros k Hk. destruct (decide (k ∈ existing)); set_solver.
  - rewrite classify_records_unchunked. cbv zeta.
    rewrite keys_of_filter_in, keys_of_filter_not_in.
    repeat split; try set_solver.
    intros k Hk. destruct (decide (k ∈ existing)); set_solver.
  - intros H market_name get_data_func clean concurrency batch_size w w1
      raw_dataframe cleaned Hfetch Hempty Hclean Hrows.
    unfold process_and_sync_stock_data.
    unfold bind at 1, time at 1. unfold bind at 1.
    rewrite Hfetch, Hempty. unfold bind at 1. rewrite Hclean.
    unfold unwrap, ret at 1. rewrite Hrows.
    destruct (classify_records existing records)
      as [[exist_records new_records] removed_symbols].
    reflexivity.
Qed.

(** The stocks run on the A-share market of a healthy host: the listed
    symbol 000001 is updated and the unlisted symbol 000002 is handed to
    the engine for removal. *)
Lemma diff_partition_witness :
  let H := Examples.stocks_healthy in
  let w := Sim.start H Sim.sim_init in
  let listed := StockRecord (PStr "000001") (PStr "2024-01-02 10:00:00") [] in
  let existing : gset pyval := {[ PStr "000001"; PStr "000002" ]} in
  exists w1,
    safely_get_market_data "stock_zh_a_spot_em" "A股" None w
    = (Returns (Some Examples.stock_frame), w1) /\
    process_and_sync_stock_data "A股" "stock_zh_a_spot_em"
      (Some Examples.clean_rows) existing 2 None w
    = bind get_db_engine
        (fun _ =>
           bind (process_market_records "A股" [listed] []
                   (existing ∖ list_to_set [PStr "000001"]) 2000 2)
             (fun result =>
                bind time
                  (fun _ =>
                     let failed : gset pyval :=
                       list_to_set (failed_updates result) in
                     if negb (orderable failed)
                     then raise (PyError "TypeError" (h_unorderable H failed))
                     else ret tt)))
        w1.
Proof.
  intros H w listed existing.
  destruct (safely_get_market_data "stock_zh_a_spot_em" "A股" None w)
    as [fetched w1] eqn:Hfetch.
  assert (Hfetched : fetched = Returns (Some Examples.stock_frame)).
  { change fetched with (fetched, w1).1. rewrite <- Hfetch.
    vm_compute. reflexivity. }
  subst fetched. exists w1. split; [reflexivity |].
  destruct (diff_partition [] [listed] existing) as (_ & _ & Hrun).
  specialize (Hrun H "A股" "stock_zh_a_spot_em" Examples.clean_rows 2 None
                w w1 Examples.stock_frame [listed] Hfetch
                eq_refl eq_refl eq_refl).
  rewrite classify_records_unchunked in Hrun.
  exact Hrun.
Defined.

End Diff.

(** ** Reconciliation: the cross-source merge of the funds *)

Section Merge.
Import Fund.

#[local] Abbreviation merge_state := (list fund_record * gset pyval)%type.
#[local] Abbreviation domestic_state :=
  (list fund_record * gset pyval * gset pyval)%type.

(** An invariant of the accumulator is carried through the records of
    one source ... *)
Lemma fold_step_inv {S : Type} (step : string -> S -> fund_record -> S)
    (P : S -> Prop) (t : string) (records : list fund_record) :
  (forall st r, r ∈ records -> P st -> P (step t st r)) ->
  forall st, P st -> P (fold_left (step t) records st).
Proof.
  induction records as [| r records IH]; intros Hstep st Hst; simpl.
  - exact Hst.
  - apply IH.
    + intros st' r' Hr'. apply Hstep. by right.
    + apply Hstep; [by left | exact Hst].
Qed.

(** ... and through a whole pass over the listed sources. *)
Lemma merge_pass_inv {S : Type} (step : string -> S -> fund_record -> S)
    (P : S -> Prop) (types : list string)
    (fund_data : gmap string (list fund_record)) :
  (forall t records st r,
     t ∈ types -> fund_data !! t = Some records -> r ∈ records ->
     P st -> P (step t st r)) ->
  forall init, P init -> P (merge_pass step types fund_data init).
Proof.
  unfold merge_pass.
  induction types as [| t types IH]; intros Hstep init Hinit; simpl.
  - exact Hinit.
  - apply IH.
    + intros t' records st r Ht'. apply Hstep. by right.
    + destruct (fund_data !! t) as [records |] eqn:Hlook; [| exact Hinit].
      apply fold_step_inv; [| exact Hinit].
      intros st r Hr. apply (Hstep t records); [by left | exact Hlook | exact Hr].
Qed.

Lemma domestic_step_mono (t : string) (st : domestic_state)
    (r x : fund_record) :
  x ∈ st.1.1 -> x ∈ (domestic_step t st r).1.1.
Proof.
  destruct st as [[funds codes] empty]. unfold domestic_step.
  destruct (price r); simpl; [| done].
  intros Hx. apply elem_of_app. by left.
Qed.

(** A domestic record with a price is in the accumulator once its source
    has been processed. *)
Lemma domestic_fold_accepts (t : string) (records : list fund_record)
    (r : fund_record) (p : pyfloat) :
  r ∈ records -> price r = Some p ->
  forall st : domestic_state,
    FundRecord (code r) (name r) t (Some p)
      ∈ (fold_left (domestic_step t) records st).1.1.
Proof.
  induction records as [| r' records IH]; intros Hr Hp st.
  - by apply elem_of_nil in Hr.
  - simpl. apply elem_of_cons in Hr as [-> | Hr].
    + apply (fold_step_inv domestic_step
               (fun st => FundRecord (code r') (name r') t (Some p) ∈ st.1.1)).
      * intros st' r'' _. apply domestic_step_mono.
      * destruct st as [[funds codes] empty]. unfold domestic_step.
        rewrite Hp. simpl. apply elem_of_app. right.
        by apply list_elem_of_singleton.
    + by apply IH.
Qed.

Lemma domestic_pass_accepts (types : list string)
    (fund_data : gmap string (list fund_record)) (t : string)
    (records : list fund_record) (r : fund_record) (p : pyfloat) :
  t ∈ types -> fund_data !! t = Some records -> r ∈ records ->
  price r = Some p ->
  forall init : domestic_state,
    FundRecord (code r) (name r) t (Some p)
      ∈ (merge_pass domestic_step types fund_data init).1.1.
Proof.
  unfold merge_pass.
  induction types as [| t' types IH]; intros Ht Hlook Hr Hp init.
  - by apply elem_of_nil in Ht.
  - simpl. apply elem_of_cons in Ht as [<- | Ht].
    + rewrite Hlook.
      apply (merge_pass_inv domestic_step
               (fun st => FundRecord (code r) (name r) t (Some p) ∈ st.1.1)).
      * intros t'' records' st r' _ _ _. apply domestic_step_mono.
      * by apply domestic_fold_accepts.
    + by apply IH.
Qed.

(** What the first loop maintains: the code set is the set of accepted
    codes, every accepted record has a price, and every code set aside
    is the code of a record without a price. *)
Definition domestic_inv (fund_data : gmap string (list fund_record))
    (st : domestic_state) : Prop :=
  st.1.2 = list_to_set (map code st.1.1) /\
  (forall d, d ∈ st.1.1 -> price d <> None) /\
  (forall k, k ∈ st.2 ->
     exists t records r,
       t ∈ domestic_types /\ fund_data !! t = Some records /\ r ∈ records /\
       price r = None /\ code r = k).

Lemma domestic_step_inv (fund_data : gmap string (list fund_record))
    (t : string) (records : list fund_record) (st : domestic_state)
    (r : fund_record) :
  t ∈ domestic_types -> fund_data !! t = Some records -> r ∈ records ->
  domestic_inv fund_data st -> domestic_inv fund_data (domestic_step t st r).
Proof.
  destruct st as [[funds codes] empty]. unfold domestic_inv, domestic_step.
  simpl. intros Ht Hlook Hr (Hcodes & Hprice & Hempty).
  destruct (price r) as [p |] eqn:Hp; simpl.
  - split; [| split; [| exact Hempty]].
    + rewrite map_app, list_to_set_app_L, Hcodes. simpl. set_solver.
    + intros d Hd. apply elem_of_app in Hd as [Hd | Hd]; [by apply Hprice |].
      apply list_elem_of_singleton in Hd as ->. done.
  - split; [exact Hcodes | split; [exact Hprice |]].
    intros k Hk. apply elem_of_union in Hk as [Hk | Hk]; [| by apply Hempty].
    apply elem_of_singleton in Hk as ->. by exists t, records, r.
Qed.

Lemma domestic_pass_inv (fund_data : gmap string (list fund_record)) :
  domestic_inv fund_data
    (merge_pass domestic_step domestic_types fund_data ([], ∅, ∅)).
Proof.
  apply (merge_pass_inv domestic_step (domestic_inv fund_data)).
  - intros t records st r. apply domestic_step_inv.
  - split; [reflexivity | split].
    + intros d Hd. by apply elem_of_nil in Hd.
    + intros k Hk. by apply elem_of_empty in Hk.
Qed.

(** Every code of a domestic record without a price is set aside. *)
Lemma domestic_step_empty_mono (t : string) (st : domestic_state)
    (r : fund_record) (k : pyval) :
  k ∈ st.2 -> k ∈ (domestic_step t st r).2.
Proof.
  destruct st as [[funds codes] empty]. unfold domestic_step.
  destruct (price r); simpl; [done |]. intros Hk. apply elem_of_union. by right.
Qed.

Lemma domestic_fold_sets_aside (t : string) (records : list fund_record)
    (r : fund_record) :
  r ∈ records -> price r = None ->
  forall st : domestic_state,
    code r ∈ (fold_left (domestic_step t) records st).2.
Proof.
  induction records as [| r' records IH]; intros Hr Hp st.
  - by apply elem_of_nil in Hr.
  - simpl. apply elem_of_cons in Hr as [-> | Hr]; [| by apply IH].
    apply (fold_step_inv domestic_step (fun st => code r' ∈ st.2)).
    + intros st' r'' _. apply domestic_step_empty_mono.
    + destruct st as [[funds codes] empty]. unfold domestic_step.
      rewrite Hp. simpl. apply elem_of_union. left.
      by apply elem_of_singleton.
Qed.

Lemma domestic_pass_sets_aside (types : list string)
    (fund_data : gmap string (list fund_record)) (t : string)
    (records : list fund_record) (r : fund_record) :
  t ∈ types -> fund_data !! t = Some records -> r ∈ records ->
  price r = None ->
  forall init : domestic_state,
    code r ∈ (merge_pass domestic_step types fund_data init).2.
Proof.
  unfold merge_pass.
  induction types as [| t' types IH]; intros Ht Hlook Hr Hp init.
  - by apply elem_of_nil in Ht.
  - simpl. apply elem_of_cons in Ht as [<- | Ht]; [| by apply IH].
    rewrite Hlook.
    apply (merge_pass_inv domestic_step (fun st => code r ∈ st.2)).
    + intros t'' records' st r' _ _ _. apply domestic_step_empty_mono.
    + by apply domestic_fold_sets_aside.
Qed.

(** What the second loop maintains over the domestic code set [D]. *)
Definition qdii_inv (fund_data : gmap string (list fund_record))
    (D : gset pyval) (st : merge_state) : Prop :=
  st.2 = D ∪ list_to_set (map code st.1) /\
  NoDup (map code st.1) /\
  (forall q, q ∈ st.1 -> code q ∉ D) /\
  (forall q, q ∈ st.1 ->
     exists t records r,
       t ∈ qdii_types /\ fund_data !! t = Some records /\ r ∈ records /\
       q = FundRecord (code r) (name r) t (price r)).

Lemma qdii_step_inv (fund_data : gmap string (list fund_record))
    (D : gset pyval) (t : string) (records : list fund_record)
    (st : merge_state) (r : fund_record) :
  t ∈ qdii_types -> fund_data !! t = Some records -> r ∈ records ->
  qdii_inv fund_data D st -> qdii_inv fund_data D (qdii_step t st r).
Proof.
  destruct st as [funds codes]. unfold qdii_inv, qdii_step. simpl.
  intros Ht Hlook Hr (Hcodes & Hnd & Hfresh & Horigin).
  case_bool_decide as Hin; simpl; [done |].
  assert (HnD : code r ∉ D) by (rewrite Hcodes in Hin; set_solver).
  assert (Hnf : code r ∉ map code funds).
  { rewrite Hcodes in Hin. intros Hc. apply Hin.
    apply elem_of_union. right. by apply elem_of_list_to_set. }
  repeat split.
  - rewrite map_app, list_to_set_app_L, Hcodes. simpl. set_solver.
  - rewrite map_app. apply NoDup_app. split; [exact Hnd |]. split.
    + intros c Hc Hc'. simpl in Hc'.
      apply list_elem_of_singleton in Hc' as ->. by apply Hnf.
    + simpl. apply NoDup_singleton.
  - intros q Hq. apply elem_of_app in Hq as [Hq | Hq]; [by apply Hfresh |].
    apply list_elem_of_singleton in Hq as ->. exact HnD.
  - intros q Hq. apply elem_of_app in Hq as [Hq | Hq]; [by apply Horigin |].
    apply list_elem_of_singleton in Hq as ->. by exists t, records, r.
Qed.

(** Every key offered by a source lands in the code set of a pass. *)
Lemma qdii_step_key (t : string) (st : merge_state) (r : fund_record) :
  code r ∈ (qdii_step t st r).2.
Proof.
  destruct st as [funds codes]. unfold qdii_step.
  case_bool_decide; simpl; set_solver.
Qed.

Lemma qdii_step_keys_mono (t : string) (st : merge_state) (r : fund_record)
    (k : pyval) :
  k ∈ st.2 -> k ∈ (qdii_step t st r).2.
Proof.
  destruct st as [funds codes]. unfold qdii_step.
  case_bool_decide; simpl; set_solver.
Qed.

Lemma qdii_fold_key (t : string) (records : list fund_record)
    (r : fund_record) :
  r ∈ records ->
  forall st, code r ∈ (fold_left (qdii_step t) records st).2.
Proof.
  induction records as [| r' records IH]; intros Hr st.
  - by apply elem_of_nil in Hr.
  - simpl. apply elem_of_cons in Hr as [-> | Hr]; [| by apply IH].
    apply (fold_step_inv qdii_step (fun st => code r' ∈ st.2)).
    + intros st' r'' _. apply qdii_step_keys_mono.
    + apply qdii_step_key.
Qed.

Lemma qdii_pass_key (types : list string)
    (fund_data : gmap string (list fund_record)) (t : string)
    (records : list fund_record) (r : fund_record) :
  t ∈ types -> fund_data !! t = Some records -> r ∈ records ->
  forall init, code r ∈ (merge_pass qdii_step types fund_data init).2.
Proof.
  unfold merge_pass.
  induction types as [| t' types IH]; intros Ht Hlook Hr init.
  - by apply elem_of_nil in Ht.
  - simpl. apply elem_of_cons in Ht as [<- | Ht]; [| by apply IH].
    rewrite Hlook.
    apply (merge_pass_inv qdii_step (fun st => code r ∈ st.2)).
    + intros t'' records' st r' _ _ _. apply qdii_step_keys_mono.
    + by apply qdii_fold_key.
Qed.

(** The spec's example: a domestic source with [X] at price 10 and a
    supplemental source with [X] at 20 and [Y] at 5. *)
Lemma merge_example :
  match integrate_fund_data Examples.funds_complete
          (<["场内基金" := [FundRecord (PStr "X") (PStr "x") "场内基金" (Some (FNum 10))]]>
             (<["欧美QDII" := [FundRecord (PStr "X") (PStr "x") "欧美QDII" (Some (FNum 20));
                               FundRecord (PStr "Y") (PStr "y") "欧美QDII" (Some (FNum 5))]]>
                ∅)) with
  | Returns (final_funds, _) =>
      final_funds
      = [FundRecord (PStr "X") (PStr "x") "场内基金" (Some (FNum 10));
         FundRecord (PStr "Y") (PStr "y") "欧美QDII" (Some (FNum 5))]
  | Raises _ => False
  end.
Proof. vm_compute. reflexivity. Qed.

(** A missing code is a NaN, and the set of the accepted codes finds a
    NaN only by its identity: two supplemental records with missing
    codes are both merged when their codes are two float objects, and
    only the first one when both hold the same object. *)
Lemma merge_nan_codes_by_identity :
  let q := fun obj => FundRecord (PFloat (FNaN obj)) (PStr "q") "欧美QDII"
                        (Some (FNum 1)) in
  integrate_fund_data Examples.funds_complete (<["欧美QDII" := [q 1%nat; q 2%nat]]> ∅)
  = Returns ([q 1%nat; q 2%nat], {[PFloat (FNaN 1); PFloat (FNaN 2)]}) /\
  integrate_fund_data Examples.funds_complete (<["欧美QDII" := [q 1%nat; q 1%nat]]> ∅)
  = Returns ([q 1%nat], {[PFloat (FNaN 1)]}).
Proof. vm_compute. split; reflexivity. Qed.

(** The log line between the two loops: null-priced domestic records
    with a text code and with a missing code make [sorted] raise, and
    the merge with it. *)
Lemma merge_raises_on_mixed_null_priced_codes :
  integrate_fund_data Examples.funds_complete
    (<["开放基金" := [FundRecord (PStr "000001") (PStr "a") "开放基金" None;
                      FundRecord (PFloat (FNaN 1)) (PStr "b") "开放基金" None]]>
       ∅)
  = Raises (PyError "TypeError"
              "'<' not supported between instances of 'float' and 'str'").
Proof. vm_compute. reflexivity. Qed.

(** C3, as stated, fails on the code: domestic sources are appended
    without a duplicate check, so a key listed by two domestic sources
    appears twice in the merged output. *)
Lemma merge_two_domestic_sources_same_key :
  match integrate_fund_data Examples.funds_complete
          (<["场内基金" := [FundRecord (PStr "X") (PStr "x") "场内基金" (Some (FNum 1))]]>
             (<["开放基金" := [FundRecord (PStr "X") (PStr "x") "开放基金" (Some (FNum 2))]]>
                ∅)) with
  | Returns (final_funds, _) => ~ NoDup (map code final_funds)
  | Raises _ => False
  end.
Proof.
  vm_compute. intros Hnd. apply NoDup_cons in Hnd as [Hnotin _].
  apply Hnotin. by left.
Qed.

(** C3 (amended): the merge raises [TypeError] exactly when the codes of
    the domestic records without a price are of different types (the
    log line that sorts them); otherwise it returns, and then every
    record of a domestic source with a non-null price is accepted; the
    merged output is the accepted domestic records followed by
    supplemental (QDII) records, each of which comes from a supplemental
    source, has a key that no accepted domestic record has, and has a
    key of its own among the supplemental ones; every key offered by a
    supplemental source is present in the output; and the output has at
    most one record per key whenever the accepted domestic records have
    pairwise distinct keys.  Keys are compared as the [set] of the
    accepted codes compares them: a missing code (NaN) is the same key
    only as the same object. *)
Theorem merge_cross_source (H : host)
    (fund_data : gmap string (list fund_record)) :
  let first :=
    merge_pass domestic_step domestic_types fund_data ([], ∅, ∅) in
  let domestic := first.1.1 in
  let empty_price_codes := first.2 in
  (forall k,
     k ∈ empty_price_codes <->
     exists t records r,
       t ∈ domestic_types /\ fund_data !! t = Some records /\ r ∈ records /\
       price r = None /\ code r = k) /\
  match integrate_fund_data H fund_data with
  | Raises e =>
      orderable empty_price_codes = false /\ exn_type e = "TypeError"
  | Returns (final_funds, _) =>
      orderable empty_price_codes = true /\
      (forall t records r p,
         t ∈ domestic_types -> fund_data !! t = Some records -> r ∈ records ->
         price r = Some p ->
         FundRecord (code r) (name r) t (Some p) ∈ final_funds) /\
      (forall t records r,
         t ∈ qdii_types -> fund_data !! t = Some records -> r ∈ records ->
         code r ∈ map code final_funds) /\
      exists qdii,
        final_funds = domestic ++ qdii /\
        (forall q, q ∈ qdii ->
           exists t records r,
             t ∈ qdii_types /\ fund_data !! t = Some records /\ r ∈ records /\
             q = FundRecord (code r) (name r) t (price r)) /\
        (forall q, q ∈ qdii -> code q ∉ map code domestic) /\
        NoDup (map code qdii) /\
        (NoDup (map code domestic) -> NoDup (map code final_funds))
  end.
Proof.
  intros first domestic empty_price_codes.
  subst domestic empty_price_codes first.
  pose proof (domestic_pass_inv fund_data) as Hdinv.
  pose proof (fun t records r p Ht Hl Hr Hp =>
                domestic_pass_accepts domestic_types fund_data t records r p
                  Ht Hl Hr Hp ([], ∅, ∅)) as Hacc.
  pose proof (fun t records r Ht Hl Hr Hp =>
                domestic_pass_sets_aside domestic_types fund_data t records r
                  Ht Hl Hr Hp ([], ∅, ∅)) as Haside.
  unfold integrate_fund_data.
  destruct (merge_pass domestic_step domestic_types fund_data ([], ∅, ∅))
    as [[domestic codes] empty] eqn:Hdom.
  destruct Hdinv as (Hcodes & _ & Hempty). simpl in Hcodes, Hempty, Hacc, Haside.
  split.
  { intros k. split; [apply Hempty |].
    intros (t & records & r & Ht & Hlook & Hr & Hp & <-). simpl.
    by apply (Haside t records r). }
  cbv beta iota zeta. cbn [fst snd].
  destruct (orderable empty) eqn:Hord; cbv beta iota zeta delta [negb];
    [| by split].
  pose proof (merge_pass_inv qdii_step (qdii_inv fund_data codes) qdii_types
                fund_data (qdii_step_inv fund_data codes) ([], codes)) as Hq.
  pose proof (fun t records r Ht Hl Hr =>
                qdii_pass_key qdii_types fund_data t records r Ht Hl Hr
                  ([], codes)) as Hkeys.
  destruct (merge_pass qdii_step qdii_types fund_data ([], codes))
    as [qdii codes'] eqn:Hqd.
  destruct Hq as (Hcodes' & Hnd & Hfresh & Horigin).
  { repeat split; simpl.
    - set_solver.
    - apply NoDup_nil_2.
    - intros q Hq. by apply elem_of_nil in Hq.
    - intros q Hq. by apply elem_of_nil in Hq. }
  cbn [fst snd] in *. split; [reflexivity |]. split; [| split].
  - intros t records r p Ht Hlook Hr Hp. apply elem_of_app. left.
    by apply (Hacc t records r p).
  - intros t records r Ht Hlook Hr.
    specialize (Hkeys t records r Ht Hlook Hr).
    rewrite Hcodes', Hcodes in Hkeys. rewrite map_app.
    apply elem_of_app.
    apply elem_of_union in Hkeys as [Hk | Hk];
      apply elem_of_list_to_set in Hk; auto.
  - exists qdii. repeat split; try assumption.
    + intros q Hq Hin. apply (Hfresh q Hq). rewrite Hcodes.
      by apply elem_of_list_to_set.
    + intros Hndd. rewrite map_app. apply NoDup_app. repeat split; try done.
      intros c Hc Hc'. apply list_elem_of_fmap in Hc' as (q & -> & Hq).
      apply (Hfresh q Hq). rewrite Hcodes. by apply elem_of_list_to_set.
Qed.

(** The amended statement at the example of the specification. *)
Lemma merge_cross_source_witness :
  match integrate_fund_data Examples.funds_complete
          (<["场内基金" := [FundRecord (PStr "X") (PStr "x") "场内基金" (Some (FNum 10))]]>
             (<["欧美QDII" := [FundRecord (PStr "X") (PStr "x") "欧美QDII" (Some (FNum 20));
                               FundRecord (PStr "Y") (PStr "y") "欧美QDII" (Some (FNum 5))]]>
                ∅)) with
  | Returns (final_funds, _) =>
      FundRecord (PStr "X") (PStr "x") "场内基金" (Some (FNum 10)) ∈ final_funds
  | Raises _ => False
  end.
Proof.
  pose proof (merge_cross_source Examples.funds_complete
    (<["场内基金" := [FundRecord (PStr "X") (PStr "x") "场内基金" (Some (FNum 10))]]>
       (<["欧美QDII" := [FundRecord (PStr "X") (PStr "x") "欧美QDII" (Some (FNum 20));
                         FundRecord (PStr "Y") (PStr "y") "欧美QDII" (Some (FNum 5))]]>
          ∅))) as [_ Hm].
  destruct (integrate_fund_data _ _) as [[final_funds codes] | e].
  - destruct Hm as (_ & Hacc & _).
    apply (Hacc "场内基金"
             [FundRecord (PStr "X") (PStr "x") "场内基金" (Some (FNum 10))]
             (FundRecord (PStr "X") (PStr "x") "场内基金" (Some (FNum 10)))
             (FNum 10)).
    + by left.
    + reflexivity.
    + by left.
    + reflexivity.
  - destruct Hm as [Hord _]. vm_compute in Hord. discriminate Hord.
Defined.

(** C4 at its failing input: the second loop has no price test, so a
    supplemental record with a null price is merged.  Such a record
    reaches the merge: a price cell ["-"] passes the not-NaN filter of
    the cleaner and [safe_float] turns it into [None]. *)
Theorem merge_keeps_null_price_qdii :
  let H := Sim.sim_host (fun _ => true) (fun _ _ => Returns None)
             Sim.morning Sim.no_fault Sim.one_row_affected in
  let df := DataFrame ["代码"; "名称"; "现价"]
              [[PStr "513100"; PStr "NDX"; PStr "-"]] in
  let record := FundRecord (PStr "513100") (PStr "NDX") "欧美QDII" None in
  extract_fund_values H df "欧美QDII" = [record] /\
  integrate_fund_data H (<["欧美QDII" := [record]]> ∅)
  = Returns ([record], {[PStr "513100"]}) /\
  price record = None.
Proof. vm_compute. repeat split. Qed.

(** The first loop, in contrast, drops null prices: no accepted domestic
    record has one. *)
Lemma merge_domestic_prices (fund_data : gmap string (list fund_record))
    (d : fund_record) :
  d ∈ (merge_pass domestic_step domestic_types fund_data ([], ∅, ∅)).1.1 ->
  price d <> None.
Proof.
  intros Hd. by apply (domestic_pass_inv fund_data).
Qed.

End Merge.

(** ** Storage operations on empty input *)

Section EmptyInput.
Import FundDb StockDb.

(** C10: on an empty input each of [mark_funds_deleted],
    [insert_new_funds], [update_existing_funds] and
    [mark_stocks_as_deleted] returns zero and leaves the world as it
    was: the host state (storage included) is unchanged and no event is
    added to the journal. *)
Theorem storage_ops_empty_input (H : host) (db : FundDatabase)
    (market_name : string) (w : world H) :
  mark_funds_deleted ∅ w = (Returns 0, w) /\
  insert_new_funds db [] w = (Returns 0, w) /\
  update_existing_funds db [] w = (Returns 0, w) /\
  mark_stocks_as_deleted ∅ market_name w = (Returns 0, w).
Proof.
  unfold mark_funds_deleted, mark_stocks_as_deleted.
  rewrite !bool_decide_eq_true_2 by reflexivity.
  repeat split.
Qed.

End EmptyInput.

(** ** Computations that stay away from the storage *)

Section Quiet.
Import Obs Fund.
Context {H : host}.

Lemma storage_events_app (evs1 evs2 : list event) :
  storage_events (evs1 ++ evs2) = storage_events evs1 ++ storage_events evs2.
Proof. apply List.filter_app. Qed.

Lemma quiet_ret {A : Type} (a : A) : quiet (ret (H := H) a).
Proof.
  intros w. exists (Returns a), [], w. rewrite app_nil_r. by repeat split.
Qed.

Lemma quiet_bind {A B : Type} (m : M H A) (k : A -> M H B) :
  quiet m -> (forall a, quiet (k a)) -> quiet (bind m k).
Proof.
  intros Hm Hk w. unfold bind.
  destruct (Hm w) as (r & evs & w' & -> & Hj & Hq).
  destruct r as [a | e].
  - destruct (Hk a w') as (r2 & evs2 & w2 & -> & Hj2 & Hq2).
    exists r2, (evs ++ evs2), w2. repeat split.
    + rewrite Hj2, Hj. by rewrite app_assoc.
    + rewrite storage_events_app, Hq, Hq2. reflexivity.
  - exists (Raises e), evs, w'. by repeat split.
Qed.

Lemma quiet_try {A : Type} (m : M H A) : quiet m -> quiet (try_ m).
Proof.
  intros Hm w. unfold try_.
  destruct (Hm w) as (r & evs & w' & -> & Hj & Hq).
  exists (Returns r), evs, w'. by repeat split.
Qed.

Lemma quiet_time : quiet (time (H := H)).
Proof.
  intros w. exists (Returns (h_time H (hs w))), [], w.
  rewrite app_nil_r. by repeat split.
Qed.

Lemma quiet_sleep (seconds : Z) : quiet (sleep (H := H) seconds).
Proof.
  intros w. unfold sleep.
  exists (Returns tt), [EvSleep seconds], (log (EvSleep seconds) w
                                             (h_sleep H seconds (hs w))).
  by repeat split.
Qed.

Lemma quiet_fetch (api_func : string) : quiet (fetch (H := H) api_func).
Proof.
  intros w. unfold fetch. destruct (h_fetch H api_func (hs w)) as [r s].
  exists r, [EvFetch api_func], (log (EvFetch api_func) w s).
  by repeat split.
Qed.

Lemma quiet_get_db_engine : quiet (get_db_engine (H := H)).
Proof.
  intros w. unfold get_db_engine. destruct (h_engine H (hs w)) as [r s].
  exists r, [EvEngine], (log EvEngine w s). by repeat split.
Qed.

Lemma quiet_safe_get_data_loop (get_func : string) (max_retry : Z)
    (attempts : list nat) :
  quiet (safe_get_data_loop (H := H) get_func max_retry attempts).
Proof.
  induction attempts as [| attempt rest IH]; simpl.
  - apply quiet_ret.
  - apply quiet_bind; [apply quiet_try, quiet_fetch |].
    intros [[df |] | e].
    + destruct (negb (df_empty df)); [apply quiet_ret | exact IH].
    + exact IH.
    + destruct (negb _); [apply quiet_ret |].
      destruct (_ <? _); [| apply quiet_ret].
      apply quiet_bind; [apply quiet_sleep | intros _; exact IH].
Qed.

Lemma quiet_collect_loop (tasks : list (string * string * Z))
    (fund_data : gmap string (list fund_record))
    (success_types : gset string) :
  quiet (collect_loop (H := H) tasks fund_data success_types).
Proof.
  revert fund_data success_types.
  induction tasks as [| [[fund_name get_func] c] rest IH];
    intros fund_data success_types; simpl.
  - apply quiet_ret.
  - apply quiet_bind; [apply quiet_safe_get_data_loop |].
    intros [df |]; [| apply IH].
    destruct (df_empty df); [apply IH |].
    destruct (extract_records H 5000 df fund_name); apply IH.
Qed.

(** The whole fetch phase of the funds makes no storage call. *)
Lemma quiet_collect_all_fund_data : quiet (collect_all_fund_data (H := H)).
Proof.
  unfold collect_all_fund_data.
  apply quiet_bind; [apply quiet_collect_loop |].
  intros [fund_data success_types].
  destruct (bool_decide _); apply quiet_ret.
Qed.

(** The coverage gate: when the fetch phase ends without full coverage,
    the funds run returns without having made any storage call. *)
Lemma funds_gate_no_storage (w : world H) :
  forall w0 w1,
    get_db_engine w = (Returns tt, w0) ->
    collect_all_fund_data w0 = (Returns None, w1) ->
    exists evs,
      FundDb.sync_task_runner w = (Returns tt, w1) /\
      journal w1 = journal w ++ evs /\
      storage_events evs = [].
Proof.
  intros w0 w1 He Hc.
  destruct (quiet_get_db_engine w) as (r & evs & w' & He' & Hj & Hq).
  rewrite He in He'. injection He' as <- <-.
  destruct (quiet_collect_all_fund_data w0) as (r2 & evs2 & w2 & Hc' & Hj2 & Hq2).
  rewrite Hc in Hc'. injection Hc' as <- <-.
  exists (evs ++ evs2). repeat split.
  - unfold FundDb.sync_task_runner, bind, time. rewrite He, Hc. reflexivity.
  - rewrite Hj2, Hj. by rewrite app_assoc.
  - by rewrite storage_events_app, Hq, Hq2.
Qed.

End Quiet.

(** ** Batch application *)

Section StockBatches.
Import Obs StockDb Stock.
Context {H : host}.

Lemma connects_app (evs1 evs2 : list event) :
  connects (evs1 ++ evs2) = (connects evs1 + connects evs2)%nat.
Proof. unfold connects. by rewrite List.filter_app, length_app. Qed.

Lemma slices_nil {A : Type} (n : nat) : (0 < n)%nat -> slices n (@nil A) = [].
Proof.
  intros Hn. unfold slices, range_step. simpl.
  rewrite Nat.div_small by lia. reflexivity.
Qed.

(** The one-by-one fallback never raises and opens no transaction. *)
Lemma update_one_by_one_total (market_name : string)
    (batch_data : list stock_record) (w : world H) :
  exists failed evs w',
    update_one_by_one market_name batch_data w = (Returns failed, w') /\
    journal w' = journal w ++ evs /\ connects evs = 0%nat.
Proof.
  revert w. induction batch_data as [| record rest IH]; intros w; simpl.
  - exists [], [], w. rewrite app_nil_r. by repeat split.
  - unfold bind, try_, execute.
    destruct (h_execute H (UPDATE_STOCK_ONE market_name record) (hs w))
      as [r s].
    set (w1 := log (EvExecute (UPDATE_STOCK_ONE market_name record)) w s).
    destruct (IH w1) as (failed & evs & w' & -> & Hj & Hc).
    assert (Hj' : journal w' =
              journal w ++ EvExecute (UPDATE_STOCK_ONE market_name record)
                           :: evs).
    { rewrite Hj. subst w1. simpl. by rewrite <- app_assoc. }
    destruct r as [res | e]; [destruct (rowcount res =? 0) |];
      eexists _, _, w'; (split; [reflexivity |]); (split; [exact Hj' |]);
      exact Hc.
Qed.

Lemma insert_one_by_one_total (market_name : string)
    (batch_data : list stock_record) (w : world H) :
  exists evs w',
    insert_one_by_one market_name batch_data w = (Returns tt, w') /\
    journal w' = journal w ++ evs /\ connects evs = 0%nat.
Proof.
  revert w. induction batch_data as [| record rest IH]; intros w; simpl.
  - exists [], w. rewrite app_nil_r. by repeat split.
  - unfold bind, try_, execute.
    destruct (h_execute H (INSERT_STOCK_ONE market_name record) (hs w))
      as [r s].
    set (w1 := log (EvExecute (INSERT_STOCK_ONE market_name record)) w s).
    destruct (IH w1) as (evs & w' & -> & Hj & Hc).
    exists (EvExecute (INSERT_STOCK_ONE market_name record) :: evs), w'.
    repeat split; [| exact Hc].
    rewrite Hj. subst w1. simpl. by rewrite <- app_assoc.
Qed.

(** An update worker never raises, opens exactly one transaction, and
    reports its batch size or an error. *)
Lemma update_stock_records_batch_total (batch : list stock_record)
    (batch_num : nat) (market_name : string) (w : world H) :
  exists r failed evs w',
    update_stock_records_batch batch batch_num market_name w
      = (Returns (r, failed), w') /\
    journal w' = journal w ++ evs /\ connects evs = 1%nat /\
    batch_reported batch r.
Proof.
  unfold update_stock_records_batch, bind, try_, connect, time, ret.
  destruct (h_connect H (hs w)) as [[[] | e] s]; simpl.
  - unfold execute. simpl.
    destruct (h_execute H (UPDATE_STOCK market_name batch) s) as [r s1].
    destruct r as [result | e]; simpl.
    + unfold commit.
      destruct (rowcount result =? 0); simpl;
        destruct (h_commit H s1) as [[[] | e] s2]; simpl;
        eexists _, _, [EvConnect; EvExecute _; EvCommit], _;
        (split; [reflexivity |]); simpl; rewrite <- !app_assoc;
        by repeat split.
    + match goal with
      | |- context [update_one_by_one market_name batch ?w1] =>
          destruct (update_one_by_one_total market_name batch w1)
            as (failed & evs & w' & -> & Hj & Hc)
      end.
      unfold commit. destruct (h_commit H (hs w')) as [[[] | e'] s2]; simpl;
        eexists _, _, ([EvConnect; EvExecute _] ++ evs ++ [EvCommit]), _;
        (split; [reflexivity |]); simpl; rewrite Hj; simpl;
        rewrite <- !app_assoc; simpl; (split; [reflexivity |]);
        (split; [| reflexivity]);
        change (EvConnect :: EvExecute (UPDATE_STOCK market_name batch)
                  :: evs ++ [EvCommit])
          with ([EvConnect; EvExecute (UPDATE_STOCK market_name batch)]
                  ++ evs ++ [EvCommit]);
        rewrite !connects_app, Hc; reflexivity.
  - eexists _, _, [EvConnect], _. by repeat split.
Qed.

(** So does an insert worker. *)
Lemma insert_stock_records_batch_total (batch : list stock_record)
    (batch_num : nat) (market_name : string) (w : world H) :
  exists r evs w',
    insert_stock_records_batch batch batch_num market_name w
      = (Returns r, w') /\
    journal w' = journal w ++ evs /\ connects evs = 1%nat /\
    batch_reported batch r.
Proof.
  unfold insert_stock_records_batch, with_transaction, bind, try_, connect,
    time, ret.
  destruct (h_connect H (hs w)) as [[[] | e] s]; simpl.
  - unfold execute. simpl.
    destruct (h_execute H (INSERT_STOCK market_name batch) s) as [r s1].
    destruct r as [result | e]; simpl.
    + unfold commit. simpl.
      destruct (h_commit H s1) as [[[] | e] s2]; simpl;
        eexists _, [EvConnect; EvExecute _; EvCommit], _;
        (split; [reflexivity |]); simpl; rewrite <- !app_assoc;
        by repeat split.
    + match goal with
      | |- context [insert_one_by_one market_name batch ?w1] =>
          destruct (insert_one_by_one_total market_name batch w1)
            as (evs & w' & -> & Hj & Hc)
      end.
      unfold commit. destruct (h_commit H (hs w')) as [[[] | e'] s2]; simpl;
        eexists _, ([EvConnect; EvExecute _] ++ evs ++ [EvCommit]), _;
        (split; [reflexivity |]); simpl; rewrite Hj; simpl;
        rewrite <- !app_assoc; simpl; (split; [reflexivity |]);
        (split; [| reflexivity]);
        change (EvConnect :: EvExecute (INSERT_STOCK market_name batch)
                  :: evs ++ [EvCommit])
          with ([EvConnect; EvExecute (INSERT_STOCK market_name batch)]
                  ++ evs ++ [EvCommit]);
        rewrite !connects_app, Hc; reflexivity.
  - eexists _, [EvConnect], _. by repeat split.
Qed.

Lemma run_update_batches_total (market_name : string)
    (batches : list (list stock_record)) (idx : nat) (w : world H) :
  exists results failed evs w',
    run_update_batches market_name batches idx w
      = (Returns (results, failed), w') /\
    journal w' = journal w ++ evs /\
    connects evs = length batches /\
    Forall2 batch_reported batches results.
Proof.
  revert idx w. induction batches as [| batch rest IH]; intros idx w; simpl.
  - exists [], [], [], w. rewrite app_nil_r. repeat split. constructor.
  - unfold bind.
    destruct (update_stock_records_batch_total batch (idx + 1) market_name w)
      as (r & failed & evs & w1 & -> & Hj & Hc & Hr).
    destruct (IH (idx + 1)%nat w1)
      as (results & failed' & evs' & w' & -> & Hj' & Hc' & Hrs).
    exists (r :: results), (failed ++ failed'), (evs ++ evs'), w'.
    repeat split.
    + rewrite Hj', Hj. by rewrite app_assoc.
    + rewrite connects_app, Hc, Hc'. reflexivity.
    + by constructor.
Qed.

Lemma run_insert_batches_total (market_name : string)
    (batches : list (list stock_record)) (idx : nat) (w : world H) :
  exists results evs w',
    run_insert_batches market_name batches idx w = (Returns results, w') /\
    journal w' = journal w ++ evs /\
    connects evs = length batches /\
    Forall2 batch_reported batches results.
Proof.
  revert idx w. induction batches as [| batch rest IH]; intros idx w; simpl.
  - exists [], [], w. rewrite app_nil_r. repeat split. constructor.
  - unfold bind.
    destruct (insert_stock_records_batch_total batch (idx + 1) market_name w)
      as (r & evs & w1 & -> & Hj & Hc & Hr).
    destruct (IH (idx + 1)%nat w1)
      as (results & evs' & w' & -> & Hj' & Hc' & Hrs).
    exists (r :: results), (evs ++ evs'), w'.
    repeat split.
    + rewrite Hj', Hj. by rewrite app_assoc.
    + rewrite connects_app, Hc, Hc'. reflexivity.
    + by constructor.
Qed.


End StockBatches.

Section FundBatches.
Import Sim Examples FundDb Stock.


End FundBatches.

Section BatchFailures.
Import Obs StockDb Stock FundDb Trace Applied.
Local Open Scope monad_scope.
Context {H : host}.













End BatchFailures.

Section BatchFailuresAt.
Import Sim Examples Scenarios Obs StockDb Stock FundDb Trace Applied.


End BatchFailuresAt.

(** ** Whole runs *)

Section Runs.
Import Sim Examples Obs Stock.

(** C1 at its failing input.  With the Asian QDII provider answering
    nothing on all three attempts the funds run stops before the
    storage; with every provider answering it goes on to the storage.
    Both runs return the same value ([None]), and the task wrapper
    reports both as failed: the result does not tell the aborted run
    from the completed one. *)
Theorem funds_abort_not_distinguished :
  let aborted := FundDb.sync_task_runner (start funds_gap sim_init) in
  let completed := FundDb.sync_task_runner (start funds_complete sim_init) in
  aborted.1 = Returns tt /\
  storage_events (journal aborted.2) = [] /\
  completed.1 = Returns tt /\
  storage_events (journal completed.2) <> [] /\
  aborted.1 = completed.1 /\
  (Task.run_fundsync_task (start funds_gap sim_init)).1
  = Returns (RunFailure "基金同步任务执行失败") /\
  (Task.run_fundsync_task (start funds_complete sim_init)).1
  = Returns (RunFailure "基金同步任务执行失败").
Proof. vm_compute. repeat split; discriminate. Qed.

(** C6 at its failing input.  Two open markets, each with a clean
    function; the A-share market has a symbol to mark as deleted and the
    delete statement fails.  [mark_stocks_as_deleted] absorbs the
    failure and returns [0], the caller cannot unpack that [int], and the
    [TypeError] ends the loop over the markets: the Hong Kong provider
    is never called.  (The same happens when the delete succeeds.)  With
    the configuration the stock factory itself builds, the first market
    whose fetch succeeds ends the run at the missing clean function. *)
Theorem stocks_market_failure_stops_run :
  let run :=
    collect_all_stock_data two_markets existing_symbols
      (start stocks_delete_fails sim_init) in
  let run_ok :=
    collect_all_stock_data two_markets existing_symbols
      (start stocks_healthy sim_init) in
  let run_factory := Stock.sync_task_runner (start stocks_healthy sim_init) in
  run.1 = Raises (PyError "TypeError" "cannot unpack non-iterable int object")
  /\ fetched (journal run.2) = ["stock_zh_a_spot_em"]
  /\ run_ok.1
     = Raises (PyError "TypeError" "cannot unpack non-iterable int object")
  /\ fetched (journal run_ok.2) = ["stock_zh_a_spot_em"]
  /\ run_factory.1
     = Returns (RunFailure "'NoneType' object is not callable")
  /\ fetched (journal run_factory.2) = ["stock_zh_a_spot_em"].
Proof. vm_compute. repeat split. Qed.

(** A failing fetch, in contrast, does not stop the loop: after three
    timed-out attempts on the A-share provider the Hong Kong market is
    fetched and synced. *)
Lemma stocks_fetch_failure_goes_on :
  let run :=
    collect_all_stock_data two_markets existing_symbols
      (start stocks_a_share_down sim_init) in
  run.1 = Returns (2, 0) /\
  fetched (journal run.2)
  = ["stock_zh_a_spot_em"; "stock_zh_a_spot_em"; "stock_zh_a_spot_em";
     "stock_hk_spot_em"] /\
  connects (journal run.2) = 1%nat.
Proof. vm_compute. repeat split. Qed.


End Runs.

(** ** More on the retry policy *)

Section RetryMore.

(** X1: The classifier answers with one of its twelve kinds, whatever the
    exception. *)
Theorem classify_error_kinds (e : py_error) :
  str_mem (_classify_error e)
    ["CHUNKED_ENCODING"; "TIMEOUT"; "NETWORK"; "RATE_LIMIT"; "SERVER_ERROR";
     "AUTH_ERROR"; "NOT_FOUND"; "NO_DATA"; "PANDAS_MISMATCH";
     "DATA_FORMAT_ERROR"; "DATABASE_ERROR"; "UNKNOWN"] = true.
Proof.
  unfold _classify_error.
  repeat match goal with
         | |- context [if ?b then _ else _] => destruct b
         end; reflexivity.
Qed.

(** X2: For a non-negative base delay the retry delay is never negative,
    never shrinks from one attempt to a later one, and from the second
    attempt on is at least the base delay. *)
Theorem retry_delay_monotone (kind : string) (base_delay : Z)
    (a b : nat) :
  0 <= base_delay -> (a <= b)%nat ->
  0 <= _get_retry_delay kind base_delay a
  /\ _get_retry_delay kind base_delay a <= _get_retry_delay kind base_delay b
  /\ ((1 <= a)%nat -> base_delay <= _get_retry_delay kind base_delay a).
Proof.
  intros Hbase Hab.
  assert (Hpa : 1 <= 2 ^ Z.of_nat a) by (apply Z.pow_le_mono_r with (b := 0) ; lia).
  assert (Hpow : 2 ^ Z.of_nat a <= 2 ^ Z.of_nat b)
    by (apply Z.pow_le_mono_r; lia).
  unfold _get_retry_delay.
  generalize dependent (2 ^ Z.of_nat a). generalize dependent (2 ^ Z.of_nat b).
  intros q p Hp Hpq.
  repeat match goal with
         | |- context [if ?c then _ else _] => destruct c
         end; (split; [| split; [| intros Ha]]); nia.
Qed.

Lemma retry_delay_monotone_witness :
  0 <= _get_retry_delay "NETWORK" 5 1
  /\ _get_retry_delay "NETWORK" 5 1 <= _get_retry_delay "NETWORK" 5 2
  /\ ((1 <= 1)%nat -> 5 <= _get_retry_delay "NETWORK" 5 1).
Proof. apply (retry_delay_monotone "NETWORK" 5 1 2); lia. Defined.

End RetryMore.

(** ** Trading hours *)

Section TradingHours.
Import Trace.

(** A number of seconds since midnight, split into hours, minutes and
    seconds and put together again. *)
Lemma time_to_seconds_split (s : Z) :
  time_to_seconds (PyTime (s / 3600) (s mod 3600 / 60) (s mod 60)) = s.
Proof.
  unfold time_to_seconds. simpl.
  pose proof (Z.div_mod s 3600 ltac:(lia)) as H1.
  pose proof (Z.div_mod (s mod 3600) 60 ltac:(lia)) as H2.
  assert (H3 : (s mod 3600) mod 60 = s mod 60).
  { apply Z.mod_mod_divide. exists 60. reflexivity. }
  lia.
Qed.

Lemma time_hours_before_seconds (dt : pydatetime) (hours : Z) :
  time_to_seconds (time_hours_before dt hours)
  = (seconds_of_day dt - hours * 3600) mod 86400.
Proof. unfold time_hours_before. apply time_to_seconds_split. Qed.

Lemma seconds_of_day_range (dt : pydatetime) :
  valid_clock dt -> 0 <= seconds_of_day dt < 86400.
Proof.
  unfold valid_clock, seconds_of_day, time_to_seconds, time_of. simpl. lia.
Qed.

Lemma two_hours_before (s : Z) :
  0 <= s < 86400 ->
  (s - 2 * 3600) mod 86400 = if s <? 7200 then s + 79200 else s - 7200.
Proof.
  intros Hs. destruct (Z.ltb_spec s 7200).
  - symmetry. apply (Z.mod_unique_pos _ _ (-1)); lia.
  - apply Z.mod_small. lia.
Qed.

Ltac window_arith :=
  apply eq_true_iff_eq;
  repeat rewrite ?orb_true_iff, ?andb_true_iff, ?Z.leb_le, ?Z.geb_le;
  lia.

Lemma lookback_windows (H : host) (w : world H) :
  valid_clock (h_now H (hs w)) ->
  let s := seconds_of_day (h_now H (hs w)) in
  let m := month (h_now H (hs w)) in
  check_market_open_status (Some IsAOpen) 2 30 w
  = (Returns ((34170 <=? s) && (s <=? 61230)), w) /\
  check_market_open_status (Some IsHKOpen) 2 30 w
  = (Returns ((34170 <=? s) && (s <=? 64830)), w) /\
  check_market_open_status (Some IsUSOpen) 2 30 w
  = (Returns (if (3 <=? m) && (m <=? 11)
              then (77370 <=? s) || (s <=? 21630)
              else (80970 <=? s) || (s <=? 25230)), w).
Proof.
  intros Hvalid s m.
  pose proof (seconds_of_day_range _ Hvalid) as Hs. fold s in Hs.
  unfold check_market_open_status, bind, now, ret.
  unfold is_a_stock_market_open, is_hk_stock_market_open,
    is_us_stock_market_open, is_time_between.
  rewrite !time_hours_before_seconds.
  fold (seconds_of_day (h_now H (hs w))). fold s. fold m.
  rewrite (two_hours_before s Hs).
  change (time_to_seconds (PyTime 9 30 0)) with 34200.
  change (time_to_seconds (PyTime 11 30 0)) with 41400.
  change (time_to_seconds (PyTime 13 0 0)) with 46800.
  change (time_to_seconds (PyTime 15 0 0)) with 54000.
  change (time_to_seconds (PyTime 12 0 0)) with 43200.
  change (time_to_seconds (PyTime 16 0 0)) with 57600.
  change (time_to_seconds (PyTime 21 30 0)) with 77400.
  change (time_to_seconds (PyTime 22 30 0)) with 81000.
  change (time_to_seconds (PyTime 23 59 59)) with 86399.
  change (time_to_seconds (PyTime 0 0 0)) with 0.
  change (time_to_seconds (PyTime 4 0 0)) with 14400.
  change (time_to_seconds (PyTime 5 0 0)) with 18000.
  cbn [Z.leb Z.compare Pos.compare Pos.compare_cont].
  repeat split; do 2 f_equal.
  - destruct (s <? 7200) eqn:E; [apply Z.ltb_lt in E | apply Z.ltb_ge in E];
      window_arith.
  - destruct (s <? 7200) eqn:E; [apply Z.ltb_lt in E | apply Z.ltb_ge in E];
      window_arith.
  - destruct ((3 <=? m) && (m <=? 11));
      (destruct (s <? 7200) eqn:E;
       [apply Z.ltb_lt in E | apply Z.ltb_ge in E]);
      window_arith.
Qed.

(** X3: With the two-hour look-back and the thirty seconds of tolerance that
    the stocks run uses, a market counts as open in one stretch of the
    day: the A-share market from 09:29:30 to 17:00:30, the Hong Kong
    market from 09:29:30 to 18:00:30, the US market from 21:29:30 to
    06:00:30 of the next day in the months March to November and from
    22:29:30 to 07:00:30 otherwise.  The check reads the clock and
    changes nothing. *)
Theorem lookback_trading_windows (H : host) (w : world H) :
  valid_clock (h_now H (hs w)) ->
  let s := seconds_of_day (h_now H (hs w)) in
  let m := month (h_now H (hs w)) in
  check_market_open_status (Some IsAOpen) 2 30 w
  = (Returns ((34170 <=? s) && (s <=? 61230)), w) /\
  check_market_open_status (Some IsHKOpen) 2 30 w
  = (Returns ((34170 <=? s) && (s <=? 64830)), w) /\
  check_market_open_status (Some IsUSOpen) 2 30 w
  = (Returns (if (3 <=? m) && (m <=? 11)
              then (77370 <=? s) || (s <=? 21630)
              else (80970 <=? s) || (s <=? 25230)), w).
Proof. apply lookback_windows. Qed.

Lemma lookback_trading_windows_witness :
  check_market_open_status (Some IsAOpen) 2 30
    (Sim.start Examples.stocks_healthy Sim.sim_init)
  = (Returns true, Sim.start Examples.stocks_healthy Sim.sim_init).
Proof.
  refine (proj1 (lookback_trading_windows Examples.stocks_healthy
                   (Sim.start Examples.stocks_healthy Sim.sim_init) _)).
  vm_compute. repeat split; discriminate.
Defined.

End TradingHours.

(** ** Cleaning the fund tables *)

Section FundCleaning.
Import Fund.

Lemma str_in_empty (s : string) : str_in "" s = true.
Proof. destruct s; reflexivity. Qed.

Lemma str_mem_In (x : string) (xs : list string) :
  str_mem x xs = true -> In x xs.
Proof.
  unfold str_mem. intros Hx. apply existsb_exists in Hx as (y & Hy & Heq).
  apply String.eqb_eq in Heq as ->. exact Hy.
Qed.

(** X4: The price column is one of the columns of the table: the column
    named [现价] for the two QDII types, and otherwise the first column
    whose label contains the pattern of the fund type.  For a fund type
    that is not configured the pattern is empty, so the first column of
    the table is taken. *)
Theorem price_column_found (fund_type : string) (df_columns : list string)
    (c : string) :
  get_price_column fund_type df_columns = Some c ->
  let pattern :=
    match dict_get fund_type FUND_TYPES with
    | Some config => price_column_pattern config
    | None => ""%string
    end in
  In c df_columns /\
  (pattern = "现价"%string -> c = "现价"%string) /\
  (pattern <> "现价"%string ->
     exists before after,
       df_columns = before ++ c :: after /\
       str_in pattern c = true /\
       forall x, In x before -> str_in pattern x = false) /\
  (dict_get fund_type FUND_TYPES = None -> head df_columns = Some c).
Proof.
  intros Hget pattern. unfold get_price_column in Hget. fold pattern in Hget.
  destruct (String.eqb_spec pattern "现价") as [Heq | Hne].
  - destruct (str_mem "现价" df_columns) eqn:Hmem; [| discriminate].
    injection Hget as <-. repeat split.
    + by apply str_mem_In.
    + intros Hne. by destruct Hne.
    + intros Hnone. subst pattern. rewrite Hnone in Heq. discriminate.
  - assert (Hfirst : exists before after,
              df_columns = before ++ c :: after /\
              str_in pattern c = true /\
              forall x, In x before -> str_in pattern x = false).
    { clear Hne. revert Hget.
      induction df_columns as [| x cols IH]; simpl; [discriminate |].
      destruct (str_in pattern x) eqn:Hx.
      - intros [= <-]. exists [], cols. repeat split; [exact Hx |].
        intros y [].
      - intros Hget. destruct (IH Hget) as (before & after & -> & Hc & Hb).
        exists (x :: before), after. repeat split; [exact Hc |].
        intros y [<- | Hy]; [exact Hx | by apply Hb]. }
    repeat split.
    + destruct Hfirst as (before & after & -> & _).
      apply in_or_app. right. by left.
    + intros Heq. by destruct Hne.
    + intros _. exact Hfirst.
    + intros Hnone. subst pattern. rewrite Hnone in *.
      destruct df_columns as [| x cols]; [discriminate |].
      simpl in Hget. rewrite str_in_empty in Hget. exact Hget.
Qed.

Lemma price_column_found_witness :
  In "单位净值-2024"%string ["基金代码"; "基金简称"; "单位净值-2024"]%string.
Proof.
  apply (price_column_found "开放基金"
           ["基金代码"; "基金简称"; "单位净值-2024"]%string
           "单位净值-2024"%string).
  reflexivity.
Defined.

Lemma flat_map_nil_const {A B : Type} (l : list A) :
  flat_map (fun _ : A => @nil B) l = [].
Proof. induction l; [reflexivity | exact IHl]. Qed.

Lemma flat_map_flat_map_concat {A B C : Type} (g : B -> list C)
    (p : B -> bool) (chunk : A -> list B) (idxs : list A) :
  flat_map (fun i => flat_map g (List.filter p (chunk i))) idxs
  = flat_map g (List.filter p (concat (map chunk idxs))).
Proof.
  induction idxs as [| i idxs IH]; simpl; [reflexivity |].
  by rewrite List.filter_app, flat_map_app, IH.
Qed.

Lemma extract_records_unchunked (H : host) (chunk_size : Z)
    (df : dataframe) (fund_name : string) :
  0 < chunk_size ->
  extract_records H chunk_size df fund_name
  = extract_fund_values H df fund_name.
Proof.
  intros Hpos. unfold extract_records.
  destruct (chunk_size <? Z.of_nat (df_len df)); [| reflexivity].
  unfold extract_fund_values, df_iloc, df_len. simpl.
  destruct (get_price_column fund_name (columns df)) as [price_col |];
    [| apply flat_map_nil_const].
  destruct (String.eqb price_col ""); [apply flat_map_nil_const |].
  rewrite (flat_map_flat_map_concat _ _
             (fun i => take (Nat.min (i + Z.to_nat chunk_size)
                                     (length (rows df)) - i)
                            (drop i (rows df)))).
  rewrite concat_chunks by lia. reflexivity.
Qed.

(** X5: Cleaning a table chunk by chunk gives the records, in the same
    order, that cleaning it in one go gives. *)
Theorem extract_records_chunking (H : host) (chunk_size : Z)
    (df : dataframe) (fund_name : string) :
  0 < chunk_size ->
  extract_records H chunk_size df fund_name
  = extract_fund_values H df fund_name.
Proof. apply extract_records_unchunked. Qed.

Lemma extract_records_chunking_witness :
  extract_records Examples.funds_complete 1
    (DataFrame ["基金代码"; "基金简称"; "单位净值"]
       [[PStr "000001"; PStr "a"; PFloat (FNum 1)];
        [PStr "000002"; PStr "b"; PFloat (FNum 2)]]) "开放基金"
  = extract_fund_values Examples.funds_complete
      (DataFrame ["基金代码"; "基金简称"; "单位净值"]
         [[PStr "000001"; PStr "a"; PFloat (FNum 1)];
          [PStr "000002"; PStr "b"; PFloat (FNum 2)]]) "开放基金".
Proof. apply extract_records_chunking. lia. Defined.

Lemma extract_fund_values_types (H : host) (df : dataframe)
    (fund_type : string) :
  Forall (fun r => Host.fund_type r = fund_type)
    (extract_fund_values H df fund_type).
Proof.
  unfold extract_fund_values.
  destruct (get_price_column fund_type (columns df)) as [price_col |];
    [| constructor].
  destruct (String.eqb price_col ""); [constructor |].
  apply Forall_forall. intros r Hr.
  apply list_elem_of_In, in_flat_map in Hr as (row & _ & Hr).
  destruct (truthy _ && truthy _); [| destruct Hr].
  by destruct Hr as [<- | []].
Qed.


End FundCleaning.

(** ** More on the merge of the fund sources *)

Section MergeMore.
Import Fund Trace.

Lemma domestic_step_origin (fund_data : gmap string (list fund_record))
    (t : string) (records : list fund_record)
    (st : list fund_record * gset pyval * gset pyval) (r : fund_record) :
  t ∈ domestic_types -> fund_data !! t = Some records -> r ∈ records ->
  Forall (from_source domestic_types fund_data) st.1.1 ->
  Forall (from_source domestic_types fund_data) (domestic_step t st r).1.1.
Proof.
  destruct st as [[funds codes] empty]. unfold domestic_step. simpl.
  intros Ht Hlook Hr Hall.
  destruct (price r) as [p |] eqn:Hp; simpl; [| exact Hall].
  apply Forall_app. split; [exact Hall |].
  apply Forall_singleton. exists t, records, r. rewrite Hp. by repeat split.
Qed.

Lemma from_source_weaken (types types' : list string)
    (fund_data : gmap string (list fund_record)) (f : fund_record) :
  types ⊆ types' ->
  from_source types fund_data f -> from_source types' fund_data f.
Proof.
  intros Hsub (t & records & r & Ht & Hlook & Hr & ->).
  exists t, records, r. repeat split; try assumption. by apply Hsub.
Qed.

(** X7: The code set that the merge returns is the set of the codes of the
    records it returns; and each returned record is a record of one of
    the five sources, with its code, name and price unchanged and tagged
    with the name of the source it was read from.  Entries of the input
    under any other name are not read.  (When the merge does not return,
    it has raised the [TypeError] of its log line.) *)
Theorem integrate_fund_data_codes (H : host)
    (fund_data : gmap string (list fund_record)) :
  match integrate_fund_data H fund_data with
  | Returns (final_funds, domestic_codes) =>
      domestic_codes = list_to_set (map code final_funds) /\
      Forall (from_source (domestic_types ++ qdii_types) fund_data) final_funds
  | Raises e => exn_type e = "TypeError"
  end.
Proof.
  unfold integrate_fund_data.
  pose proof (domestic_pass_inv fund_data) as Hd.
  assert (Ho : Forall (from_source domestic_types fund_data)
                 (merge_pass domestic_step domestic_types fund_data
                    ([], ∅, ∅)).1.1).
  { apply (merge_pass_inv domestic_step
             (fun st => Forall (from_source domestic_types fund_data) st.1.1)).
    - apply domestic_step_origin.
    - constructor. }
  destruct (merge_pass domestic_step domestic_types fund_data ([], ∅, ∅))
    as [[domestic codes] empty].
  destruct Hd as [Hcodes _]. cbn [fst snd] in Hcodes, Ho.
  destruct (orderable empty); cbv beta iota zeta delta [negb];
    [| reflexivity].
  pose proof (merge_pass_inv qdii_step (qdii_inv fund_data codes) qdii_types
                fund_data (qdii_step_inv fund_data codes) ([], codes)) as Hq.
  destruct (merge_pass qdii_step qdii_types fund_data ([], codes))
    as [qdii codes'].
  destruct Hq as (Hcodes' & _ & _ & Horigin).
  { repeat split; simpl.
    - set_solver.
    - apply NoDup_nil_2.
    - intros q Hq. by apply elem_of_nil in Hq.
    - intros q Hq. by apply elem_of_nil in Hq. }
  cbn [fst snd] in Hcodes', Horigin. split.
  - rewrite Hcodes', Hcodes, map_app, list_to_set_app_L. reflexivity.
  - apply Forall_app. split.
    + eapply Forall_impl; [exact Ho |]. intros f.
      apply from_source_weaken. intros t Ht. apply elem_of_app. by left.
    + apply Forall_forall. intros q Hq.
      apply (from_source_weaken qdii_types).
      * intros t Ht. apply elem_of_app. by right.
      * by apply Horigin.
Qed.

End MergeMore.

(** ** The retry loops around the provider functions *)

Section FetchLoops.
Import Obs Trace.
Context {H : host}.

Lemma retry_trace_fetch (f : string) : retry_trace f 1 [EvFetch f].
Proof.
  unfold retry_trace. simpl. rewrite String.eqb_refl.
  repeat split; lia.
Qed.

Lemma retry_trace_again (f : string) (k : nat) (evs : list event) :
  retry_trace f k evs -> retry_trace f (S k) (EvFetch f :: evs).
Proof.
  intros (Hall & Hf & Hs & Hfirst & Hnext). unfold retry_trace. simpl.
  rewrite String.eqb_refl, Hall, Hf.
  repeat split; [lia | exact Hnext].
Qed.

Lemma retry_trace_sleep (f : string) (k : nat) (d : Z) (evs : list event) :
  (1 <= k)%nat ->
  retry_trace f k evs -> retry_trace f (S k) (EvFetch f :: EvSleep d :: evs).
Proof.
  intros Hk (Hall & Hf & Hs & Hfirst & Hnext). unfold retry_trace. simpl.
  rewrite String.eqb_refl, Hall, Hf.
  repeat split; [lia |].
  destruct evs as [| [] evs]; try discriminate; try exact Hnext.
  destruct k; [lia | discriminate Hf].
Qed.

Lemma journal_step (w : world H) (ev : event) (s : hstate H)
    (evs : list event) (w' : world H) :
  journal w' = journal (log ev w s) ++ evs ->
  journal w' = journal w ++ ev :: evs.
Proof. intros ->. simpl. by rewrite <- app_assoc. Qed.

Lemma journal_step2 (w : world H) (ev1 ev2 : event) (s1 s2 : hstate H)
    (evs : list event) (w' : world H) :
  journal w' = journal (log ev2 (log ev1 w s1) s2) ++ evs ->
  journal w' = journal w ++ ev1 :: ev2 :: evs.
Proof. intros ->. simpl. by rewrite <- !app_assoc. Qed.

Lemma more_attempts (a n : nat) (m : Z) :
  (a + S n)%nat = Z.to_nat m -> (Z.of_nat a <? m - 1) = true -> (1 <= n)%nat.
Proof. intros Hm Hlt. apply Z.ltb_lt in Hlt. lia. Qed.

(** How one attempt of a retry loop ends: with the single call, or with
    the call, possibly a sleep, and the rest of the loop. *)
Ltac attempt_stops f w1 :=
  exists None, 1%nat, [EvFetch f], w1;
  refine (conj eq_refl (conj eq_refl (conj (retry_trace_fetch _)
            (conj _ (conj _ _))))); [lia | intros _; lia | intros df; discriminate].

Ltac attempt_goes_on IH a w s :=
  match goal with
  | |- context [?loop _ _ (seq (S a) _) ?w2] =>
      destruct (IH (S a) w2 ltac:(lia))
        as (r' & k & evs & w' & -> & Hj & Htr & Hk & Hk1 & Hr)
  | |- context [?loop _ _ _ (seq (S a) _) ?w2] =>
      destruct (IH (S a) w2 ltac:(lia))
        as (r' & k & evs & w' & -> & Hj & Htr & Hk & Hk1 & Hr)
  end.

(** The funds loop over the attempts [a, a+1, ..., max_retry - 1]. *)
Lemma safe_get_data_loop_trace (f : string) (m : Z) (n : nat) :
  forall (a : nat) (w : world H),
    (a + n)%nat = Z.to_nat m ->
    exists r k evs w',
      Fund.safe_get_data_loop f m (seq a n) w = (Returns r, w') /\
      journal w' = journal w ++ evs /\
      retry_trace f k evs /\ (k <= n)%nat /\ (n <> 0%nat -> (1 <= k)%nat) /\
      (forall df, r = Some df -> df_empty df = false).
Proof.
  induction n as [| n IH]; intros a w Hm; simpl.
  - exists None, 0%nat, [], w. rewrite app_nil_r.
    refine (conj eq_refl (conj eq_refl (conj _ (conj _ (conj _ _)))));
      [by repeat split | lia | done | discriminate].
  - unfold bind at 1. unfold try_, fetch.
    destruct (h_fetch H f (hs w)) as [r s].
    set (w1 := log (EvFetch f) w s).
    assert (Hnext :
      exists r k evs w',
        Fund.safe_get_data_loop f m (seq (S a) n) w1 = (Returns r, w') /\
        journal w' = journal w ++ evs /\
        retry_trace f k evs /\ (k <= S n)%nat /\
        (S n <> 0%nat -> (1 <= k)%nat) /\
        (forall df, r = Some df -> df_empty df = false)).
    { attempt_goes_on IH a w s.
      exists r', (S k), (EvFetch f :: evs), w'.
      refine (conj eq_refl (conj _ (conj _ (conj _ (conj _ Hr))))).
      - rewrite Hj. subst w1. simpl. by rewrite <- !app_assoc.
      - by apply retry_trace_again.
      - lia.
      - lia. }
    destruct r as [[df |] | e].
    + destruct (df_empty df) eqn:Hempty; simpl; [exact Hnext |].
      exists (Some df), 1%nat, [EvFetch f], w1.
      refine (conj eq_refl (conj eq_refl (conj (retry_trace_fetch _)
                (conj _ (conj _ _))))); [lia | lia |].
      intros df' [= <-]. exact Hempty.
    + exact Hnext.
    + destruct (negb (_should_retry (_classify_error e) a m));
        [attempt_stops f w1 |].
      destruct (Z.of_nat a <? m - 1) eqn:Hlast; [| attempt_stops f w1].
      pose proof (more_attempts a n m Hm Hlast) as Hn.
      unfold bind at 1. unfold sleep.
      attempt_goes_on IH a w s.
      eexists r', (S k), (EvFetch f :: EvSleep _ :: evs), w'.
      refine (conj eq_refl (conj _ (conj _ (conj _ (conj _ Hr))))).
      * rewrite Hj. subst w1. simpl. by rewrite <- !app_assoc.
      * apply retry_trace_sleep; [apply Hk1; lia | exact Htr].
      * lia.
      * lia.
Qed.

(** The stocks loop. *)
Lemma safely_get_market_data_loop_trace (f : string) (m d : Z) (n : nat) :
  forall (a : nat) (w : world H),
    (a + n)%nat = Z.to_nat m ->
    exists r k evs w',
      Stock.safely_get_market_data_loop f m d (seq a n) w = (Returns r, w') /\
      journal w' = journal w ++ evs /\
      retry_trace f k evs /\ (k <= n)%nat /\ (n <> 0%nat -> (1 <= k)%nat) /\
      (forall df, r = Some df -> df_len df <> 0%nat).
Proof.
  induction n as [| n IH]; intros a w Hm; simpl.
  - exists None, 0%nat, [], w. rewrite app_nil_r.
    refine (conj eq_refl (conj eq_refl (conj _ (conj _ (conj _ _)))));
      [by repeat split | lia | done | discriminate].
  - unfold bind at 1. unfold try_. unfold bind at 1. unfold fetch.
    destruct (h_fetch H f (hs w)) as [r s].
    set (w1 := log (EvFetch f) w s).
    assert (Hfail : forall e,
      exists r k evs w',
        (if negb (_should_retry (_classify_error e) a m)
         then ret None
         else if Z.of_nat a <? m - 1
              then bind (sleep (_get_retry_delay (_classify_error e) d a))
                     (fun _ => Stock.safely_get_market_data_loop f m d
                                 (seq (S a) n))
              else Stock.safely_get_market_data_loop f m d (seq (S a) n)) w1
        = (Returns r, w') /\
        journal w' = journal w ++ evs /\
        retry_trace f k evs /\ (k <= S n)%nat /\
        (S n <> 0%nat -> (1 <= k)%nat) /\
        (forall df, r = Some df -> df_len df <> 0%nat)).
    { intros e. destruct (negb (_should_retry (_classify_error e) a m));
        [attempt_stops f w1 |].
      destruct (Z.of_nat a <? m - 1) eqn:Hlast.
      - pose proof (more_attempts a n m Hm Hlast) as Hn.
        unfold bind at 1. unfold sleep.
        attempt_goes_on IH a w s.
        eexists r', (S k), (EvFetch f :: EvSleep _ :: evs), w'.
        refine (conj eq_refl (conj _ (conj _ (conj _ (conj _ Hr))))).
        + rewrite Hj. subst w1. simpl. by rewrite <- !app_assoc.
        + apply retry_trace_sleep; [apply Hk1; lia | exact Htr].
        + lia.
        + lia.
      - attempt_goes_on IH a w s.
        exists r', (S k), (EvFetch f :: evs), w'.
        refine (conj eq_refl (conj _ (conj _ (conj _ (conj _ Hr))))).
        + rewrite Hj. subst w1. simpl. by rewrite <- !app_assoc.
        + by apply retry_trace_again.
        + lia.
        + lia. }
    destruct r as [[df |] | e]; simpl; try apply Hfail.
    destruct (df_len df =? 0)%nat eqn:Hlen; simpl; [apply Hfail |].
    exists (Some df), 1%nat, [EvFetch f], w1.
    refine (conj eq_refl (conj eq_refl (conj (retry_trace_fetch _)
              (conj _ (conj _ _))))); [lia | lia |].
    intros df' [= <-]. by apply Nat.eqb_neq.
Qed.

(** X8: Both retry loops end without raising.  They call the one provider
    function they were given, at most [max_retry] times and at least once
    when [max_retry] is positive; besides that they only sleep, and only
    between two calls: the first event is a call and every sleep is
    directly followed by a call, so that no sleep comes after the last
    call; and a table they hand back is not empty. *)
Theorem fetch_loops_bounded (get_func source_name : string)
    (max_retry : option Z) (w : world H) :
  (exists r k evs w',
     Fund.safe_get_data get_func source_name max_retry w = (Returns r, w') /\
     journal w' = journal w ++ evs /\
     retry_trace get_func k evs /\
     (k <= Z.to_nat (default 3%Z max_retry))%nat /\
     (0 < default 3 max_retry -> (1 <= k)%nat) /\
     (forall df, r = Some df -> df_empty df = false))
  /\
  (exists r k evs w',
     Stock.safely_get_market_data get_func source_name max_retry w
     = (Returns r, w') /\
     journal w' = journal w ++ evs /\
     retry_trace get_func k evs /\
     (k <= Z.to_nat (default 3%Z max_retry))%nat /\
     (0 < default 3 max_retry -> (1 <= k)%nat) /\
     (forall df, r = Some df -> df_len df <> 0%nat)).
Proof.
  split.
  - unfold Fund.safe_get_data.
    change (Config.max_retry FUND_CONFIG) with 3.
    destruct (safe_get_data_loop_trace get_func (default 3 max_retry)
                (Z.to_nat (default 3 max_retry)) 0 w eq_refl)
      as (r & k & evs & w' & Hrun & Hj & Htr & Hk & Hk1 & Hr).
    exists r, k, evs, w'.
    refine (conj Hrun (conj Hj (conj Htr (conj Hk (conj _ Hr))))).
    intros Hpos. apply Hk1. lia.
  - unfold Stock.safely_get_market_data.
    change (Config.max_retry RETRY_CONFIG) with 3.
    destruct (safely_get_market_data_loop_trace get_func
                (default 3 max_retry) (retry_delay RETRY_CONFIG)
                (Z.to_nat (default 3 max_retry)) 0 w eq_refl)
      as (r & k & evs & w' & Hrun & Hj & Htr & Hk & Hk1 & Hr).
    exists r, k, evs, w'.
    refine (conj Hrun (conj Hj (conj Htr (conj Hk (conj _ Hr))))).
    intros Hpos. apply Hk1. lia.
Qed.

(** X9: An error of a kind that is never retried ends either loop at once:
    one call of the provider, no sleep, no table. *)
Theorem terminal_error_not_retried (get_func source_name : string)
    (max_retry : Z) (e : py_error) (s' : hstate H) (w : world H) :
  h_fetch H get_func (hs w) = (Raises e, s') ->
  str_mem (_classify_error e) ["AUTH_ERROR"; "NOT_FOUND"; "DATA_FORMAT_ERROR"]
  = true ->
  0 < max_retry ->
  Fund.safe_get_data get_func source_name (Some max_retry) w
  = (Returns None, log (EvFetch get_func) w s') /\
  Stock.safely_get_market_data get_func source_name (Some max_retry) w
  = (Returns None, log (EvFetch get_func) w s').
Proof.
  intros Hfetch Hkind Hpos.
  unfold Fund.safe_get_data, Stock.safely_get_market_data. simpl default.
  destruct (Z.to_nat max_retry) as [| n] eqn:Hn; [lia |]. simpl.
  unfold bind, try_, fetch. rewrite Hfetch. simpl.
  unfold _should_retry. rewrite Hkind.
  destruct (Z.geb_spec (Z.of_nat 0) max_retry); [lia |]. split; reflexivity.
Qed.

Lemma no_rows_empty (df : dataframe) : df_len df = 0%nat -> df_empty df = true.
Proof.
  unfold df_len, df_empty. destruct (rows df); [reflexivity | discriminate].
Qed.

Lemma safe_get_data_loop_nothing (f : string) (m : Z) (n : nat) :
  answers_nothing H f ->
  forall (a : nat) (w : world H),
    exists w',
      Fund.safe_get_data_loop f m (seq a n) w = (Returns None, w') /\
      journal w' = journal w ++ repeat (EvFetch f) n.
Proof.
  intros Hnothing. induction n as [| n IH]; intros a w; simpl.
  - exists w. by rewrite app_nil_r.
  - unfold bind at 1. unfold try_, fetch.
    pose proof (Hnothing (hs w)) as Hans.
    destruct (h_fetch H f (hs w)) as [r s]. simpl in Hans.
    assert (Hnext : exists w',
              Fund.safe_get_data_loop f m (seq (S a) n)
                (log (EvFetch f) w s) = (Returns None, w') /\
              journal w' = journal w ++ EvFetch f :: repeat (EvFetch f) n).
    { destruct (IH (S a) (log (EvFetch f) w s)) as (w' & -> & Hj).
      exists w'. split; [reflexivity |].
      rewrite Hj. simpl. by rewrite <- app_assoc. }
    destruct r as [[df |] | e]; [| exact Hnext | destruct Hans].
    rewrite (no_rows_empty df Hans). exact Hnext.
Qed.

Lemma safely_get_market_data_loop_nothing (f : string) (m d : Z) (n : nat) :
  answers_nothing H f ->
  forall (a : nat) (w : world H),
    (a + n)%nat = Z.to_nat m ->
    exists evs w',
      Stock.safely_get_market_data_loop f m d (seq a n) w
      = (Returns None, w') /\
      journal w' = journal w ++ evs /\
      fetched evs = repeat f n /\ slept evs = repeat d (pred n).
Proof.
  intros Hnothing. induction n as [| n IH]; intros a w Hm; simpl.
  - exists [], w. by rewrite app_nil_r.
  - unfold bind at 1. unfold try_. unfold bind at 1. unfold fetch.
    pose proof (Hnothing (hs w)) as Hans.
    destruct (h_fetch H f (hs w)) as [r s]. simpl in Hans.
    set (w1 := log (EvFetch f) w s).
    set (e := PyError "ValueError" "获取到空数据或无效数据").
    assert (Hfail :
      exists evs w',
        (if negb (_should_retry (_classify_error e) a m)
         then ret None
         else if Z.of_nat a <? m - 1
              then bind (sleep (_get_retry_delay (_classify_error e) d a))
                     (fun _ => Stock.safely_get_market_data_loop f m d
                                 (seq (S a) n))
              else Stock.safely_get_market_data_loop f m d (seq (S a) n)) w1
        = (Returns None, w') /\
        journal w' = journal w ++ evs /\
        fetched evs = repeat f (S n) /\ slept evs = repeat d n).
    { change (_classify_error e) with "UNKNOWN"%string.
      change (_get_retry_delay "UNKNOWN" d a) with d.
      unfold _should_retry.
      destruct (Z.geb_spec (Z.of_nat a) m); [lia |]. simpl.
      destruct (Z.ltb_spec (Z.of_nat a) (m - 1)).
      - unfold bind at 1. unfold sleep.
        match goal with
        | |- context [Stock.safely_get_market_data_loop f m d _ ?w2] =>
            destruct (IH (S a) w2 ltac:(lia)) as (evs & w' & -> & Hj & Hf & Hs)
        end.
        exists (EvFetch f :: EvSleep d :: evs), w'.
        split; [reflexivity |]. split.
        + rewrite Hj. subst w1. simpl. by rewrite <- !app_assoc.
        + simpl. rewrite Hf, Hs. split; [reflexivity |].
          destruct n; [lia | reflexivity].
      - destruct (IH (S a) w1 ltac:(lia)) as (evs & w' & -> & Hj & Hf & Hs).
        exists (EvFetch f :: evs), w'.
        split; [reflexivity |]. split.
        + rewrite Hj. subst w1. simpl. by rewrite <- !app_assoc.
        + simpl. rewrite Hf, Hs. split; [reflexivity |].
          destruct n; [reflexivity | lia]. }
    destruct r as [[df |] | e']; [| exact Hfail | destruct Hans].
    simpl. rewrite Hans. simpl. exact Hfail.
Qed.

(** X10: A provider that keeps answering with nothing is called [max_retry]
    times by either loop, which then gives up.  The funds loop calls
    again at once; the stocks loop takes the empty answer for an error of
    unknown kind and sleeps the base delay of two seconds between two
    calls. *)
Theorem empty_answers_exhaust_retries (get_func source_name : string)
    (max_retry : Z) (w : world H) :
  answers_nothing H get_func ->
  (exists w',
     Fund.safe_get_data get_func source_name (Some max_retry) w
     = (Returns None, w') /\
     journal w'
     = journal w ++ repeat (EvFetch get_func) (Z.to_nat max_retry))
  /\
  (exists evs w',
     Stock.safely_get_market_data get_func source_name (Some max_retry) w
     = (Returns None, w') /\
     journal w' = journal w ++ evs /\
     fetched evs = repeat get_func (Z.to_nat max_retry) /\
     slept evs = repeat 2 (pred (Z.to_nat max_retry))).
Proof.
  intros Hnothing. split.
  - apply safe_get_data_loop_nothing, Hnothing.
  - apply safely_get_market_data_loop_nothing; [exact Hnothing | reflexivity].
Qed.

End FetchLoops.

Section FetchLoopsAt.
Import Sim Scenarios Obs Trace.

Lemma terminal_error_not_retried_witness :
  (Fund.safe_get_data "fund_open_fund_daily_em" "开放基金" (Some 3)
     (start provider_not_found sim_init)).1 = Returns None.
Proof.
  refine (f_equal fst
            (proj1 (terminal_error_not_retried (H := provider_not_found)
                      "fund_open_fund_daily_em" "开放基金" 3 _ _
                      (start provider_not_found sim_init) eq_refl _ _)));
    [reflexivity | lia].
Defined.

Lemma empty_answers_exhaust_retries_witness :
  exists w',
    Fund.safe_get_data "fund_open_fund_daily_em" "开放基金" (Some 3)
      (start provider_empty sim_init) = (Returns None, w') /\
    journal w'
    = [EvFetch "fund_open_fund_daily_em"; EvFetch "fund_open_fund_daily_em";
       EvFetch "fund_open_fund_daily_em"].
Proof.
  refine (proj1 (empty_answers_exhaust_retries (H := provider_empty)
                   "fund_open_fund_daily_em" "开放基金" 3
                   (start provider_empty sim_init) _)).
  intros s. reflexivity.
Defined.

End FetchLoopsAt.

(** ** The fetch phase of the funds *)

Section FundFetchPhase.
Import Obs Trace Fund.
Context {H : host}.

Lemma fetched_app (evs1 evs2 : list event) :
  fetched (evs1 ++ evs2) = fetched evs1 ++ fetched evs2.
Proof. apply flat_map_app. Qed.

Lemma serial_calls_nil : serial_calls [] [].
Proof. exists []. repeat split. constructor. Qed.

Lemma serial_calls_cons (f : string) (k : nat) (funcs calls : list string) :
  (1 <= k <= 3)%nat -> serial_calls funcs calls ->
  serial_calls (f :: funcs) (repeat f k ++ calls).
Proof.
  intros Hk (ks & Hlen & Hks & ->). exists (k :: ks). simpl.
  split; [by rewrite Hlen |]. split; [by constructor | reflexivity].
Qed.

Lemma gate_inv_insert (fund_data : gmap string (list fund_record))
    (success_types : gset string) (t : string) (records : list fund_record) :
  records <> [] -> Forall (fun r => fund_type r = t) records ->
  gate_inv fund_data success_types ->
  gate_inv (<[t := records]> fund_data) ({[t]} ∪ success_types).
Proof.
  intros Hne Hall [Hdom Hval]. split.
  - by rewrite dom_insert_L, Hdom.
  - intros t' records' Hlook.
    destruct (decide (t = t')) as [<- | Hneq].
    + rewrite lookup_insert_eq in Hlook. by injection Hlook as <-.
    + rewrite lookup_insert_ne in Hlook by done. by apply Hval.
Qed.

(** The collecting loop: it never raises, calls the providers of its
    tasks in turn, marks only its tasks as successful, and keeps
    [gate_inv]. *)
Lemma collect_loop_spec (tasks : list (string * string * Z)) :
  forall (fund_data : gmap string (list fund_record))
         (success_types : gset string) (w : world H),
    exists fund_data' success_types' evs w',
      collect_loop tasks fund_data success_types w
      = (Returns (fund_data', success_types'), w') /\
      journal w' = journal w ++ evs /\
      serial_calls (map (fun t => t.1.2) tasks) (fetched evs) /\
      success_types' ⊆ success_types ∪ list_to_set (map (fun t => t.1.1) tasks) /\
      (gate_inv fund_data success_types ->
       gate_inv fund_data' success_types').
Proof.
  induction tasks as [| [[fund_name get_func] c] rest IH];
    intros fund_data success_types w; simpl.
  - exists fund_data, success_types, [], w. rewrite app_nil_r.
    refine (conj eq_refl (conj eq_refl (conj serial_calls_nil (conj _ _))));
      [set_solver | done].
  - unfold bind at 1. unfold safe_get_data.
    change (default (Config.max_retry FUND_CONFIG) None) with 3.
    destruct (safe_get_data_loop_trace (H := H) get_func 3 3 0 w eq_refl)
      as (df & k & evs & w1 & Hrun & Hj & (Hall & Hf & Hs) & Hk & Hk1 & Hdf).
    change (seq 0 (Z.to_nat 3)) with (seq 0 3). rewrite Hrun.
    specialize (Hk1 ltac:(lia)).
    assert (Hskip :
      exists fund_data' success_types' evs' w',
        collect_loop rest fund_data success_types w1
        = (Returns (fund_data', success_types'), w') /\
        journal w' = journal w ++ evs' /\
        serial_calls (get_func :: map (fun t => t.1.2) rest) (fetched evs') /\
        success_types'
          ⊆ success_types
            ∪ ({[fund_name]} ∪ list_to_set (map (fun t => t.1.1) rest)) /\
        (gate_inv fund_data success_types ->
         gate_inv fund_data' success_types')).
    { destruct (IH fund_data success_types w1)
        as (fd' & st' & evs' & w' & -> & Hj' & Hser & Hsub & Hinv).
      exists fd', st', (evs ++ evs'), w'.
      refine (conj eq_refl (conj _ (conj _ (conj _ Hinv)))).
      - rewrite Hj', Hj. by rewrite app_assoc.
      - rewrite fetched_app, Hf. apply serial_calls_cons; [lia | exact Hser].
      - intros x Hx. apply Hsub in Hx.
        apply elem_of_union in Hx as [Hx | Hx]; apply elem_of_union;
          [by left | right; apply elem_of_union; by right]. }
    destruct df as [df |]; [| exact Hskip].
    destruct (df_empty df); [exact Hskip |].
    pose proof (extract_fund_values_types H df fund_name) as Htypes.
    rewrite <- (extract_records_unchunked H 5000) in Htypes by lia.
    destruct (extract_records H 5000 df fund_name) as [| r records] eqn:Hrec;
      [exact Hskip |].
    destruct (IH (<[fund_name := r :: records]> fund_data)
                ({[fund_name]} ∪ success_types) w1)
      as (fd' & st' & evs' & w' & -> & Hj' & Hser & Hsub & Hinv).
    exists fd', st', (evs ++ evs'), w'.
    refine (conj eq_refl (conj _ (conj _ (conj _ _)))).
    + rewrite Hj', Hj. by rewrite app_assoc.
    + rewrite fetched_app, Hf. apply serial_calls_cons; [lia | exact Hser].
    + intros x Hx. apply Hsub in Hx.
      apply elem_of_union in Hx as [Hx | Hx];
        [apply elem_of_union in Hx as [Hx | Hx] |]; apply elem_of_union;
        [right; apply elem_of_union; by left | by left
        | right; apply elem_of_union; by right].
    + intros Hg. apply Hinv. by apply gate_inv_insert.
Qed.

(** The names and the provider functions of the fund tasks. *)
Lemma fund_tasks_names (t : string) :
  t ∈ map (fun task : string * string * Z => task.1.1) (fund_tasks H) ->
  exists config,
    In (t, config) FUND_TYPES /\ h_has_api H (api_func config) = true.
Proof.
  unfold fund_tasks. intros Ht.
  apply list_elem_of_fmap in Ht as ([[name func] c] & -> & Htask).
  apply list_elem_of_In, in_flat_map in Htask as ([name' config] & Hin & Htask).
  destruct (h_has_api H (api_func config)) eqn:Hapi; [| destruct Htask].
  destruct Htask as [[= <- <- <-] | []]. by exists config.
Qed.

Lemma fund_types_keys (t : string) (c c' : fund_type_config) :
  In (t, c) FUND_TYPES -> In (t, c') FUND_TYPES -> c = c'.
Proof.
  unfold FUND_TYPES. simpl.
  intros Hc Hc'.
  repeat (destruct Hc as [Hc | Hc]; [injection Hc as <- <- |]);
    try destruct Hc;
    repeat (destruct Hc' as [Hc' | Hc']; [try discriminate Hc'; by injection Hc' as <- |]);
    destruct Hc'.
Qed.

(** X11: The fetch phase of the funds never raises, and it calls the provider
    functions of the configured fund types one after the other, in the
    configured order, each at least once and at most three times in a
    row: a failing provider does not keep the later ones from being
    called. *)
Theorem funds_providers_called_in_turn (w : world H) :
  exists r evs w',
    collect_all_fund_data w = (Returns r, w') /\
    journal w' = journal w ++ evs /\
    serial_calls (map (fun task => task.1.2) (fund_tasks H)) (fetched evs).
Proof.
  unfold collect_all_fund_data. unfold bind.
  destruct (collect_loop_spec (fund_tasks H) ∅ ∅ w)
    as (fd & st & evs & w' & -> & Hj & Hser & _).
  destruct (bool_decide _); eexists _, evs, w'; by repeat split.
Qed.

(** X12: When the fetch phase hands data on, the data are complete: they
    hold exactly the five configured fund types, and under each type at
    least one record, every record tagged with that type. *)
Theorem funds_gate_complete (w w' : world H)
    (fund_data : gmap string (list fund_record)) :
  collect_all_fund_data w = (Returns (Some fund_data), w') ->
  dom fund_data = list_to_set (map fst FUND_TYPES) /\
  forall t records,
    fund_data !! t = Some records ->
    records <> [] /\ Forall (fun r => fund_type r = t) records.
Proof.
  unfold collect_all_fund_data. unfold bind.
  destruct (collect_loop_spec (fund_tasks H) ∅ ∅ w)
    as (fd & st & evs & w1 & -> & _ & _ & _ & Hinv).
  case_bool_decide as Hgate; [| discriminate].
  intros [= <- <-].
  destruct Hinv as [Hdom Hval].
  { split; [by rewrite dom_empty_L | intros t records Hlook].
    by rewrite lookup_empty in Hlook. }
  by rewrite Hdom, Hgate.
Qed.

(** X13: When the provider module lacks the function of one of the five fund
    types, the fetch phase hands nothing on, whatever the other
    providers answer. *)
Theorem funds_missing_function_aborts (t : string)
    (config : fund_type_config) (w : world H) :
  In (t, config) FUND_TYPES ->
  h_has_api H (api_func config) = false ->
  (collect_all_fund_data w).1 = Returns None.
Proof.
  intros Hin Hapi. unfold collect_all_fund_data. unfold bind.
  destruct (collect_loop_spec (fund_tasks H) ∅ ∅ w)
    as (fd & st & evs & w1 & -> & _ & _ & Hsub & _).
  case_bool_decide as Hgate; [| reflexivity].
  exfalso.
  assert (Ht : t ∈ st).
  { rewrite Hgate. apply elem_of_list_to_set, list_elem_of_fmap.
    exists (t, config). split; [reflexivity | by apply list_elem_of_In]. }
  apply Hsub in Ht. apply elem_of_union in Ht as [Ht | Ht]; [set_solver |].
  apply elem_of_list_to_set, fund_tasks_names in Ht as (config' & Hin' & Hapi').
  rewrite (fund_types_keys t config config' Hin Hin') in Hapi. congruence.
Qed.

End FundFetchPhase.

Section FundFetchPhaseAt.
Import Sim Examples Scenarios Fund.

Lemma funds_gate_complete_witness :
  match collect_all_fund_data (start funds_complete sim_init) with
  | (Returns (Some fund_data), _) =>
      dom fund_data = list_to_set (map fst FUND_TYPES)
  | _ => False
  end.
Proof.
  assert (Hok : match (collect_all_fund_data
                         (start funds_complete sim_init)).1 with
                | Returns (Some _) => true
                | _ => false
                end = true) by (vm_compute; reflexivity).
  destruct (collect_all_fund_data (start funds_complete sim_init))
    as [[[fund_data |] | e] w'] eqn:Hrun; simpl in Hok; try discriminate Hok.
  exact (proj1 (funds_gate_complete (H := funds_complete) _ _ _ Hrun)).
Defined.

Lemma funds_missing_function_aborts_witness :
  (collect_all_fund_data (start funds_no_asia_function sim_init)).1
  = Returns None.
Proof.
  apply (funds_missing_function_aborts (H := funds_no_asia_function)
           "亚洲QDII" (FundTypeConfig "qdii_a_index_jsl" 1 "现价")).
  - simpl. tauto.
  - reflexivity.
Defined.

End FundFetchPhaseAt.

(** ** Computations whose events all satisfy a test *)

Section OnlyEvents.
Import Obs Trace.
Context {H : host}.
Variable P : event -> bool.

Lemma only_ret {A : Type} (a : A) : only P (ret (H := H) a).
Proof.
  intros w. exists (Returns a), [], w. rewrite app_nil_r. by repeat split.
Qed.

Lemma only_raise {A : Type} (e : py_error) : only P (raise (H := H) (A := A) e).
Proof.
  intros w. exists (Raises e), [], w. rewrite app_nil_r. by repeat split.
Qed.

Lemma only_bind {A B : Type} (m : M H A) (k : A -> M H B) :
  only P m -> (forall a, only P (k a)) -> only P (bind m k).
Proof.
  intros Hm Hk w. unfold bind.
  destruct (Hm w) as (r & evs & w' & -> & Hj & Hq).
  destruct r as [a | e].
  - destruct (Hk a w') as (r2 & evs2 & w2 & -> & Hj2 & Hq2).
    exists r2, (evs ++ evs2), w2. repeat split.
    + rewrite Hj2, Hj. by rewrite app_assoc.
    + rewrite forallb_app, Hq, Hq2. reflexivity.
  - exists (Raises e), evs, w'. by repeat split.
Qed.

Lemma only_raise_bind {A B : Type} (e : py_error) (k : A -> M H B) :
  only P (bind (raise e) k).
Proof.
  intros w. exists (Raises e), [], w. rewrite app_nil_r. by repeat split.
Qed.

Lemma only_ret_bind {A B : Type} (a : A) (k : A -> M H B) :
  only P (k a) -> only P (bind (ret a) k).
Proof. intros Hk w. exact (Hk w). Qed.

Lemma only_try {A : Type} (m : M H A) : only P m -> only P (try_ m).
Proof.
  intros Hm w. unfold try_.
  destruct (Hm w) as (r & evs & w' & -> & Hj & Hq).
  exists (Returns r), evs, w'. by repeat split.
Qed.

Lemma only_unwrap {A : Type} (r : outcome A) : only P (unwrap (H := H) r).
Proof. destruct r; [apply only_ret | apply only_raise]. Qed.

Lemma only_finally {A : Type} (m : M H A) (cleanup : M H unit) :
  only P m -> only P cleanup -> only P (finally m cleanup).
Proof.
  intros Hm Hc w. unfold finally.
  destruct (Hm w) as (r & evs & w1 & -> & Hj & Hq).
  destruct (Hc w1) as (r2 & evs2 & w2 & -> & Hj2 & Hq2).
  assert (Hj' : journal w2 = journal w ++ evs ++ evs2).
  { rewrite Hj2, Hj. by rewrite app_assoc. }
  assert (Hq' : forallb P (evs ++ evs2) = true).
  { rewrite forallb_app, Hq, Hq2. reflexivity. }
  destruct r2 as [[] | e]; eexists _, (evs ++ evs2), w2; by repeat split.
Qed.

Lemma only_time : only P (time (H := H)).
Proof.
  intros w. exists (Returns (h_time H (hs w))), [], w.
  rewrite app_nil_r. by repeat split.
Qed.

Lemma only_now : only P (now (H := H)).
Proof.
  intros w. exists (Returns (h_now H (hs w))), [], w.
  rewrite app_nil_r. by repeat split.
Qed.

Lemma only_sleep (seconds : Z) :
  P (EvSleep seconds) = true -> only P (sleep (H := H) seconds).
Proof.
  intros HP w. unfold sleep.
  eexists (Returns tt), [EvSleep seconds], _.
  repeat split. simpl. by rewrite HP.
Qed.

Lemma only_fetch (api_func : string) :
  P (EvFetch api_func) = true -> only P (fetch (H := H) api_func).
Proof.
  intros HP w. unfold fetch. destruct (h_fetch H api_func (hs w)) as [r s].
  exists r, [EvFetch api_func], (log (EvFetch api_func) w s).
  repeat split. simpl. by rewrite HP.
Qed.

Lemma only_get_db_engine :
  P EvEngine = true -> only P (get_db_engine (H := H)).
Proof.
  intros HP w. unfold get_db_engine. destruct (h_engine H (hs w)) as [r s].
  exists r, [EvEngine], (log EvEngine w s). repeat split. simpl. by rewrite HP.
Qed.

Lemma only_connect : P EvConnect = true -> only P (connect (H := H)).
Proof.
  intros HP w. unfold connect. destruct (h_connect H (hs w)) as [r s].
  exists r, [EvConnect], (log EvConnect w s). repeat split. simpl. by rewrite HP.
Qed.

Lemma only_execute (s : stmt) :
  P (EvExecute s) = true -> only P (execute (H := H) s).
Proof.
  intros HP w. unfold execute. destruct (h_execute H s (hs w)) as [r s'].
  exists r, [EvExecute s], (log (EvExecute s) w s').
  repeat split. simpl. by rewrite HP.
Qed.

Lemma only_commit : P EvCommit = true -> only P (commit (H := H)).
Proof.
  intros HP w. unfold commit. destruct (h_commit H (hs w)) as [r s].
  exists r, [EvCommit], (log EvCommit w s). repeat split. simpl. by rewrite HP.
Qed.

Lemma only_rollback : P EvRollback = true -> only P (rollback (H := H)).
Proof.
  intros HP w. unfold rollback.
  eexists (Returns tt), [EvRollback], _. repeat split. simpl. by rewrite HP.
Qed.

Lemma only_with_connection {A : Type} (body : M H A) :
  P EvConnect = true -> P EvRollback = true ->
  only P body -> only P (with_connection body).
Proof.
  intros Hc Hr Hb. unfold with_connection.
  apply only_bind; [by apply only_connect | intros _].
  apply only_bind; [by apply only_try | intros r].
  apply only_bind; [by apply only_rollback | intros _]. apply only_unwrap.
Qed.

Lemma only_with_transaction {A : Type} (body : M H A) :
  P EvConnect = true -> P EvCommit = true -> P EvRollback = true ->
  only P body -> only P (with_transaction body).
Proof.
  intros Hc Hm Hr Hb. unfold with_transaction.
  apply only_bind; [by apply only_connect | intros _].
  apply only_bind; [by apply only_try | intros [a | e]].
  - apply only_bind; [by apply only_commit | intros _; apply only_ret].
  - apply only_bind; [by apply only_rollback | intros _; apply only_raise].
Qed.

Lemma only_run_pool {A : Type} (tasks : list (M H A)) :
  Forall (only P) tasks -> only P (run_pool tasks).
Proof.
  induction 1 as [| t rest Ht _ IH]; simpl; [apply only_ret |].
  apply only_bind; [by apply only_try | intros r].
  apply only_bind; [exact IH | intros rs; apply only_ret].
Qed.

(** The two retry loops make provider calls and sleep, nothing else. *)
Hypothesis provider_events :
  forall ev, is_provider_event ev = true -> P ev = true.

Lemma only_safe_get_data_loop (get_func : string) (max_retry : Z)
    (attempts : list nat) :
  only P (Fund.safe_get_data_loop (H := H) get_func max_retry attempts).
Proof.
  induction attempts as [| attempt rest IH]; simpl.
  - apply only_ret.
  - apply only_bind; [apply only_try, only_fetch; by apply provider_events |].
    intros [[df |] | e].
    + destruct (negb (df_empty df)); [apply only_ret | exact IH].
    + exact IH.
    + destruct (negb _); [apply only_ret |].
      destruct (_ <? _); [| apply only_ret].
      apply only_bind; [apply only_sleep; by apply provider_events |].
      intros _; exact IH.
Qed.

Lemma only_safely_get_market_data_loop (get_data_func : string)
    (max_retry retry_delay : Z) (attempts : list nat) :
  only P (Stock.safely_get_market_data_loop (H := H) get_data_func max_retry
            retry_delay attempts).
Proof.
  induction attempts as [| attempt rest IH]; simpl.
  - apply only_ret.
  - apply only_bind.
    + apply only_try, only_bind;
        [apply only_fetch; by apply provider_events |].
      intros [df |]; [| apply only_raise].
      destruct (_ =? _)%nat; [apply only_raise | apply only_ret].
    + intros [df | e]; [apply only_ret |].
      destruct (negb _); [apply only_ret |].
      destruct (_ <? _); [| exact IH].
      apply only_bind; [apply only_sleep; by apply provider_events |].
      intros _; exact IH.
Qed.

Lemma only_check_market_open_status (check_func : option check_open)
    (hours_delay tolerance_seconds : Z) :
  only P (check_market_open_status (H := H) check_func hours_delay
            tolerance_seconds).
Proof.
  unfold check_market_open_status.
  apply only_bind; [apply only_now | intros dt].
  destruct check_func as [[] |]; try apply only_ret. apply only_raise.
Qed.

(** Without a clean function a market is fetched and then dropped. *)
Lemma only_process_without_clean_func (market_name get_data_func : string)
    (existing_symbols : gset pyval) (concurrency : Z) (batch_size : option Z) :
  only P (Stock.process_and_sync_stock_data (H := H) market_name get_data_func
            None existing_symbols concurrency batch_size).
Proof.
  unfold Stock.process_and_sync_stock_data.
  apply only_bind; [apply only_time | intros _].
  apply only_bind; [apply only_safely_get_market_data_loop |].
  intros [df |]; [| apply only_ret].
  destruct (df_empty df); [apply only_ret |].
  apply only_raise_bind.
Qed.

Lemma only_collect_without_clean_func (market_configs : list Stock.market_config)
    (existing_symbols_map : gmap pyval (gset pyval)) :
  Forall (fun conf => Stock.clean_func conf = None) market_configs ->
  forall processed_markets skipped_markets,
    only P (Stock.collect_all_stock_data_loop (H := H) market_configs
              existing_symbols_map processed_markets skipped_markets).
Proof.
  induction 1 as [| conf rest Hconf _ IH]; intros p s; simpl.
  - apply only_ret.
  - apply only_bind; [apply only_check_market_open_status |].
    intros [|]; [| apply IH].
    rewrite Hconf.
    apply only_bind; [apply only_process_without_clean_func |].
    intros _. apply IH.
Qed.

End OnlyEvents.

(** ** The stocks run *)

Section StocksRun.
Import Obs Trace StockDb Stock.
Context {H : host}.

Lemma factory_clean_funcs (market_configs : list market_config) :
  StockDataProcessor H = Returns market_configs ->
  Forall (fun conf => clean_func conf = None) market_configs.
Proof.
  unfold StockDataProcessor. destruct (_ && _); [| discriminate].
  intros [= <-]. simpl. repeat constructor.
Qed.

Lemma only_get_existing_stock_symbols_by_market (P : event -> bool) :
  P EvConnect = true -> P (EvExecute GET_EXISTING_SYMBOLS) = true ->
  P EvRollback = true ->
  only P (get_existing_stock_symbols_by_market (H := H)).
Proof.
  intros Hc He Hr. unfold get_existing_stock_symbols_by_market.
  apply only_bind.
  - apply only_try, only_with_connection; try assumption.
    apply only_bind; [by apply only_execute | intros ?; apply only_ret].
  - intros [rows | e]; apply only_ret.
Qed.

(** X14: A run of the stocks task, as the stock factory configures it, never
    changes the stored data: whatever the providers and the database
    answer, it issues no statement other than the query of the existing
    symbols and commits nothing, because the factory registers no clean
    function and the first non-empty table ends the run. *)
Theorem stocks_run_never_writes (w : world H) :
  exists r evs w',
    Stock.sync_task_runner w = (r, w') /\
    journal w' = journal w ++ evs /\
    forallb no_write evs = true.
Proof.
  assert (Hprov : forall ev, is_provider_event ev = true -> no_write ev = true)
    by (by intros []).
  revert w. change (only no_write (Stock.sync_task_runner (H := H))).
  unfold Stock.sync_task_runner.
  apply only_bind; [apply only_time | intros _].
  apply only_finally.
  - apply only_bind.
    + apply only_try.
      destruct (StockDataProcessor H) as [market_configs | e] eqn:Hinit;
        [| apply only_raise_bind].
      apply only_ret_bind.
      apply only_bind; [by apply only_get_db_engine | intros _].
      apply only_bind;
        [by apply only_get_existing_stock_symbols_by_market | intros m].
      apply only_bind; [| intros ?; apply only_ret].
      apply only_collect_without_clean_func; [exact Hprov |].
      by apply factory_clean_funcs.
    + intros [res | e]; apply only_ret.
  - apply only_bind; [apply only_time | intros _].
    apply only_bind; [apply only_unwrap | intros _; apply only_ret].
Qed.

Lemma collect_loop_counts (market_configs : list market_config)
    (existing_symbols_map : gmap pyval (gset pyval)) :
  forall (p s : Z) (w : world H) (p' s' : Z) (w' : world H),
    collect_all_stock_data_loop market_configs existing_symbols_map p s w
    = (Returns (p', s'), w') ->
    p' + s' = p + s + Z.of_nat (length market_configs) /\ p <= p' /\ s <= s'.
Proof.
  induction market_configs as [| conf rest IH]; intros p s w p' s' w'; simpl.
  - intros [= <- <- <-]. lia.
  - unfold bind at 1.
    destruct (check_market_open_status (check_open_func conf) 2 30 w)
      as [[[|] | e] w1]; [| | discriminate].
    + unfold bind at 1.
      destruct (process_and_sync_stock_data _ _ _ _ _ _ w1)
        as [[[] | e] w2]; [| discriminate].
      intros Hrun. apply IH in Hrun. lia.
    + intros Hrun. apply IH in Hrun. lia.
Qed.

(** X15: When the loop over the markets comes to its end, every configured
    market has been counted exactly once, as processed or as skipped: the
    two counts add up to the number of markets.  A market found closed
    adds one to the skipped count and nothing else happens for it.  A
    market found open whose fetch failed (the retry loop handed back no
    table) adds one to the processed count, and the loop goes on with
    the next market. *)
Theorem stock_markets_counted_once (market_configs : list market_config)
    (existing_symbols_map : gmap pyval (gset pyval)) (w w' : world H)
    (processed skipped : Z) :
  collect_all_stock_data market_configs existing_symbols_map w
  = (Returns (processed, skipped), w') ->
  (processed + skipped = Z.of_nat (length market_configs) /\
   0 <= processed /\ 0 <= skipped) /\
  (forall (conf : market_config) (rest : list market_config)
          (p s : Z) (w0 w1 : world H),
     check_market_open_status (check_open_func conf) 2 30 w0
     = (Returns false, w1) ->
     collect_all_stock_data_loop (conf :: rest) existing_symbols_map p s w0
     = collect_all_stock_data_loop rest existing_symbols_map p (s + 1) w1) /\
  (forall (conf : market_config) (rest : list market_config)
          (p s : Z) (w0 w1 w2 : world H),
     check_market_open_status (check_open_func conf) 2 30 w0
     = (Returns true, w1) ->
     safely_get_market_data (get_data_func conf) (market_name conf) None w1
     = (Returns None, w2) ->
     collect_all_stock_data_loop (conf :: rest) existing_symbols_map p s w0
     = collect_all_stock_data_loop rest existing_symbols_map (p + 1) s w2).
Proof.
  intros Hrun. split; [| split].
  - apply collect_loop_counts in Hrun. lia.
  - intros conf rest p s w0 w1 Hcheck.
    cbn [collect_all_stock_data_loop]. unfold bind at 1. rewrite Hcheck.
    reflexivity.
  - intros conf rest p s w0 w1 w2 Hcheck Hfetch.
    cbn [collect_all_stock_data_loop]. unfold bind at 1. rewrite Hcheck.
    unfold bind at 1. unfold process_and_sync_stock_data.
    unfold bind at 1, time at 1. unfold bind at 1. rewrite Hfetch.
    reflexivity.
Qed.

(** X16: In the evening, when the three markets are closed and were closed
    two hours earlier, the loop over the markets of the factory skips
    all three: no provider is called and nothing else happens. *)
Theorem stocks_closed_markets_skipped (market_configs : list market_config)
    (existing_symbols_map : gmap pyval (gset pyval)) (w : world H) :
  StockDataProcessor H = Returns market_configs ->
  all_markets_closed (h_now H (hs w)) ->
  collect_all_stock_data market_configs existing_symbols_map w
  = (Returns (0, 3), w).
Proof.
  unfold StockDataProcessor. destruct (_ && _); [| discriminate].
  intros [= <-] [Hclock Hs].
  destruct (lookback_windows H w Hclock) as (Ha & Hhk & Hus).
  cbv zeta in Ha, Hhk, Hus.
  assert (Hca : (34170 <=? seconds_of_day (h_now H (hs w)))
                && (seconds_of_day (h_now H (hs w)) <=? 61230) = false).
  { apply andb_false_iff. right. apply Z.leb_gt. lia. }
  assert (Hchk : (34170 <=? seconds_of_day (h_now H (hs w)))
                 && (seconds_of_day (h_now H (hs w)) <=? 64830) = false).
  { apply andb_false_iff. right. apply Z.leb_gt. lia. }
  assert (Hcus : (if (3 <=? month (h_now H (hs w)))
                     && (month (h_now H (hs w)) <=? 11)
                  then (77370 <=? seconds_of_day (h_now H (hs w)))
                       || (seconds_of_day (h_now H (hs w)) <=? 21630)
                  else (80970 <=? seconds_of_day (h_now H (hs w)))
                       || (seconds_of_day (h_now H (hs w)) <=? 25230)) = false).
  { destruct ((3 <=? month (h_now H (hs w))) && _);
      apply orb_false_iff; split; apply Z.leb_gt; lia. }
  rewrite Hca in Ha. rewrite Hchk in Hhk. rewrite Hcus in Hus.
  unfold collect_all_stock_data. simpl.
  change (check_open_funcs "A股") with (Some IsAOpen).
  change (check_open_funcs "港股") with (Some IsHKOpen).
  change (check_open_funcs "美股") with (Some IsUSOpen).
  unfold bind. rewrite Ha, Hhk, Hus. reflexivity.
Qed.

End StocksRun.

Section StocksRunAt.
Import Sim Examples Scenarios Trace Stock.

(** The A-share provider times out on every attempt: the A-share market
    is counted as processed all the same, the loop goes on with the Hong
    Kong market, and both markets end up counted as processed. *)
Lemma stock_markets_counted_once_witness :
  let w := start stocks_a_share_down sim_init in
  match collect_all_stock_data two_markets existing_symbols w with
  | (Returns (processed, skipped), _) =>
      processed + skipped = Z.of_nat (length two_markets) /\
      processed = 2 /\
      exists w2,
        safely_get_market_data "stock_zh_a_spot_em" "A股" None w
        = (Returns None, w2) /\
        collect_all_stock_data_loop two_markets existing_symbols 0 0 w
        = collect_all_stock_data_loop (tl two_markets) existing_symbols
            (0 + 1) 0 w2
  | _ => False
  end.
Proof.
  intros w.
  assert (Hok : (collect_all_stock_data two_markets existing_symbols w).1
                = Returns (2, 0)) by (vm_compute; reflexivity).
  destruct (collect_all_stock_data two_markets existing_symbols w)
    as [[[processed skipped] | e] w'] eqn:Hrun; simpl in Hok;
    try discriminate Hok.
  destruct (stock_markets_counted_once (H := stocks_a_share_down)
              _ _ _ _ _ _ Hrun) as ((Hsum & _) & _ & Hfailed).
  split; [exact Hsum |]. split; [by injection Hok |].
  destruct (safely_get_market_data "stock_zh_a_spot_em" "A股" None w)
    as [fetched w2] eqn:Hfetch.
  assert (Hnone : fetched = Returns None).
  { change fetched with (fetched, w2).1. rewrite <- Hfetch.
    vm_compute. reflexivity. }
  subst fetched. exists w2. split; [reflexivity |].
  apply (Hfailed (MarketConfig "A股" "stock_zh_a_spot_em" (Some clean_rows)
                    (Some MarketStatus.IsAOpen) 2)
           (tl two_markets) 0 0 w w); [reflexivity | exact Hfetch].
Defined.

Lemma stocks_closed_markets_skipped_witness :
  exists market_configs,
    StockDataProcessor stocks_evening = Returns market_configs /\
    collect_all_stock_data market_configs ∅ (start stocks_evening sim_init)
    = (Returns (0, 3), start stocks_evening sim_init).
Proof.
  eexists. split; [reflexivity |].
  apply (stocks_closed_markets_skipped (H := stocks_evening));
    [reflexivity |].
  vm_compute. repeat split; first [reflexivity | intros Hx; discriminate Hx].
Defined.

End StocksRunAt.

(** ** What the result of a run says about the run *)

Section RunResults.
Import Obs Trace StockDb Stock BaseRun.
Local Open Scope monad_scope.
Context {H : host}.



End RunResults.

Section RunResultsAt.
Import Sim Examples Scenarios Stock.


End RunResultsAt.

(** ** The storage operations of the stocks *)

Section StockStorage.
Import Obs Trace StockDb Stock.
Context {H : host}.

Lemma update_one_by_one_all_fail (market_name : string)
    (batch_data : list stock_record) :
  (forall st s, exists e, (h_execute H st s).1 = Raises e) ->
  forall w : world H, exists w',
    update_one_by_one market_name batch_data w
    = (Returns (map symbol batch_data), w').
Proof.
  intros Hfail. induction batch_data as [| record rest IH]; intros w; simpl.
  - by exists w.
  - unfold bind at 1, try_, execute.
    destruct (Hfail (UPDATE_STOCK_ONE market_name record) (hs w)) as [e He].
    destruct (h_execute H (UPDATE_STOCK_ONE market_name record) (hs w))
      as [r s]. simpl in He. subst r.
    unfold bind at 1.
    destruct (IH (log (EvExecute (UPDATE_STOCK_ONE market_name record)) w s))
      as [w' ->].
    by exists w'.
Qed.

(** X17: On a database whose connections open and whose commits succeed, a
    batch worker of the stocks reports the whole batch as written and no
    error, whatever happens to its statements: the update worker and the
    insert worker both return the size of the batch, even when the batch
    statement and every single-row statement fail (the update worker
    then lists every symbol of the batch as failed). *)
Theorem stock_batch_count_ignores_failures (batch : list stock_record)
    (batch_num : nat) (market_name : string) (w : world H) :
  commits_succeed H ->
  exists d1 d2 failed w1 w2,
    update_stock_records_batch batch batch_num market_name w
    = (Returns (BatchResult (Z.of_nat (length batch)) d1 None, failed), w1) /\
    insert_stock_records_batch batch batch_num market_name w
    = (Returns (BatchResult (Z.of_nat (length batch)) d2 None), w2) /\
    ((forall st s, exists e, (h_execute H st s).1 = Raises e) ->
     failed = map symbol batch).
Proof.
  intros [Hconn Hcommit].
  assert (Hupd : exists d1 failed w1,
    update_stock_records_batch batch batch_num market_name w
    = (Returns (BatchResult (Z.of_nat (length batch)) d1 None, failed), w1) /\
    ((forall st s, exists e, (h_execute H st s).1 = Raises e) ->
     failed = map symbol batch)).
  { unfold update_stock_records_batch, bind, try_, connect, time, ret.
    pose proof (Hconn (hs w)) as Hc.
    destruct (h_connect H (hs w)) as [rc s]. simpl in Hc. subst rc. simpl.
    unfold execute. simpl.
    destruct (h_execute H (UPDATE_STOCK market_name batch) s) as [r s1] eqn:Hex.
    destruct r as [result | e]; simpl.
    - unfold commit.
      destruct (rowcount result =? 0); simpl;
        (pose proof (Hcommit s1) as Hm;
         destruct (h_commit H s1) as [rm s2]; simpl in Hm; subst rm; simpl;
         eexists _, _, _; split; [reflexivity |];
         intros Hfail;
         destruct (Hfail (UPDATE_STOCK market_name batch) s) as [e He];
         rewrite Hex in He; discriminate He).
    - match goal with
      | |- context [update_one_by_one market_name batch ?w1] =>
          destruct (update_one_by_one_total market_name batch w1)
            as (failed & evs & w' & Hrun & Hj & _);
          pose proof (update_one_by_one_all_fail market_name batch) as Hall;
          rewrite Hrun
      end.
      unfold commit. pose proof (Hcommit (hs w')) as Hm.
      destruct (h_commit H (hs w')) as [rm s2]. simpl in Hm. subst rm. simpl.
      eexists _, _, _. split; [reflexivity |].
      intros Hfail.
      match type of Hrun with
      | update_one_by_one _ _ ?w1 = _ =>
          destruct (Hall Hfail w1) as [w'' Hrun']
      end.
      rewrite Hrun in Hrun'. by injection Hrun' as ->. }
  assert (Hins : exists d2 w2,
    insert_stock_records_batch batch batch_num market_name w
    = (Returns (BatchResult (Z.of_nat (length batch)) d2 None), w2)).
  { unfold insert_stock_records_batch, with_transaction, bind, try_, connect,
      time, ret.
    pose proof (Hconn (hs w)) as Hc.
    destruct (h_connect H (hs w)) as [rc s]. simpl in Hc. subst rc. simpl.
    unfold execute. simpl.
    destruct (h_execute H (INSERT_STOCK market_name batch) s) as [r s1].
    destruct r as [result | e]; simpl.
    - unfold commit. simpl. pose proof (Hcommit s1) as Hm.
      destruct (h_commit H s1) as [rm s2]. simpl in Hm. subst rm. simpl.
      eexists _, _. reflexivity.
    - match goal with
      | |- context [insert_one_by_one market_name batch ?w1] =>
          destruct (insert_one_by_one_total market_name batch w1)
            as (evs & w' & -> & Hj & _)
      end.
      unfold commit. pose proof (Hcommit (hs w')) as Hm.
      destruct (h_commit H (hs w')) as [rm s2]. simpl in Hm. subst rm. simpl.
      eexists _, _. reflexivity. }
  destruct Hupd as (d1 & failed & w1 & Hu & Hf).
  destruct Hins as (d2 & w2 & Hi).
  by exists d1, d2, failed, w1, w2.
Qed.

(** X18: When the database refuses the connection, none of the four storage
    operations of the stocks raises: the query of the existing symbols
    answers the empty map, the two batch workers report a count of zero
    together with the error, and the deletion answers zero.  Each of
    them leaves one connection attempt in the journal and nothing else. *)
Theorem stock_storage_refused_connection (batch : list stock_record)
    (batch_num : nat) (market_name : string) (symbols : gset pyval)
    (w : world H) (e : py_error) (s : hstate H) :
  h_connect H (hs w) = (Raises e, s) ->
  let w' := log EvConnect w s in
  let d := h_time H s - h_time H (hs w) in
  get_existing_stock_symbols_by_market w = (Returns ∅, w') /\
  update_stock_records_batch batch batch_num market_name w
  = (Returns (BatchResult 0 d (Some e), []), w') /\
  insert_stock_records_batch batch batch_num market_name w
  = (Returns (BatchResult 0 d (Some e)), w') /\
  (symbols <> ∅ ->
   mark_stocks_as_deleted symbols market_name w = (Returns 0, w')).
Proof.
  intros Hc w' d. repeat split.
  - unfold get_existing_stock_symbols_by_market, with_connection, bind, try_,
      connect. rewrite Hc. reflexivity.
  - unfold update_stock_records_batch, bind, try_, connect, time, ret.
    rewrite Hc. reflexivity.
  - unfold insert_stock_records_batch, with_transaction, bind, try_, connect,
      time, ret. rewrite Hc. reflexivity.
  - intros Hne. unfold mark_stocks_as_deleted.
    rewrite bool_decide_eq_false_2 by exact Hne.
    unfold with_transaction, bind, try_, connect, time, ret.
    rewrite Hc. reflexivity.
Qed.

End StockStorage.

Section StockStorageAt.
Import Sim Examples Scenarios Trace StockDb.

Lemma stock_batch_count_ignores_failures_witness :
  exists d1 d2 failed w1 w2,
    update_stock_records_batch [StockRecord (PStr "000001") (PStr "t") []] 1
      "A股" (start stocks_statements_fail sim_init)
    = (Returns (BatchResult 1 d1 None, failed), w1) /\
    insert_stock_records_batch [StockRecord (PStr "000001") (PStr "t") []] 1
      "A股" (start stocks_statements_fail sim_init)
    = (Returns (BatchResult 1 d2 None), w2) /\
    ((forall st s,
        exists e, (h_execute stocks_statements_fail st s).1 = Raises e) ->
     failed = [PStr "000001"]).
Proof.
  apply (stock_batch_count_ignores_failures (H := stocks_statements_fail)
           [StockRecord (PStr "000001") (PStr "t") []] 1 "A股"
           (start stocks_statements_fail sim_init)).
  split; intros s; reflexivity.
Defined.

Lemma stock_storage_refused_connection_witness :
  get_existing_stock_symbols_by_market (start funds_db_down sim_init)
  = (Returns ∅,
     log EvConnect (start funds_db_down sim_init) (SimState 0 [] 1 [] [])).
Proof.
  refine (proj1 (stock_storage_refused_connection (H := funds_db_down)
                   [] 1 "A股" ∅ (start funds_db_down sim_init)
                   (PyError "OperationalError" "could not connect to server")
                   (SimState 0 [] 1 [] []) _)).
  reflexivity.
Defined.

End StockStorageAt.

(** ** The storage phase of the funds *)

Section FundStorage.
Import Obs Trace Fund FundDb.
Context {H : host}.

(** One statement in a transaction of its own, on a healthy database. *)
Lemma txn_healthy (s : stmt) (w : world H) :
  healthy H ->
  exists c w',
    with_transaction (execute s) w = (Returns c, w') /\
    journal w' = journal w ++ txn s.
Proof.
  intros [[Hconn Hcommit] Hexec].
  unfold with_transaction, bind, try_, connect, execute, commit, ret.
  pose proof (Hconn (hs w)) as Hc.
  destruct (h_connect H (hs w)) as [rc s1]. simpl in Hc. subst rc. simpl.
  destruct (Hexec s s1) as [c He].
  destruct (h_execute H s s1) as [re s2]. simpl in He. subst re. simpl.
  pose proof (Hcommit s2) as Hm.
  destruct (h_commit H s2) as [rm s3]. simpl in Hm. subst rm. simpl.
  eexists _, _. split; [reflexivity |]. simpl.
  by rewrite <- !app_assoc.
Qed.

Lemma insert_worker_healthy (batch : list fund_record) (i : nat)
    (w : world H) :
  healthy H ->
  exists d w',
    _batch_insert_worker batch i w = (Returns d, w') /\
    journal w' = journal w ++ txn (insert_stmt batch).
Proof.
  intros Hh. unfold _batch_insert_worker. unfold bind at 1, time at 1.
  unfold bind at 1.
  destruct (txn_healthy (insert_stmt batch) w Hh) as (c & w' & Hrun & Hj).
  unfold insert_stmt in Hrun. rewrite Hrun.
  eexists _, _. split; [reflexivity | exact Hj].
Qed.

Lemma update_worker_healthy (batch : list fund_record) (i : nat)
    (w : world H) :
  healthy H ->
  exists d w',
    _batch_update_worker batch i w = (Returns d, w') /\
    journal w' = journal w ++ txn (update_stmt batch).
Proof.
  intros Hh. unfold _batch_update_worker. unfold bind at 1, time at 1.
  unfold bind at 1.
  destruct (txn_healthy (update_stmt batch) w Hh) as (c & w' & Hrun & Hj).
  unfold update_stmt in Hrun. rewrite Hrun.
  eexists _, _. split; [reflexivity | exact Hj].
Qed.

Lemma collect_durations_ok (futures : list (outcome Z)) :
  Forall (fun r => exists d, r = Returns d) futures ->
  forall total, exists d, collect_durations futures total = Returns d.
Proof.
  induction 1 as [| r rest [d ->] _ IH]; intros total; simpl; [by eexists |].
  apply IH.
Qed.

(** The pool on a healthy database: every worker returns, and the
    journal holds the transactions of the batches in order. *)
Lemma run_pool_healthy (mk : list fund_record -> stmt)
    (batches : list (list fund_record)) :
  forall (g : nat -> list fund_record -> M H Z) (w : world H),
    (forall i batch w0, exists d w',
        g i batch w0 = (Returns d, w') /\
        journal w' = journal w0 ++ txn (mk batch)) ->
    exists futures w',
      run_pool (imap g batches) w = (Returns futures, w') /\
      Forall (fun r => exists d, r = Returns d) futures /\
      journal w' = journal w ++ concat (map (fun batch => txn (mk batch)) batches).
Proof.
  induction batches as [| batch rest IH]; intros g w Hg; simpl.
  - exists [], w. rewrite app_nil_r. by repeat split.
  - unfold bind at 1, try_.
    destruct (Hg 0%nat batch w) as (d & w1 & -> & Hj1).
    unfold bind at 1.
    destruct (IH (g ∘ S) w1) as (futures & w' & -> & Hall & Hj).
    { intros i b w0. apply Hg. }
    exists (Returns d :: futures), w'.
    split; [reflexivity |]. split; [constructor; [by eexists | exact Hall] |].
    rewrite Hj, Hj1. by rewrite <- !app_assoc.
Qed.

Lemma run_fund_batches_healthy (mk : list fund_record -> stmt)
    (db : FundDatabase) (worker : list fund_record -> nat -> M H Z)
    (funds : list fund_record) (w : world H) :
  (forall batch i w0, exists d w',
      worker batch i w0 = (Returns d, w') /\
      journal w' = journal w0 ++ txn (mk batch)) ->
  0 < db_batch_size db -> 0 < db_max_workers db ->
  exists d w',
    run_fund_batches db worker funds w = (Returns d, w') /\
    journal w' = journal w ++ batch_txns mk (Z.to_nat (db_batch_size db)) funds.
Proof.
  intros Hw Hb Hm. unfold run_fund_batches, batch_txns.
  destruct funds as [| f funds].
  - exists 0, w. rewrite slices_nil by lia. simpl. rewrite app_nil_r.
    by split.
  - unfold bind at 1, time at 1. unfold bind at 1.
    unfold batches_of.
    destruct (Z.eqb_spec (db_batch_size db) 0); [lia |].
    destruct (Z.ltb_spec (db_batch_size db) 0); [lia |].
    unfold ret at 1. unfold bind at 1. unfold new_executor.
    destruct (Z.leb_spec (db_max_workers db) 0); [lia |].
    unfold ret at 1. unfold bind at 1.
    destruct (run_pool_healthy mk
                (slices (Z.to_nat (db_batch_size db)) (f :: funds))
                (fun i batch => worker batch i) w)
      as (futures & w' & -> & Hall & Hj).
    { intros i batch w0. apply Hw. }
    unfold bind at 1.
    destruct (collect_durations_ok futures Hall 0) as [d ->].
    simpl. eexists _, _. split; [reflexivity | exact Hj].
Qed.

(** X19: On a healthy database, with a positive batch size and a positive
    number of workers, the storage phase of the funds returns, and what
    it does is: one transaction that marks the removed codes as deleted
    (none when there is nothing to remove), then one transaction per
    batch of the records to insert, then one transaction per batch of
    the records to update; a batch holds consecutive records of the
    merged list.  (The workers of a pool are run in submission order.) *)
Theorem funds_batches_on_healthy_db (db : FundDatabase)
    (final_funds : list fund_record)
    (new_codes removed_codes update_codes : gset pyval) (w : world H) :
  healthy H -> 0 < db_batch_size db -> 0 < db_max_workers db ->
  let n := Z.to_nat (db_batch_size db) in
  exists d w',
    execute_batch_updates db final_funds new_codes removed_codes update_codes w
    = (Returns d, w') /\
    journal w'
    = journal w
      ++ (if bool_decide (removed_codes = ∅) then []
          else txn (MARK_FUNDS_DELETED (elements removed_codes)))
      ++ batch_txns insert_stmt n
           (List.filter (fun f => bool_decide (code f ∈ new_codes)) final_funds)
      ++ batch_txns update_stmt n
           (List.filter (fun f => bool_decide (code f ∈ update_codes))
              final_funds).
Proof.
  intros Hh Hb Hm n. unfold execute_batch_updates.
  unfold bind at 1, time at 1. unfold bind at 1.
  assert (Hdel : exists d1 w1,
    mark_funds_deleted removed_codes w = (Returns d1, w1) /\
    journal w1 = journal w
      ++ (if bool_decide (removed_codes = ∅) then []
          else txn (MARK_FUNDS_DELETED (elements removed_codes)))).
  { unfold mark_funds_deleted. case_bool_decide.
    - exists 0, w. by rewrite app_nil_r.
    - unfold bind at 1, time at 1. unfold bind at 1.
      destruct (txn_healthy (MARK_FUNDS_DELETED (elements removed_codes)) w Hh)
        as (c & w1 & -> & Hj).
      eexists _, _. split; [reflexivity | exact Hj]. }
  destruct Hdel as (d1 & w1 & -> & Hj1).
  unfold bind at 1. unfold insert_new_funds.
  destruct (run_fund_batches_healthy insert_stmt db _batch_insert_worker
              (List.filter (fun f => bool_decide (code f ∈ new_codes))
                 final_funds) w1)
    as (d2 & w2 & -> & Hj2); [| assumption | assumption |].
  { intros batch i w0. by apply insert_worker_healthy. }
  unfold bind at 1. unfold update_existing_funds.
  destruct (run_fund_batches_healthy update_stmt db _batch_update_worker
              (List.filter (fun f => bool_decide (code f ∈ update_codes))
                 final_funds) w2)
    as (d3 & w3 & -> & Hj3); [| assumption | assumption |].
  { intros batch i w0. by apply update_worker_healthy. }
  eexists _, _. split; [reflexivity |].
  simpl. rewrite Hj3, Hj2, Hj1. fold n. by rewrite <- !app_assoc.
Qed.

(** X20: A batch size or a number of workers that is not positive: with a
    batch size of zero the two batch operations of the funds raise
    [ValueError] before any storage call, with a non-positive number of
    workers as well; with a negative batch size they return their
    duration without any storage call, so that the records are dropped
    without an error. *)
Theorem fund_batches_degenerate_size (db : FundDatabase)
    (funds : list fund_record) (w : world H) :
  funds <> [] ->
  (db_batch_size db = 0 ->
   insert_new_funds db funds w
   = (Raises (PyError "ValueError" "range() arg 3 must not be zero"), w) /\
   update_existing_funds db funds w
   = (Raises (PyError "ValueError" "range() arg 3 must not be zero"), w)) /\
  (db_batch_size db < 0 -> 0 < db_max_workers db ->
   exists d,
     insert_new_funds db funds w = (Returns d, w) /\
     update_existing_funds db funds w = (Returns d, w)) /\
  (db_batch_size db <> 0 -> db_max_workers db <= 0 ->
   insert_new_funds db funds w
   = (Raises (PyError "ValueError" "max_workers must be greater than 0"), w) /\
   update_existing_funds db funds w
   = (Raises (PyError "ValueError" "max_workers must be greater than 0"), w)).
Proof.
  intros Hne. destruct funds as [| f funds]; [done |].
  unfold insert_new_funds, update_existing_funds, run_fund_batches,
    batches_of, new_executor, bind, time, ret, raise.
  split; [| split].
  - intros Hz.
    destruct (Z.eqb_spec (db_batch_size db) 0); [by split | lia].
  - intros Hneg Hpos.
    destruct (Z.eqb_spec (db_batch_size db) 0); [lia |].
    destruct (Z.ltb_spec (db_batch_size db) 0); [| lia].
    destruct (Z.leb_spec (db_max_workers db) 0); [lia |]. simpl.
    eexists. by split.
  - intros Hnz Hw. split.
    + destruct (Z.eqb_spec (db_batch_size db) 0); [lia |].
    destruct (Z.ltb_spec (db_batch_size db) 0);
        (destruct (Z.leb_spec (db_max_workers db) 0); [reflexivity | lia]).
    + destruct (Z.eqb_spec (db_batch_size db) 0); [lia |].
      destruct (Z.ltb_spec (db_batch_size db) 0);
        (destruct (Z.leb_spec (db_max_workers db) 0); [reflexivity | lia]).
Qed.

End FundStorage.

Section FundStorageAt.
Import Sim Examples Trace FundDb.

Lemma funds_batches_on_healthy_db_witness :
  exists d w',
    execute_batch_updates (MkFundDatabase 6 2) [fund_a; fund_b; fund_c]
      {[PStr "A"; PStr "B"]} ∅ {[PStr "C"]} (start funds_complete sim_init)
    = (Returns d, w').
Proof.
  destruct (funds_batches_on_healthy_db (H := funds_complete)
              (MkFundDatabase 6 2) [fund_a; fund_b; fund_c]
              {[PStr "A"; PStr "B"]} ∅ {[PStr "C"]}
              (start funds_complete sim_init))
    as (d & w' & Hrun & _).
  - split; [split; intros s; reflexivity |].
    intros st s. eexists. reflexivity.
  - simpl. lia.
  - simpl. lia.
  - by exists d, w'.
Defined.

Lemma fund_batches_degenerate_size_witness :
  insert_new_funds (MkFundDatabase 6 0) [fund_a]
    (start funds_complete sim_init)
  = (Raises (PyError "ValueError" "range() arg 3 must not be zero"),
     start funds_complete sim_init).
Proof.
  refine (proj1 (proj1 (fund_batches_degenerate_size (H := funds_complete)
                          (MkFundDatabase 6 0) [fund_a]
                          (start funds_complete sim_init) _) _)).
  - discriminate.
  - reflexivity.
Defined.

End FundStorageAt.

(** ** What the diff of the funds sends to the batch operations *)

Section FundDiffRecords.
Import Fund.

Lemma filter_complement_perm {A : Type} (p : A -> bool) (l : list A) :
  Permutation (List.filter p l ++ List.filter (fun x => negb (p x)) l) l.
Proof.
  induction l as [| a l IH]; simpl; [constructor |].
  destruct (p a); simpl.
  - by constructor.
  - rewrite <- Permutation_middle. by constructor.
Qed.

(** X21: The code sets of the diff, used as the filters of the storage
    phase, send every merged record to exactly one of the two batch
    operations: the records to insert are those whose code is not
    stored yet, the records to update are those whose code is stored,
    in the order of the merged list; together they are the merged
    list, and no code to remove belongs to a merged record. *)
Theorem funds_records_written_once (final_funds : list fund_record)
    (existing_codes : gset pyval) :
  let '(new_codes, removed_codes, update_codes) :=
    analyze_data_differences final_funds existing_codes in
  let new_funds :=
    List.filter (fun f => bool_decide (code f ∈ new_codes)) final_funds in
  let update_funds :=
    List.filter (fun f => bool_decide (code f ∈ update_codes)) final_funds in
  new_funds
  = List.filter (fun f => negb (bool_decide (code f ∈ existing_codes)))
      final_funds /\
  update_funds
  = List.filter (fun f => bool_decide (code f ∈ existing_codes)) final_funds /\
  Permutation (update_funds ++ new_funds) final_funds /\
  Forall (fun f => code f ∉ removed_codes) final_funds.
Proof.
  unfold analyze_data_differences. cbv zeta.
  assert (Hcodes : forall f, In f final_funds ->
            code f ∈ (list_to_set (map code final_funds) : gset pyval)).
  { intros f Hf. apply elem_of_list_to_set, list_elem_of_fmap.
    exists f. split; [reflexivity | by apply list_elem_of_In]. }
  assert (Hnew :
    List.filter
      (fun f => bool_decide
                  (code f ∈ (list_to_set (map code final_funds) : gset pyval)
                            ∖ existing_codes)) final_funds
    = List.filter (fun f => negb (bool_decide (code f ∈ existing_codes)))
        final_funds).
  { apply List.filter_ext_in. intros f Hf. specialize (Hcodes f Hf).
    destruct (decide (code f ∈ existing_codes)) as [Hin | Hout].
    - rewrite (bool_decide_eq_true_2 _ Hin). simpl.
      apply bool_decide_eq_false_2. intros Hd.
      apply elem_of_difference in Hd as [_ Hd]. by apply Hd.
    - rewrite (bool_decide_eq_false_2 _ Hout). simpl.
      apply bool_decide_eq_true_2. by apply elem_of_difference. }
  assert (Hupd :
    List.filter
      (fun f => bool_decide
                  (code f ∈ (list_to_set (map code final_funds) : gset pyval)
                            ∩ existing_codes)) final_funds
    = List.filter (fun f => bool_decide (code f ∈ existing_codes))
        final_funds).
  { apply List.filter_ext_in. intros f Hf. specialize (Hcodes f Hf).
    destruct (decide (code f ∈ existing_codes)) as [Hin | Hout].
    - rewrite (bool_decide_eq_true_2 _ Hin).
      apply bool_decide_eq_true_2. by apply elem_of_intersection.
    - rewrite (bool_decide_eq_false_2 _ Hout).
      apply bool_decide_eq_false_2. intros Hd.
      apply elem_of_intersection in Hd as [_ Hd]. by apply Hout. }
  split; [exact Hnew |]. split; [exact Hupd |]. split.
  - rewrite Hnew, Hupd. apply filter_complement_perm.
  - apply Forall_forall. intros f Hf Hd.
    apply elem_of_difference in Hd as [_ Hd]. apply Hd, Hcodes.
    by apply list_elem_of_In.
Qed.

End FundDiffRecords.

(** ** The order of the phases of a funds run *)

Section FundPhases.
Import Obs Trace Fund FundDb.
Context {H : host}.
Variable P : event -> bool.
Hypothesis storage_events_pass :
  forall ev, is_storage_event ev = true -> P ev = true.

Lemma only_batches_of {A : Type} (records : list A) (batch_size : Z) :
  only P (batches_of (H := H) records batch_size).
Proof.
  unfold batches_of. destruct (_ =? _); [apply only_raise |].
  destruct (_ <? _); apply only_ret.
Qed.

Lemma only_new_executor (workers : Z) : only P (new_executor (H := H) workers).
Proof.
  unfold new_executor. destruct (_ <=? _); [apply only_raise | apply only_ret].
Qed.

Lemma only_statement_in_transaction (s : stmt) :
  only P (with_transaction (H := H) (execute s)).
Proof.
  apply only_with_transaction; try by apply storage_events_pass.
  apply only_execute. by apply storage_events_pass.
Qed.

Lemma only_workers (worker : list fund_record -> nat -> M H Z)
    (batches : list (list fund_record)) :
  (forall batch i, only P (worker batch i)) ->
  forall g : nat -> nat,
    Forall (only P) (imap (fun i batch => worker batch (g i)) batches).
Proof.
  intros Hw. induction batches as [| batch rest IH]; intros g; simpl.
  - constructor.
  - constructor; [apply Hw |]. apply (IH (g ∘ S)).
Qed.

Lemma only_run_fund_batches (db : FundDatabase)
    (worker : list fund_record -> nat -> M H Z) (funds : list fund_record) :
  (forall batch i, only P (worker batch i)) ->
  only P (run_fund_batches db worker funds).
Proof.
  intros Hw. unfold run_fund_batches. destruct funds; [apply only_ret |].
  apply only_bind; [apply only_time | intros ?].
  apply only_bind; [apply only_batches_of | intros batches].
  apply only_bind; [apply only_new_executor | intros _].
  apply only_bind.
  - apply only_run_pool. exact (only_workers worker batches Hw id).
  - intros futures.
    apply only_bind; [apply only_unwrap | intros _].
    apply only_bind; [apply only_time | intros ?; apply only_ret].
Qed.

Lemma only_execute_batch_updates (db : FundDatabase)
    (final_funds : list fund_record)
    (new_codes removed_codes update_codes : gset pyval) :
  only P (execute_batch_updates (H := H) db final_funds new_codes
            removed_codes update_codes).
Proof.
  unfold execute_batch_updates.
  apply only_bind; [apply only_time | intros ?].
  apply only_bind.
  { unfold mark_funds_deleted. destruct (bool_decide _); [apply only_ret |].
    apply only_bind; [apply only_time | intros ?].
    apply only_bind; [apply only_statement_in_transaction | intros _].
    apply only_bind; [apply only_time | intros ?; apply only_ret]. }
  intros _.
  apply only_bind.
  { apply only_run_fund_batches. intros batch i.
    unfold _batch_insert_worker.
    apply only_bind; [apply only_time | intros ?].
    apply only_bind; [apply only_statement_in_transaction | intros _].
    apply only_bind; [apply only_time | intros ?; apply only_ret]. }
  intros _.
  apply only_bind.
  { apply only_run_fund_batches. intros batch i.
    unfold _batch_update_worker.
    apply only_bind; [apply only_time | intros ?].
    apply only_bind; [apply only_statement_in_transaction | intros _].
    apply only_bind; [apply only_time | intros ?; apply only_ret]. }
  intros _.
  apply only_bind; [apply only_time | intros ?; apply only_ret].
Qed.

Lemma only_get_existing_fund_codes :
  only P (get_existing_fund_codes (H := H)).
Proof.
  unfold get_existing_fund_codes.
  apply only_with_connection; try by apply storage_events_pass.
  apply only_bind; [apply only_execute; by apply storage_events_pass |].
  intros res.
  apply only_bind; [apply only_unwrap | intros codes; apply only_ret].
Qed.

End FundPhases.

Section FundRun.
Import Obs Trace Fund FundDb.
Context {H : host}.

(** X22: A funds run fetches first and stores afterwards: its events split
    into a first part without any storage event (the engine and the
    provider calls with their sleeps) and a second part without any
    provider call or sleep.  Once the first statement has reached the
    database, no provider is called any more. *)
Theorem funds_fetch_before_storage (w : world H) :
  exists r evs1 evs2 w',
    FundDb.sync_task_runner w = (r, w') /\
    journal w' = journal w ++ evs1 ++ evs2 /\
    storage_events evs1 = [] /\
    forallb no_provider_call evs2 = true.
Proof.
  assert (Hst : forall ev,
             is_storage_event ev = true -> no_provider_call ev = true)
    by (by intros []).
  unfold FundDb.sync_task_runner.
  unfold bind at 1, time at 1. unfold bind at 1.
  destruct (quiet_get_db_engine w) as (r0 & evs0 & w0 & -> & Hj0 & Hq0).
  destruct r0 as [[] | e].
  2: { exists (Raises e), evs0, [], w0. rewrite app_nil_r. by repeat split. }
  unfold bind at 1.
  destruct (quiet_collect_all_fund_data w0)
    as (r1 & evs1 & w1 & -> & Hj1 & Hq1).
  assert (Hfirst : journal w1 = journal w ++ evs0 ++ evs1)
    by (rewrite Hj1, Hj0; by rewrite app_assoc).
  assert (Hquiet : storage_events (evs0 ++ evs1) = [])
    by (by rewrite storage_events_app, Hq0, Hq1).
  destruct r1 as [fund_data | e].
  2: { exists (Raises e), (evs0 ++ evs1), [], w1. rewrite app_nil_r.
       by repeat split. }
  match goal with
  | |- context [?k w1] =>
      assert (Hrest : only no_provider_call k)
  end.
  { destruct fund_data as [fund_data |]; [| apply only_ret].
    destruct (bool_decide _); [apply only_ret |].
    apply only_bind; [apply only_unwrap | intros [final_funds codes]].
    apply only_bind; [by apply only_get_existing_fund_codes |].
    intros existing_codes.
    destruct (analyze_data_differences final_funds existing_codes)
      as [[new_codes removed_codes] update_codes].
    apply only_bind; [by apply only_execute_batch_updates | intros _].
    apply only_bind; [apply only_time | intros ?; apply only_ret]. }
  destruct (Hrest w1) as (r2 & evs2 & w2 & -> & Hj2 & Hq2).
  exists r2, (evs0 ++ evs1), evs2, w2.
  repeat split; [| exact Hquiet | exact Hq2].
  rewrite Hj2, Hfirst. by rewrite <- !app_assoc.
Qed.

End FundRun.

(** ** The entry point of both tasks *)

Section MainRun.
Import Obs Trace Stock Task Main.
Context {H : host}.

Lemma run_fundsync_task_fails (w : world H) :
  exists error w', run_fundsync_task w = (Returns (RunFailure error), w').
Proof.
  unfold run_fundsync_task. unfold bind at 1, try_.
  unfold bind at 1.
  destruct (FundDb.sync_task_runner w) as [[[] | e] w1];
    eexists _, _; reflexivity.
Qed.

Lemma run_stocksync_task_returns (w : world H) :
  exists res w', run_stocksync_task w = (Returns res, w').
Proof.
  unfold run_stocksync_task. unfold bind at 1, try_.
  destruct (Stock.sync_task_runner w) as [[res | e] w1];
    eexists _, _; reflexivity.
Qed.

(** X23: The entry point [main] never raises and never reports that all
    tasks succeeded: the funds task is listed as failed in every
    summary, since the funds runner hands back no result.  The summary
    is either the partial-failure sentence with [stocksync] as the one
    success, or the sentence that lists both tasks as failed. *)
Theorem main_lists_fundsync_as_failed (w : world H) :
  exists msg w' fund_error,
    main w = (Returns msg, w') /\
    (msg = ("部分数据同步任务执行失败。成功: "
            ++ String.concat ", " ["stocksync"]
            ++ "；失败: "
            ++ String.concat ", " ["fundsync(" ++ fund_error ++ ")"])%string
     \/
     exists stock_error,
       msg = ("所有数据同步任务执行失败。失败原因: "
              ++ String.concat ", "
                   ["fundsync(" ++ fund_error ++ ")";
                    "stocksync(" ++ stock_error ++ ")"])%string).
Proof.
  unfold main. unfold bind at 1, time at 1. unfold bind at 1.
  destruct (run_fundsync_task_fails w) as (fund_error & w1 & ->).
  unfold bind at 1.
  destruct (run_stocksync_task_returns w1) as (res & w2 & ->).
  unfold bind at 1, time at 1.
  destruct res as [processed skipped | stock_error]; simpl.
  - eexists _, w2, fund_error. split; [reflexivity |]. by left.
  - eexists _, w2, fund_error. split; [reflexivity |]. right.
    by exists stock_error.
Qed.

End MainRun.

(** ** The template method on the fund processor *)

Section FundTemplate.
Import Obs Trace Fund BaseRun.
Context {H : host}.

Lemma retry_events_provider (f : string) (evs : list event) :
  forallb (is_retry_event f) evs = true ->
  forallb is_provider_event evs = true.
Proof.
  induction evs as [| ev evs IH]; simpl; [done |].
  intros [Hev Hevs]%andb_true_iff. rewrite (IH Hevs), andb_true_r.
  by destruct ev.
Qed.

Lemma collect_first_source {Raw Data Res : Type}
    (p : processor H Raw Data Res) (source_name api_func : string)
    (rest : list source_config) (all_data : gmap string Data) :
  collect p (SourceConfig (Some source_name) (Some api_func) :: rest) all_data
  = bind (BaseRun.safe_get_data p api_func source_name)
      (fun raw_data =>
         match raw_data with
         | Some raw_data =>
             bind (BaseRun.process_data p raw_data source_name)
               (fun processed_data =>
                  bind (unwrap (truth p processed_data))
                    (fun ok : bool =>
                       if ok
                       then collect p rest
                              (<[source_name := processed_data]> all_data)
                       else ret (inl (BaseFailure
                                        (source_name ++ " 数据处理失败")))))
         | None => ret (inl (BaseFailure (source_name ++ " 数据获取失败")))
         end).
Proof. reflexivity. Qed.

(** The retry loop of the funds with its default of three attempts. *)
Lemma safe_get_data_retry_trace (get_func fund_name : string) (w : world H) :
  exists r k evs w',
    Fund.safe_get_data get_func fund_name None w = (Returns r, w') /\
    journal w' = journal w ++ evs /\
    retry_trace get_func k evs /\ (1 <= k <= 3)%nat.
Proof.
  unfold Fund.safe_get_data.
  change (default (Config.max_retry FUND_CONFIG) None) with 3.
  destruct (safe_get_data_loop_trace (H := H) get_func 3 3 0 w eq_refl)
    as (r & k & evs & w1 & Hrun & Hj & Htr & Hk & Hk1 & _).
  change (seq 0 (Z.to_nat 3)) with (seq 0 3). rewrite Hrun.
  exists r, k, evs, w1.
  refine (conj eq_refl (conj Hj (conj Htr _))).
  split; [apply Hk1; lia | exact Hk].
Qed.

(** X24: The template method [run] of the base class never succeeds on the
    fund processor: whatever the providers answer it returns a failure
    dict.  Without a fund task it reports that no data was obtained and
    does nothing else.  Otherwise it runs the retry loop of the first
    task only, which calls the provider function of that task between
    one and three times, and nothing else happens: when the loop hands
    back no table the run reports that the data of this fund type could
    not be fetched, and when it hands back a table the truth test of
    [run] on it raises and the run reports the message of that
    [ValueError].  The storage is never reached. *)
Theorem fund_template_run_always_fails (w : world H) :
  match fund_tasks H with
  | [] =>
      run (FundProcessor.template H) w
      = (Returns (BaseFailure "没有获取到任何有效数据"), w)
  | (fund_type, func, _) :: _ =>
      exists r k evs w',
        Fund.safe_get_data func fund_type None w = (Returns r, w') /\
        journal w' = journal w ++ evs /\
        retry_trace func k evs /\ (1 <= k <= 3)%nat /\
        forallb is_provider_event evs = true /\
        run (FundProcessor.template H) w
        = (Returns
             (BaseFailure
                match r with
                | Some _ =>
                    "The truth value of a DataFrame is ambiguous. Use a.empty, a.bool(), a.item(), a.any() or a.all()."
                | None => fund_type ++ " 数据获取失败"
                end), w')
  end.
Proof.
  assert (Hrun : forall tasks,
    fund_tasks H = tasks ->
    run (FundProcessor.template H) w
    = (let '(r, w') :=
         collect (FundProcessor.template H)
           (map (fun '(fund_type, func, _) =>
                   SourceConfig (Some fund_type) (Some func)) tasks) ∅ w in
       match r with
       | Returns (inl early) => (Returns early, w')
       | Returns (inr all_data) =>
           if bool_decide (all_data = ∅)
           then (Returns (BaseFailure "没有获取到任何有效数据"), w')
           else (Returns
                   (BaseFailure
                      "sync_to_database() missing 2 required positional arguments: 'fund_type' and 'db_connection'"),
                 w')
       | Raises e => (Returns (BaseFailure (exn_msg e)), w')
       end)).
  { intros tasks <-. unfold run, bind, try_, time, ret.
    change (BaseRun.get_data_sources (FundProcessor.template H) w)
      with (Returns (FundProcessor.get_data_sources H), w).
    unfold FundProcessor.get_data_sources.
    destruct (collect _ _ ∅ w) as [[[early | all_data] | e] w'];
      try reflexivity.
    destruct (bool_decide (all_data = ∅)); reflexivity. }
  destruct (fund_tasks H) as [| [[fund_type func] c] rest] eqn:Htasks;
    rewrite (Hrun _ eq_refl); clear Hrun; simpl map.
  - unfold collect, ret. rewrite bool_decide_eq_true_2 by done. reflexivity.
  - rewrite collect_first_source. unfold bind at 1.
    change (BaseRun.safe_get_data (FundProcessor.template H) func fund_type)
      with (Fund.safe_get_data (H := H) func fund_type None).
    destruct (safe_get_data_retry_trace func fund_type w)
      as (r & k & evs & w1 & Hget & Hj & Htr & Hk).
    exists r, k, evs, w1. rewrite Hget.
    refine (conj eq_refl (conj Hj (conj Htr (conj Hk (conj _ _))))).
    + destruct Htr as (Hall & _). by apply retry_events_provider in Hall.
    + destruct r as [df |]; reflexivity.
Qed.

End FundTemplate.

(** ** The map of the existing symbols *)

Section SymbolMap.
Import StockDb.

Lemma build_symbol_map_acc (rows : list (list pyval)) :
  Forall (fun row => (2 <= length row)%nat) rows ->
  forall (symbol_map : gmap pyval (gset pyval)) (market symbol : pyval),
    symbol ∈ default ∅ (build_symbol_map rows symbol_map !! market) <->
    symbol ∈ default ∅ (symbol_map !! market) \/
    exists row,
      row ∈ rows /\ row !! 0%nat = Some symbol /\ row !! 1%nat = Some market.
Proof.
  induction 1 as [| row rest Hrow _ IH]; intros symbol_map market symbol;
    simpl.
  - split; [by left | intros [Hin | (row & Hin & _)]; [done |]].
    by apply elem_of_nil in Hin.
  - destruct row as [| sym [| mkt cells]]; simpl in Hrow; try lia.
    simpl. rewrite IH. split.
    + intros [Hin | (row & Hin & Hs & Hm)].
      * destruct (decide (mkt = market)) as [-> | Hneq].
        -- rewrite lookup_insert_eq in Hin. simpl in Hin.
           apply elem_of_union in Hin as [Hin | Hin]; [| by left].
           apply elem_of_singleton in Hin as ->. right.
           exists (sym :: market :: cells). split; [by left | done].
        -- rewrite lookup_insert_ne in Hin by done. by left.
      * right. exists row. split; [by right | done].
    + intros [Hin | (row & Hin & Hs & Hm)].
      * left. destruct (decide (mkt = market)) as [-> | Hneq].
        -- rewrite lookup_insert_eq. simpl. apply elem_of_union. by right.
        -- by rewrite lookup_insert_ne.
      * apply elem_of_cons in Hin as [-> | Hin].
        -- simpl in Hs, Hm. injection Hs as ->. injection Hm as ->.
           left. rewrite lookup_insert_eq. simpl. apply elem_of_union.
           left. by apply elem_of_singleton.
        -- right. by exists row.
Qed.

(** X25: The map of the existing symbols groups the rows of the query by
    market: when every row has its two cells, a symbol is in the set of
    a market exactly if some row pairs that symbol with that market. *)
Theorem build_symbol_map_groups (rows : list (list pyval))
    (market symbol : pyval) :
  Forall (fun row => (2 <= length row)%nat) rows ->
  symbol ∈ default ∅ (build_symbol_map rows ∅ !! market) <->
  exists row,
    row ∈ rows /\ row !! 0%nat = Some symbol /\ row !! 1%nat = Some market.
Proof.
  intros Hrows. rewrite (build_symbol_map_acc rows Hrows).
  rewrite lookup_empty. simpl. split; [intros [Hin | Hrow] | by right].
  - by apply elem_of_empty in Hin.
  - exact Hrow.
Qed.

Lemma build_symbol_map_groups_witness :
  PStr "000001"
  ∈ default ∅ (build_symbol_map [[PStr "000001"; PStr "A股"]] ∅ !! PStr "A股")
  <->
  exists row,
    row ∈ [[PStr "000001"; PStr "A股"]] /\
    row !! 0%nat = Some (PStr "000001") /\ row !! 1%nat = Some (PStr "A股").
Proof.
  apply (build_symbol_map_groups [[PStr "000001"; PStr "A股"]]).
  repeat constructor.
Defined.

End SymbolMap.
